(** * Portfolio tracker: change detection, trading calendar, parsing helpers

    A shallow embedding of the TypeScript services of the portfolio tracker
    (change detector, trading calendar, account grouping, number parsing and
    model-name matching) together with the properties stated about them.

    Conventions of the embedding.
    - A JavaScript string is a [string]; each [ascii] stands for the UTF-16
      code unit of the same number, so the strings covered are those over
      the code units 0..255.
    - A regular-expression literal is written as a [regex] term and run by
      a backtracking matcher with the priorities of the ECMAScript one
      (greedy repetition first, left alternative first).
    - [Array.prototype.sort] is a stable insertion sort driven by the
      comparator it is given. *)

From Stdlib Require Import ZArith List String Ascii Bool Lia Arith.
From Stdlib Require Import Floats.SpecFloat Numbers.DecimalString Sorting.Sorted.
From Stdlib Require Import Sorting.Permutation.
Import ListNotations.
Open Scope string_scope.

(* ================================================================== *)
(** ** Characters and strings of the runtime *)

Module JS.

Definition code (c : ascii) : nat := nat_of_ascii c.

Definition inRange (lo hi : nat) (c : ascii) : bool :=
  (lo <=? code c)%nat && (code c <=? hi)%nat.

Definition isChar (x c : ascii) : bool := Ascii.eqb x c.

(** [\d] *)
Definition isDigit : ascii -> bool := inRange 48 57.

(** [A-Z] *)
Definition isUpperAZ : ascii -> bool := inRange 65 90.

(** [a-z] *)
Definition isLowerAZ : ascii -> bool := inRange 97 122.

(** [\s], and the characters removed by [trim]: TAB, LF, VT, FF, CR, SPACE
    and NO-BREAK SPACE are the white space and line terminators below 256. *)
Definition isSpace (c : ascii) : bool :=
  inRange 9 13 c || (code c =? 32)%nat || (code c =? 160)%nat.

(** The line feed of a holdings text. *)
Definition LF : string := String (ascii_of_nat 10) EmptyString.

(** Upper- and lower-casing of one code unit.  Below 256 the lower-case
    mapping moves A-Z and the Latin-1 capitals (except the multiplication
    sign) by 32. *)
Definition lowerChar (c : ascii) : ascii :=
  if isUpperAZ c || (inRange 192 222 c && negb (code c =? 215)%nat)
  then ascii_of_nat (code c + 32) else c.

(** Upper-casing is used by the program on ASCII letters only; the
    Latin-1 small letters with a capital below 256 are mapped as well. *)
Definition upperChar (c : ascii) : ascii :=
  if isLowerAZ c || (inRange 224 254 c && negb (code c =? 247)%nat)
  then ascii_of_nat (code c - 32) else c.

Fixpoint mapString (f : ascii -> ascii) (s : string) : string :=
  match s with
  | EmptyString => EmptyString
  | String c s' => String (f c) (mapString f s')
  end.

Definition toLowerCase : string -> string := mapString lowerChar.
Definition toUpperCase : string -> string := mapString upperChar.

(** [s.startsWith(p)] *)
Definition startsWith (s p : string) : bool := String.prefix p s.

(** [s.includes(sub)] *)
Fixpoint includes (s sub : string) : bool :=
  String.prefix sub s ||
  match s with
  | EmptyString => false
  | String _ s' => includes s' sub
  end.

Fixpoint trimStart (s : string) : string :=
  match s with
  | EmptyString => EmptyString
  | String c s' => if isSpace c then trimStart s' else s
  end.

Fixpoint trimEnd (s : string) : string :=
  match s with
  | EmptyString => EmptyString
  | String c s' =>
      match trimEnd s' with
      | EmptyString => if isSpace c then EmptyString else String c EmptyString
      | t => String c t
      end
  end.

(** [s.trim()] *)
Definition trim (s : string) : string := trimEnd (trimStart s).

(** Every character of [s] is in the class [p]. *)
Fixpoint allChars (p : ascii -> bool) (s : string) : bool :=
  match s with
  | EmptyString => true
  | String c s' => p c && allChars p s'
  end.

(** [s] does not begin with a character of the class [p]. *)
Definition headNot (p : ascii -> bool) (s : string) : Prop :=
  match s with
  | EmptyString => True
  | String c _ => p c = false
  end.

(** Truthiness of a string: only the empty string is falsy. *)
Definition truthy (s : string) : bool :=
  match s with EmptyString => false | _ => true end.

(** [a || b] on strings. *)
Definition orElse (a b : string) : string := if truthy a then a else b.

(** [arr.includes(x)] on an array of strings. *)
Definition arrIncludes (l : list string) (x : string) : bool :=
  existsb (String.eqb x) l.

(** [[...new Set(arr)]]: the first occurrence of every element, in order. *)
Fixpoint uniq (l : list string) : list string :=
  match l with
  | [] => []
  | x :: l' => x :: filter (fun y => negb (String.eqb x y)) (uniq l')
  end.

(** [Array.prototype.sort(cmp)]: a stable insertion sort. *)
Fixpoint insertBy {A : Type} (cmp : A -> A -> Z) (x : A) (l : list A) : list A :=
  match l with
  | [] => [x]
  | y :: l' => if (cmp x y <=? 0)%Z then x :: l else y :: insertBy cmp x l'
  end.

Definition sortBy {A : Type} (cmp : A -> A -> Z) (l : list A) : list A :=
  fold_right (insertBy cmp) [] l.

(** The default comparator of [sort()] on strings: code unit order. *)
Definition defaultCompare (a b : string) : Z :=
  match String.compare a b with
  | Lt => (-1)%Z
  | Eq => 0%Z
  | Gt => 1%Z
  end.

End JS.

(* ================================================================== *)
(** ** Regular expressions *)

Module Regex.

Inductive regex : Type :=
| Eps
| Chr (p : ascii -> bool)          (* one character of a class *)
| Cat (r1 r2 : regex)
| Alt (r1 r2 : regex)
| Star (p : ascii -> bool)         (* [p*], greedy *)
| Eoi.                             (* [$] without the m flag *)

(** [p+] *)
Definition Plus (p : ascii -> bool) : regex := Cat (Chr p) (Star p).

(** A literal character, and a literal letter under the [i] flag. *)
Definition Lit (c : ascii) : regex := Chr (JS.isChar c).
Definition LitI (c : ascii) : regex :=
  Chr (fun x => Ascii.eqb (JS.lowerChar x) (JS.lowerChar c)).

(** [exec r s k] matches [r] at the head of [s] and hands the rest of the
    input to the continuation [k]; when [k] fails the matcher backtracks
    into [r].  The answer is the input left after the whole match. *)
Fixpoint exec (r : regex) (s : string) (k : string -> option string)
  : option string :=
  match r with
  | Eps => k s
  | Chr p =>
      match s with
      | String c s' => if p c then k s' else None
      | EmptyString => None
      end
  | Cat r1 r2 => exec r1 s (fun s' => exec r2 s' k)
  | Alt r1 r2 =>
      match exec r1 s k with
      | Some t => Some t
      | None => exec r2 s k
      end
  | Star p =>
      (fix loop (s : string) : option string :=
         match s with
         | String c s' =>
             if p c then
               match loop s' with
               | Some t => Some t
               | None => k s
               end
             else k s
         | EmptyString => k s
         end) s
  | Eoi =>
      match s with
      | EmptyString => k s
      | _ => None
      end
  end.

(** The match of [r] starting exactly at the head of [s]: the matched text
    and what follows it. *)
Definition matchAt (r : regex) (s : string) : option (string * string) :=
  match exec r s Some with
  | Some rest => Some (substring 0 (length s - length rest) s, rest)
  | None => None
  end.

(** Leftmost match: the text before it, the match, the text after it. *)
Fixpoint search (r : regex) (s : string) : option (string * string * string) :=
  match matchAt r s with
  | Some (m, rest) => Some (EmptyString, m, rest)
  | None =>
      match s with
      | EmptyString => None
      | String c s' =>
          match search r s' with
          | Some (b, m, a) => Some (String c b, m, a)
          | None => None
          end
      end
  end.

(** [s.match(r)] for a regex without the g flag: element 0 of the result. *)
Definition match1 (r : regex) (s : string) : option string :=
  match search r s with
  | Some (_, m, _) => Some m
  | None => None
  end.

(** [s.replace(r, repl)] for a regex without the g flag. *)
Definition replace1 (r : regex) (repl s : string) : string :=
  match search r s with
  | Some (b, _, a) => b ++ repl ++ a
  | None => s
  end.

(** [s.replace(/^.../, repl)]: the match may only start at index 0. *)
Definition replaceAtStart (r : regex) (repl s : string) : string :=
  match matchAt r s with
  | Some (_, rest) => repl ++ rest
  | None => s
  end.

(** [r.test(s)] for a regex that begins with [^]. *)
Definition testAtStart (r : regex) (s : string) : bool :=
  match matchAt r s with
  | Some _ => true
  | None => false
  end.

(** All matches from left to right, as [lastIndex] walks the input:
    [skip] counts the characters still inside the previous match. *)
Fixpoint scan (r : regex) (s : string) (skip : nat) : list string :=
  match s with
  | EmptyString =>
      match skip, matchAt r s with
      | O, Some (m, _) => [m]
      | _, _ => []
      end
  | String _ s' =>
      match skip with
      | S n => scan r s' n
      | O =>
          match matchAt r s with
          | Some (m, _) => m :: scan r s' (length m - 1)
          | None => scan r s' 0
          end
      end
  end.

(** [s.match(r)] for a regex with the g flag: [null] when nothing matches. *)
Definition matchAll (r : regex) (s : string) : option (list string) :=
  match scan r s 0 with
  | [] => None
  | l => Some l
  end.

(** [s.replace(r, repl)] for a regex with the g flag. *)
Fixpoint replaceAll (r : regex) (repl s : string) (skip : nat) : string :=
  match s with
  | EmptyString =>
      match skip, matchAt r s with
      | O, Some _ => repl
      | _, _ => EmptyString
      end
  | String c s' =>
      match skip with
      | S n => replaceAll r repl s' n
      | O =>
          match matchAt r s with
          | Some (m, _) =>
              match length m with
              | O => repl ++ String c (replaceAll r repl s' 0)
              | S n => repl ++ replaceAll r repl s' n
              end
          | None => String c (replaceAll r repl s' 0)
          end
      end
  end.


End Regex.

Import Regex.

(* ================================================================== *)
(** ** Numbers

    A JavaScript number is an IEEE 754 binary64 value. *)

Module Num.

Definition number : Type := spec_float.

Definition prec : Z := 53.
Definition emax : Z := 1024.

Definition NaN : number := S754_nan.
Definition zero : number := S754_zero false.

(** The number denoted by an integer literal. *)
Definition ofZ (z : Z) : number := binary_normalize prec emax z 0 false.

(** [a + b] *)
Definition add (a b : number) : number := SFadd prec emax a b.

(** [-a] and [Math.abs(a)] *)
Definition neg (a : number) : number := SFopp a.
Definition abs (a : number) : number := SFabs a.

(** Truthiness of a number: NaN and the two zeros are falsy. *)
Definition truthy (a : number) : bool :=
  match a with
  | S754_nan | S754_zero _ => false
  | _ => true
  end.

(** [a || b] on numbers. *)
Definition orElse (a b : number) : number := if truthy a then a else b.

(** [a < 0] *)
Definition isNegative (a : number) : bool := SFltb a zero.

(** [a / b] *)
Definition div (a b : number) : number := SFdiv prec emax a b.

(** [Math.ceil(a)] of a finite number, as the integer it is; [None] when
    [a] is NaN or infinite. *)
Definition ceil (a : number) : option Z :=
  match a with
  | S754_zero _ => Some 0%Z
  | S754_finite s m e =>
      let z := if s then Z.neg m else Z.pos m in
      if (0 <=? e)%Z then Some (z * 2 ^ e)%Z
      else Some (- ((- z) / 2 ^ (- e)))%Z
  | S754_infinity _ | S754_nan => None
  end.

End Num.

(* ================================================================== *)
(** ** Dates of the runtime

    A [Date] holds a time value: the milliseconds since 1970-01-01T00:00Z,
    or NaN for an invalid date.  [new Date(s)] reads a date-only string
    [YYYY-MM-DD] as midnight UTC, while [getDay], [getDate] and [setDate]
    work on the local time of the host, and [toISOString] prints UTC
    again.  What the standard leaves to the host is a parameter: its
    offset from UTC at every instant, and what it makes of a string that
    is not a date-only string. *)

Module DateModel.

Local Open Scope Z_scope.

(** Day number of 1 January of year [y] (ECMAScript [DayFromYear]). *)
Definition DayFromYear (y : Z) : Z :=
  365 * (y - 1970) + (y - 1969) / 4 - (y - 1901) / 100 + (y - 1601) / 400.

Definition InLeapYear (y : Z) : Z :=
  if (y mod 4 =? 0) && (negb (y mod 100 =? 0) || (y mod 400 =? 0)) then 1 else 0.

(** The year containing day [d] (ECMAScript [YearFromTime]): an estimate
    from the mean length of a year, corrected by at most one. *)
Definition YearFromDay (d : Z) : Z :=
  let y0 := 1970 + (400 * d) / 146097 in
  if d <? DayFromYear y0 then y0 - 1
  else if DayFromYear (y0 + 1) <=? d then y0 + 1
  else y0.

(** Day within the year at which month [m] (0..11) starts. *)
Definition monthStart (leap m : Z) : Z :=
  if m <=? 0 then 0
  else if m =? 1 then 31
  else if m =? 2 then 59 + leap
  else if m =? 3 then 90 + leap
  else if m =? 4 then 120 + leap
  else if m =? 5 then 151 + leap
  else if m =? 6 then 181 + leap
  else if m =? 7 then 212 + leap
  else if m =? 8 then 243 + leap
  else if m =? 9 then 273 + leap
  else if m =? 10 then 304 + leap
  else 334 + leap.

Definition DayWithinYear (d : Z) : Z := d - DayFromYear (YearFromDay d).

(** ECMAScript [MonthFromTime], 0..11. *)
Definition MonthFromDay (d : Z) : Z :=
  let leap := InLeapYear (YearFromDay d) in
  let n := DayWithinYear d in
  if n <? 31 then 0
  else if n <? 59 + leap then 1
  else if n <? 90 + leap then 2
  else if n <? 120 + leap then 3
  else if n <? 151 + leap then 4
  else if n <? 181 + leap then 5
  else if n <? 212 + leap then 6
  else if n <? 243 + leap then 7
  else if n <? 273 + leap then 8
  else if n <? 304 + leap then 9
  else if n <? 334 + leap then 10
  else 11.

(** ECMAScript [DateFromTime], 1..31. *)
Definition DateFromDay (d : Z) : Z :=
  DayWithinYear d - monthStart (InLeapYear (YearFromDay d)) (MonthFromDay d) + 1.

(** ECMAScript [MakeDay] for a month already in 0..11. *)
Definition MakeDay (y m dt : Z) : Z :=
  DayFromYear y + monthStart (InLeapYear y) m + dt - 1.

(** [WeekDay]: 0 is Sunday, 6 is Saturday; 1970-01-01 was a Thursday. *)
Definition WeekDay (d : Z) : Z := (d + 4) mod 7.

(** *** Time values *)

Definition msPerDay : Z := 86400000.

(** ECMAScript [Day], [TimeWithinDay] and [MakeDate]. *)
Definition Day (t : Z) : Z := t / msPerDay.
Definition TimeWithinDay (t : Z) : Z := t mod msPerDay.
Definition MakeDate (day time : Z) : Z := day * msPerDay + time.

(** Time values reach 100,000,000 days either side of the epoch. *)
Definition maxDay : Z := 100000000.
Definition maxTime : Z := maxDay * msPerDay.

Definition TimeClip (t : Z) : option Z :=
  if Z.abs t <=? maxTime then Some t else None.

(** *** The host

    [LocalTZA host t isUTC] is the offset of local time from UTC, in
    milliseconds, at the instant [t], which is a UTC time value when
    [isUTC] holds and a local one otherwise (ECMAScript [LocalTZA]).
    [parseOther host s] is the time value that [new Date(s)] gives to a
    string [s] that is not a date-only string: a date-time form of the
    standard, or whatever the implementation accepts besides; [None]
    is NaN. *)
Record Host : Type := {
  LocalTZA : Z -> bool -> Z;
  parseOther : string -> option Z
}.

(** A host that keeps one offset all year. *)
Definition fixedHost (offset : Z) (other : string -> option Z) : Host :=
  {| LocalTZA := fun _ _ => offset; parseOther := other |}.

(** The host keeps the offset [offset] at every instant from [lo] to
    [hi], and [steadyAround host offset d n] from [n] days before
    midnight UTC of day [d] to [n] days after it: no change of its clocks
    falls into these days. *)
Definition steady (host : Host) (offset lo hi : Z) : Prop :=
  forall t isUTC, lo <= t <= hi -> LocalTZA host t isUTC = offset.

Definition steadyAround (host : Host) (offset d n : Z) : Prop :=
  steady host offset ((d - n) * msPerDay) ((d + n) * msPerDay).

(** ECMAScript [LocalTime] and [UTC]. *)
Definition LocalTime (host : Host) (t : Z) : Z := t + LocalTZA host t true.
Definition UTC (host : Host) (t : Z) : Z := t - LocalTZA host t false.

(** A [Date] object: its time value. *)
Definition Date : Type := option Z.

(** [date.getTime()]; [None] is NaN. *)
Definition getTime (t : Date) : option Z := t.

(** [date.getDay()]; [None] is NaN. *)
Definition getDay (host : Host) (t : Date) : option Z :=
  option_map (fun t => WeekDay (Day (LocalTime host t))) t.

(** [date.getDate()]; [None] is NaN. *)
Definition getDate (host : Host) (t : Date) : option Z :=
  option_map (fun t => DateFromDay (Day (LocalTime host t))) t.

(** [date.setDate(dt)], the new time value: the day of the month is
    replaced in local time, and the result is taken back to UTC. *)
Definition setDate (host : Host) (t : Date) (dt : option Z) : Date :=
  match t, dt with
  | Some t, Some n =>
      let t := LocalTime host t in
      let newDate :=
        MakeDate (MakeDay (YearFromDay (Day t)) (MonthFromDay (Day t)) n)
                 (TimeWithinDay t) in
      TimeClip (UTC host newDate)
  | _, _ => None
  end.

(** *** Decimal fields *)

Definition digitChar (n : Z) : ascii := ascii_of_nat (48 + Z.to_nat n).

Definition digitVal (c : ascii) : option Z :=
  if JS.isDigit c then Some (Z.of_nat (JS.code c) - 48) else None.

Definition pad2 (n : Z) : string :=
  String (digitChar (n / 10 mod 10)) (String (digitChar (n mod 10)) EmptyString).

Definition pad4 (n : Z) : string :=
  String (digitChar (n / 1000 mod 10)) (String (digitChar (n / 100 mod 10)) (pad2 n)).

Definition pad6 (n : Z) : string :=
  String (digitChar (n / 100000 mod 10)) (String (digitChar (n / 10000 mod 10)) (pad4 n)).

(** The value of a string of decimal digits, [None] if another character
    occurs. *)
Fixpoint digitsVal (acc : Z) (s : string) : option Z :=
  match s with
  | EmptyString => Some acc
  | String c s' =>
      match digitVal c with
      | Some v => digitsVal (10 * acc + v) s'
      | None => None
      end
  end.

(** The date-only string of day [d].  Years outside 0..9999 take a sign
    and six digits. *)
Definition isoOfDay (d : Z) : string :=
  let y := YearFromDay d in
  let year :=
    if (0 <=? y) && (y <=? 9999) then pad4 y
    else if y <? 0 then String "-" (pad6 (- y)) else String "+" (pad6 y) in
  year ++ "-" ++ pad2 (MonthFromDay d + 1) ++ "-" ++ pad2 (DateFromDay d).

(** [date.toISOString().split('T')[0]], the UTC date of the time value;
    [None] is the RangeError thrown on an invalid date. *)
Definition toISODate (t : Date) : option string :=
  option_map (fun t => isoOfDay (Day t)) t.

(** The days of the years 0..9999, whose date-only strings have the form
    [YYYY-MM-DD]. *)
Definition fourDigitYear (d : Z) : Prop := DayFromYear 0 <= d < DayFromYear 10000.

(** The [-MM-DD] tail of a date-only string: month 01..12, day 01..31 (a
    day beyond the end of the month runs into the next one).  The outer
    [None] says that the text has not this form. *)
Definition parseMonthDay (y : Z) (s : string) : option Date :=
  match s with
  | String h1 (String m1 (String m2 (String h2 (String d1 (String d2 EmptyString))))) =>
      if Ascii.eqb h1 "-" && Ascii.eqb h2 "-" then
        match digitsVal 0 (String m1 (String m2 EmptyString)),
              digitsVal 0 (String d1 (String d2 EmptyString)) with
        | Some m, Some d =>
            if (1 <=? m) && (m <=? 12) && (1 <=? d) && (d <=? 31)
            then Some (TimeClip (MakeDate (MakeDay y (m - 1) d) 0)) else None
        | _, _ => None
        end
      else None
  | _ => None
  end.

(** The time value of a date-only string, [YYYY-MM-DD] or
    [+YYYYYY-MM-DD] / [-YYYYYY-MM-DD]: midnight UTC of that day. *)
Definition parseDateOnly (s : string) : option Date :=
  match s with
  | String c rest =>
      if Ascii.eqb c "+" || Ascii.eqb c "-" then
        match digitsVal 0 (substring 0 6 rest) with
        | Some y =>
            if (length rest =? 12)%nat && negb (Ascii.eqb c "-" && (y =? 0))
            then parseMonthDay (if Ascii.eqb c "-" then - y else y) (substring 6 6 rest)
            else None
        | None => None
        end
      else
        match digitsVal 0 (substring 0 4 s) with
        | Some y =>
            if (length s =? 10)%nat then parseMonthDay y (substring 4 6 s) else None
        | None => None
        end
  | EmptyString => None
  end.

(** [new Date(dateStr)]. *)
Definition parse (host : Host) (s : string) : Date :=
  match parseDateOnly s with
  | Some t => t
  | None => parseOther host s
  end.

End DateModel.

(* ================================================================== *)
(** ** Trading calendar *)

(** How a call ends: with a value, with an exception, or, for the model of
    an unbounded loop, with the iteration budget used up. *)
Inductive outcome (A : Type) : Type :=
| Returned (a : A)
| Threw
| OutOfFuel.

Arguments Returned {A} a.
Arguments Threw {A}.
Arguments OutOfFuel {A}.

Module BusinessDayUtils.

Import DateModel.

Definition MARKET_HOLIDAYS : list string :=
  [ "2024-01-01"; "2024-01-15"; "2024-02-19"; "2024-03-29"; "2024-05-27";
    "2024-06-19"; "2024-07-04"; "2024-09-02"; "2024-11-28"; "2024-11-29";
    "2024-12-25";
    "2025-01-01"; "2025-01-20"; "2025-02-17"; "2025-04-18"; "2025-05-26";
    "2025-06-19"; "2025-07-04"; "2025-09-01"; "2025-11-27"; "2025-11-28";
    "2025-12-25" ].

(** [dayOfWeek === 0 || dayOfWeek === 6]; NaN equals neither. *)
Definition isWeekend (dayOfWeek : option Z) : bool :=
  match dayOfWeek with
  | Some n => (n =? 0)%Z || (n =? 6)%Z
  | None => false
  end.

Section OnHost.

Variable host : Host.

Definition isTradingDay (dateStr : string) : bool :=
  let date := parse host dateStr in
  let dayOfWeek := getDay host date in
  if isWeekend dayOfWeek then false
  else if JS.arrIncludes MARKET_HOLIDAYS dateStr then false
  else true.

(** The [do ... while (true)] loop shared by the two searches: [step] is
    -1 or +1. *)
Fixpoint tradingDayLoop (step : Z) (fuel : nat) (currentDate : Date)
  : outcome string :=
  match fuel with
  | O => OutOfFuel
  | S fuel' =>
      let currentDate :=
        setDate host currentDate
          (option_map (fun n => (n + step)%Z) (getDate host currentDate)) in
      match toISODate currentDate with
      | None => Threw
      | Some currentDateStr =>
          if isTradingDay currentDateStr then Returned currentDateStr
          else tradingDayLoop step fuel' currentDate
      end
  end.

Definition getPreviousTradingDay (fuel : nat) (dateStr : string) : outcome string :=
  tradingDayLoop (-1) fuel (parse host dateStr).

Definition getNextTradingDay (fuel : nat) (dateStr : string) : outcome string :=
  tradingDayLoop 1 fuel (parse host dateStr).

Definition shouldCalculateChanges (fuel : nat) (todayStr yesterdayStr : string)
  : outcome bool :=
  if negb (isTradingDay todayStr) || negb (isTradingDay yesterdayStr) then Returned false
  else
    match getPreviousTradingDay fuel todayStr with
    | Returned expectedYesterday => Returned (String.eqb yesterdayStr expectedYesterday)
    | Threw => Threw
    | OutOfFuel => OutOfFuel
    end.

(** [Math.ceil(Math.abs(end.getTime() - start.getTime()) / 86400000)];
    [None] is NaN.  The two time values are whole numbers that a number
    holds exactly, so their difference is the exact one rounded to a
    number; the quotient of two finite numbers is finite. *)
Definition calculateDaysDifference (startDate endDate : string) : option Z :=
  match getTime (parse host startDate), getTime (parse host endDate) with
  | Some s, Some e =>
      let diffTime := Num.abs (Num.ofZ (e - s)) in
      Num.ceil (Num.div diffTime (Num.ofZ (1000 * 60 * 60 * 24)))
  | _, _ => None
  end.

(** A whole number inside a template string. *)
Definition showZ (n : Z) : string := NilZero.string_of_int (Z.to_int n).

Definition getNoChangeReason (fuel : nat) (dateStr : string) : outcome string :=
  if negb (isTradingDay dateStr) then
    let dayOfWeek := getDay host (parse host dateStr) in
    if isWeekend dayOfWeek then Returned "Markets closed - Weekend"
    else Returned "Markets closed - Holiday"
  else
    match getPreviousTradingDay fuel dateStr with
    | Returned previousTradingDay =>
        match calculateDaysDifference previousTradingDay dateStr with
        | Some daysDiff =>
            if (3 <? daysDiff)%Z then
              Returned ("Markets closed - " ++ showZ daysDiff
                        ++ " day gap since last trading day")
            else Returned "First trading day comparison"
        | None => Returned "First trading day comparison"
        end
    | Threw => Threw
    | OutOfFuel => OutOfFuel
    end.

Definition shouldSendDailyEmail (now : string) (dateStr : option string) : bool :=
  let today := match dateStr with
               | Some d => JS.orElse d now
               | None => now
               end in
  isTradingDay today.

(** [getNextTradingDays(startDate, count)], for a whole [count]: the loop
    runs [count] times. *)
Fixpoint nextTradingDaysFrom (fuel count : nat) (currentDate : string)
    (tradingDays : list string) : outcome (list string) :=
  match count with
  | O => Returned tradingDays
  | S count' =>
      match getNextTradingDay fuel currentDate with
      | Returned next =>
          nextTradingDaysFrom fuel count' next (tradingDays ++ [next])%list
      | Threw => Threw
      | OutOfFuel => OutOfFuel
      end
  end.

Definition getNextTradingDays (fuel : nat) (startDate : string) (count : nat)
  : outcome (list string) :=
  nextTradingDaysFrom fuel count startDate [].

End OnHost.

End BusinessDayUtils.

Import BusinessDayUtils.

(* ================================================================== *)
(** ** The trading calendar on day numbers *)

Module DayCalendar.

Import DateModel.

(** The holidays as days since 1970-01-01, the trading-day test and the
    search loop on day numbers: what the functions of [BusinessDayUtils]
    compute on the date-only strings of those days. *)
Definition holidayDays : list Z :=
  [ 19723; 19737; 19772; 19811; 19870; 19893; 19908; 19968; 20055; 20056;
    20082;
    20089; 20108; 20136; 20196; 20234; 20258; 20273; 20332; 20419; 20420;
    20447 ]%Z.

Definition isSaturday (d : Z) : bool := (WeekDay d =? 6)%Z.
Definition isSunday (d : Z) : bool := (WeekDay d =? 0)%Z.

(** At midnight UTC of day [d] a host whose offset from UTC is [offset]
    is in the local day [d + shift], where [shift] is -1 west of UTC and
    0 otherwise: this is the day whose weekday [isTradingDay] reads. *)
Definition localShift (offset : Z) : Z := (offset / msPerDay)%Z.

Definition isTradingDayNumber (shift d : Z) : bool :=
  negb (isSunday (d + shift) || isSaturday (d + shift))
  && negb (existsb (Z.eqb d) holidayDays).

Fixpoint searchFrom (shift step : Z) (fuel : nat) (d : Z) : option Z :=
  match fuel with
  | O => None
  | S fuel' =>
      let d' := (d + step)%Z in
      if isTradingDayNumber shift d' then Some d' else searchFrom shift step fuel' d'
  end.

(** The days [lo], [lo + 1], ..., [lo + n - 1]. *)
Definition daysFrom (lo : Z) (n : nat) : list Z :=
  map (fun i => (lo + Z.of_nat i)%Z) (seq 0 n).

(** The digit [n] prints as a character that reads back as [n] and is
    not a sign. *)
Definition digitChecked (n : Z) : bool :=
  match digitVal (digitChar n) with
  | Some m => (m =? n)%Z && negb (Ascii.eqb (digitChar n) "+")
              && negb (Ascii.eqb (digitChar n) "-")
  | None => false
  end.

End DayCalendar.

Import DayCalendar.


(* ================================================================== *)
(** ** Data model *)

Record PerformanceData : Type := {
  finalEquity : Num.number;
  probabilityWin : Num.number;
  returnYTD : Num.number;
  return1Month : Num.number;
  return3Month : Num.number;
  return6Month : Num.number;
  return12Month : Num.number;
  tradesYTD : Num.number;
  maxDrawdown : Num.number;
  currentDrawdown : Num.number;
  sharpeRatio : Num.number;
  cagr : Num.number;
  volatility : Num.number;
  portfolio : string;
  mlAccuracies : string
}.

Record Holding : Type := {
  h_symbol : string;
  h_name : string;
  quantity : Num.number;
  price : Num.number;
  value : Num.number;
  dayChange : Num.number;
  dayChangePercent : Num.number;
  h_performance : option PerformanceData
}.

Record ModelData : Type := {
  name : string;
  symbol : string;
  performance : PerformanceData
}.

Record PortfolioChange : Type := {
  modelName : string;
  accountName : string;
  addedHoldings : list string;
  removedHoldings : list string;
  date : string
}.

Module AccountPortfolio.
Record t : Type := {
  accountName : string;
  models : list ModelData;
  totalValue : Num.number;
  date : string
}.
End AccountPortfolio.

Module ChangeAlert.
Record t : Type := {
  hasChanges : bool;
  changes : list PortfolioChange;
  totalChanges : nat;
  affectedAccounts : list string;
  date : string;
  comparisonDate : option string;
  message : option string
}.
End ChangeAlert.

(** The alert of the earlier copy of the detector
    ([src/lib/changeDetectionService.ts] with [src/types/index.ts]). *)
Module EarlierChangeAlert.
Record t : Type := {
  changes : list PortfolioChange;
  totalChanges : nat;
  affectedAccounts : list string;
  date : string
}.
End EarlierChangeAlert.

(* ================================================================== *)
(** ** Change detector: holdings texts *)

Module ChangeDetectionService.

(** [[A-Z\.]] *)
Definition symbolChar (c : ascii) : bool := JS.isUpperAZ c || JS.isChar "." c.

(** [/([A-Z\.]+)\s*\((\d+%)\)/g] and [/([A-Z\.]+)\s*\(\d+%\)/g]: the two
    literals differ in a capture group that a global match does not
    report. *)
Definition holdingRe : regex :=
  Cat (Plus symbolChar)
   (Cat (Star JS.isSpace)
    (Cat (Lit "(")
     (Cat (Plus JS.isDigit)
      (Cat (Lit "%") (Lit ")"))))).

(** [/([A-Z\.]+)/]; group 1 is the whole match. *)
Definition symbolRe : regex := Plus symbolChar.

(** The holdings-string format: a symbol, a space and a whole percentage
    in parentheses, as in [NVDA (22%)]. *)
Definition token (sym pct : string) : string := sym ++ " (" ++ pct ++ "%)".

(** A line of a holdings text, as its symbol and its percentage, and the
    text of some lines: one token per line. *)
Definition tokenOf (e : string * string) : string := token (fst e) (snd e).

Definition holdingsText (entries : list (string * string)) : string :=
  String.concat JS.LF (map tokenOf entries).

Definition wellFormedEntry (e : string * string) : Prop :=
  fst e <> EmptyString /\ JS.allChars symbolChar (fst e) = true
  /\ snd e <> EmptyString /\ JS.allChars JS.isDigit (snd e) = true.

(** No symbol of the lines is a proper prefix of the symbol of another
    line. *)
Definition prefixFree (lines : list (string * string)) : Prop :=
  forall e e', In e lines -> In e' lines ->
    String.prefix (fst e) (fst e') = true -> fst e = fst e'.

Definition extractHoldingsFromPortfolio (portfolioText : string) : list string :=
  if negb (JS.truthy portfolioText) then []
  else
    match matchAll holdingRe portfolioText with
    | Some holdingMatches => map JS.trim holdingMatches
    | None => []
    end.

Definition extractSecuritySymbols (portfolioText : string) : list string :=
  if negb (JS.truthy portfolioText) then []
  else
    match matchAll holdingRe portfolioText with
    | Some holdingMatches =>
        flat_map
          (fun m => match match1 symbolRe m with
                    | Some sym => [sym]
                    | None => []
                    end)
          holdingMatches
    | None => []
    end.

(** The first loop of [compareModelHoldings]: one push per symbol of the
    previous day that today's symbols lack. *)
Definition removedLoop (yesterdaySymbols todaySymbols yesterdayHoldings : list string)
  : list string :=
  fold_left
    (fun removed yesterdaySymbol =>
       if negb (JS.arrIncludes todaySymbols yesterdaySymbol) then
         match find (fun h => JS.startsWith h yesterdaySymbol) yesterdayHoldings with
         | Some removedHolding =>
             if JS.truthy removedHolding then (removed ++ [removedHolding])%list else removed
         | None => removed
         end
       else removed)
    yesterdaySymbols [].

(** The second loop: a push is skipped when the string is already there. *)
Definition addedLoop (todaySymbols yesterdaySymbols todayHoldings : list string)
  : list string :=
  fold_left
    (fun added todaySymbol =>
       if negb (JS.arrIncludes yesterdaySymbols todaySymbol) then
         match find (fun h => JS.startsWith h todaySymbol) todayHoldings with
         | Some addedHolding =>
             if JS.truthy addedHolding && negb (JS.arrIncludes added addedHolding)
             then (added ++ [addedHolding])%list else added
         | None => added
         end
       else added)
    todaySymbols [].

Definition compareModelHoldings (todayModel : ModelData)
    (yesterdayModel : option ModelData) (accountName date : string)
  : PortfolioChange :=
  let todayText := JS.orElse (portfolio (performance todayModel)) EmptyString in
  let todaySymbols := extractSecuritySymbols todayText in
  let yesterdaySymbols :=
    match yesterdayModel with
    | Some y => extractSecuritySymbols (JS.orElse (portfolio (performance y)) EmptyString)
    | None => []
    end in
  let todayHoldings := extractHoldingsFromPortfolio todayText in
  let yesterdayHoldings :=
    match yesterdayModel with
    | Some y => extractHoldingsFromPortfolio (JS.orElse (portfolio (performance y)) EmptyString)
    | None => []
    end in
  let removedHoldings := removedLoop yesterdaySymbols todaySymbols yesterdayHoldings in
  let addedHoldings := addedLoop todaySymbols yesterdaySymbols todayHoldings in
  {| modelName := name todayModel;
     accountName := accountName;
     addedHoldings := JS.uniq addedHoldings;
     removedHoldings := JS.uniq removedHoldings;
     date := date |}.


(** *** [detectChanges]

    The account service and the clock are the surroundings of the
    detector: [getAccountPortfolios] answers a date with the account
    portfolios of that day or with an exception, [now] is the date of the
    current day, and [localeCompare] is the collation of the runtime.
    Every call of the account service is recorded, in order, in a log. *)

Section DetectChanges.

Variable host : DateModel.Host.
Variable getAccountPortfolios : string -> outcome (list AccountPortfolio.t).
Variable now : string.
Variable localeCompare : string -> string -> Z.

(** A computation of the detector: from the log of fetches so far to an
    outcome and the log after it. *)
Definition Eff (A : Type) : Type := list string -> outcome A * list string.

Definition ret {A : Type} (a : A) : Eff A := fun log => (Returned a, log).

Definition bind {A B : Type} (c : Eff A) (k : A -> Eff B) : Eff B :=
  fun log =>
    match c log with
    | (Returned a, log') => k a log'
    | (Threw, log') => (Threw, log')
    | (OutOfFuel, log') => (OutOfFuel, log')
    end.

Definition lift {A : Type} (o : outcome A) : Eff A := fun log => (o, log).

Notation "x <- c ;; k" := (bind c (fun x => k))
  (at level 61, c at next level, right associativity).

(** [await Promise.all([f(a), f(b)])]: both calls are issued, in order,
    before either result is awaited; one rejection rejects the whole. *)
Definition fetchBoth (a b : string)
  : Eff (list AccountPortfolio.t * list AccountPortfolio.t) :=
  fun log =>
    let log' := (log ++ [a; b])%list in
    match getAccountPortfolios a, getAccountPortfolios b with
    | Returned pa, Returned pb => (Returned (pa, pb), log')
    | OutOfFuel, _ | _, OutOfFuel => (OutOfFuel, log')
    | _, _ => (Threw, log')
    end.

(** The comparator of [changes.sort]. *)
Definition compareChanges (a b : PortfolioChange) : Z :=
  if negb (String.eqb (accountName a) (accountName b))
  then localeCompare (accountName a) (accountName b)
  else localeCompare (modelName a) (modelName b).

(** [if (!affectedAccounts.includes(x)) affectedAccounts.push(x)] *)
Definition pushAffected (affectedAccounts : list string) (x : string) : list string :=
  if JS.arrIncludes affectedAccounts x then affectedAccounts
  else (affectedAccounts ++ [x])%list.

Definition findAccount (l : list AccountPortfolio.t) (n : string)
  : option AccountPortfolio.t :=
  find (fun ya => String.eqb (AccountPortfolio.accountName ya) n) l.

Definition findModel (l : list ModelData) (n : string) : option ModelData :=
  find (fun ym => String.eqb (name ym) n) l.

(** The body of the loop over the models of today's account. *)
Definition todayModelStep (today : string) (todayAccount : AccountPortfolio.t)
    (previousAccount : option AccountPortfolio.t)
    (st : list PortfolioChange * list string) (todayModel : ModelData)
  : list PortfolioChange * list string :=
  let '(changes, affectedAccounts) := st in
  let previousModel :=
    match previousAccount with
    | Some pa => findModel (AccountPortfolio.models pa) (name todayModel)
    | None => None
    end in
  let modelChanges :=
    compareModelHoldings todayModel previousModel
      (AccountPortfolio.accountName todayAccount) today in
  if (0 <? List.length (addedHoldings modelChanges))%nat
     || (0 <? List.length (removedHoldings modelChanges))%nat
  then ((changes ++ [modelChanges])%list,
        pushAffected affectedAccounts (AccountPortfolio.accountName todayAccount))
  else st.

(** The body of the loop over the models of the previous day's account. *)
Definition previousModelStep (today : string) (todayAccount : AccountPortfolio.t)
    (st : list PortfolioChange * list string) (previousModel : ModelData)
  : list PortfolioChange * list string :=
  let '(changes, affectedAccounts) := st in
  match findModel (AccountPortfolio.models todayAccount) (name previousModel) with
  | Some _ => st
  | None =>
      let allPreviousHoldings :=
        extractHoldingsFromPortfolio (portfolio (performance previousModel)) in
      ((changes ++ [ {| modelName := name previousModel;
                        accountName := AccountPortfolio.accountName todayAccount;
                        addedHoldings := [];
                        removedHoldings := allPreviousHoldings;
                        date := today |} ])%list,
       pushAffected affectedAccounts (AccountPortfolio.accountName todayAccount))
  end.

(** The body of the loop over today's accounts. *)
Definition accountStep (today : string) (previousPortfolios : list AccountPortfolio.t)
    (st : list PortfolioChange * list string) (todayAccount : AccountPortfolio.t)
  : list PortfolioChange * list string :=
  let previousAccount :=
    findAccount previousPortfolios (AccountPortfolio.accountName todayAccount) in
  let st1 :=
    fold_left (todayModelStep today todayAccount previousAccount)
      (AccountPortfolio.models todayAccount) st in
  match previousAccount with
  | Some pa =>
      fold_left (previousModelStep today todayAccount) (AccountPortfolio.models pa) st1
  | None => st1
  end.

(** [todayDate || new Date().toISOString().split('T')[0]] *)
Definition resolveToday (todayDate : option string) : string :=
  match todayDate with
  | Some d => JS.orElse d now
  | None => now
  end.

Definition detectChanges (fuel : nat) (todayDate : option string)
  : Eff ChangeAlert.t :=
  let today := resolveToday todayDate in
  if negb (isTradingDay host today) then
    reason <- lift (getNoChangeReason host fuel today) ;;
    ret {| ChangeAlert.hasChanges := false;
           ChangeAlert.totalChanges := 0;
           ChangeAlert.changes := [];
           ChangeAlert.affectedAccounts := [];
           ChangeAlert.date := today;
           ChangeAlert.message := Some reason;
           ChangeAlert.comparisonDate := None |}
  else
    previousTradingDay <- lift (getPreviousTradingDay host fuel today) ;;
    both <- fetchBoth today previousTradingDay ;;
    let '(todayPortfolios, previousPortfolios) := both in
    let '(changes, affectedAccounts) :=
      fold_left (accountStep today previousPortfolios) todayPortfolios ([], []) in
    let changes := JS.sortBy compareChanges changes in
    let n := List.length changes in
    ret {| ChangeAlert.hasChanges := (0 <? n)%nat;
           ChangeAlert.changes := changes;
           ChangeAlert.totalChanges := n;
           ChangeAlert.affectedAccounts := JS.sortBy JS.defaultCompare affectedAccounts;
           ChangeAlert.date := today;
           ChangeAlert.comparisonDate := Some previousTradingDay;
           ChangeAlert.message :=
             Some (if (0 <? n)%nat
                   then "Found " ++ showZ (Z.of_nat n)
                        ++ " changes compared to previous trading day ("
                        ++ previousTradingDay ++ ")"
                   else "No changes detected compared to previous trading day ("
                        ++ previousTradingDay ++ ")") |}.

(** *** The earlier copy of the detector

    [src/lib/changeDetectionService.ts] holds the class as it was before
    the trading calendar: the day of comparison is the calendar day
    before, whatever the day of the week, and both days are fetched on
    every call.  Its loops and its [compareModelHoldings] are those
    above. *)
Definition getYesterdayDate (todayDate : string) : outcome string :=
  let today := DateModel.parse host todayDate in
  let yesterday := today in
  let yesterday :=
    DateModel.setDate host yesterday
      (option_map (fun n => (n - 1)%Z) (DateModel.getDate host yesterday)) in
  match DateModel.toISODate yesterday with
  | Some s => Returned s
  | None => Threw
  end.

Definition detectChangesEarlier (todayDate : option string)
  : Eff EarlierChangeAlert.t :=
  let today := resolveToday todayDate in
  yesterday <- lift (getYesterdayDate today) ;;
  both <- fetchBoth today yesterday ;;
  let '(todayPortfolios, yesterdayPortfolios) := both in
  let '(changes, affectedAccounts) :=
    fold_left (accountStep today yesterdayPortfolios) todayPortfolios ([], []) in
  let changes := JS.sortBy compareChanges changes in
  ret {| EarlierChangeAlert.changes := changes;
         EarlierChangeAlert.totalChanges := List.length changes;
         EarlierChangeAlert.affectedAccounts :=
           JS.sortBy JS.defaultCompare affectedAccounts;
         EarlierChangeAlert.date := today |}.

End DetectChanges.

(** A change has something to show. *)
Definition nonEmptyChange (c : PortfolioChange) : Prop :=
  addedHoldings c <> [] \/ removedHoldings c <> [].

(** The record pushed for a model of the previous day's account that
    today's account of the same name lacks. *)
Definition removedModelRecord (today : string)
    (todayPortfolios previousPortfolios : list AccountPortfolio.t)
    (c : PortfolioChange) : Prop :=
  exists todayAccount previousAccount previousModel,
    In todayAccount todayPortfolios
    /\ findAccount previousPortfolios (AccountPortfolio.accountName todayAccount)
       = Some previousAccount
    /\ In previousModel (AccountPortfolio.models previousAccount)
    /\ findModel (AccountPortfolio.models todayAccount) (name previousModel) = None
    /\ c = {| modelName := name previousModel;
              accountName := AccountPortfolio.accountName todayAccount;
              addedHoldings := [];
              removedHoldings :=
                extractHoldingsFromPortfolio (portfolio (performance previousModel));
              date := today |}.

End ChangeDetectionService.

Import ChangeDetectionService.

(* ================================================================== *)
(** ** Combined accounts: currency suffix *)

Module CombinedAccountService.

(** [(?:USD|CAD)] under the [i] flag. *)
Definition currencyRe : regex :=
  Alt (Cat (LitI "U") (Cat (LitI "S") (LitI "D")))
      (Cat (LitI "C") (Cat (LitI "A") (LitI "D"))).

(** [/\s+\$(?:USD|CAD)$/i] *)
Definition suffixRe : regex :=
  Cat (Plus JS.isSpace) (Cat (Lit "$") (Cat currencyRe Eoi)).

(** [/\$(?:USD|CAD)$/i] *)
Definition currencyTailRe : regex :=
  Cat (Lit "$") (Cat currencyRe Eoi).


Definition extractBaseAccountName (fullAccountName : string) : string :=
  replace1 suffixRe EmptyString fullAccountName.

Definition extractCurrency (fullAccountName : string) : string :=
  match match1 currencyTailRe fullAccountName with
  | Some m => JS.toUpperCase (substring 1 (length m - 1) m)
  | None => "USD"
  end.

(** The character class of this extractor is written [[A-Z\\.]] in the
    source: a backslash is a symbol character too. *)
Definition symbolCharBackslash (c : ascii) : bool :=
  JS.isUpperAZ c || JS.isChar "\" c || JS.isChar "." c.

Definition holdingReBackslash : regex :=
  Cat (Plus symbolCharBackslash)
   (Cat (Star JS.isSpace)
    (Cat (Lit "(")
     (Cat (Plus JS.isDigit)
      (Cat (Lit "%") (Lit ")"))))).

Definition extractHoldingsWithPercentages (portfolioText : string) : list string :=
  if negb (JS.truthy portfolioText) then []
  else
    match matchAll holdingReBackslash portfolioText with
    | Some holdingMatches => map JS.trim holdingMatches
    | None => []
    end.

End CombinedAccountService.

(* ================================================================== *)
(** ** Email parser: numbers and model names *)

Module EmailParser.

(** [parseFloat] of a text made of digits, dots and signs, which is all
    [parseNumber] hands over: an optional sign, digits, an optional dot
    and more digits; the longest such prefix counts and the decimal it
    denotes is rounded to the nearest number, ties to even.  (The
    exponent and [Infinity] forms of a numeric literal need letters.) *)
Fixpoint span (p : ascii -> bool) (s : string) : string * string :=
  match s with
  | String c s' =>
      if p c then let '(a, b) := span p s' in (String c a, b)
      else (EmptyString, s)
  | EmptyString => (EmptyString, EmptyString)
  end.

Fixpoint digitsToZ (acc : Z) (s : string) : Z :=
  match s with
  | EmptyString => acc
  | String c s' => digitsToZ (10 * acc + (Z.of_nat (JS.code c) - 48)) s'
  end.

(** The number nearest to [m / 10^k]. *)
Definition decimalToNumber (sign : bool) (m : positive) (k : nat) : Num.number :=
  let '(q, e, l) :=
    SFdiv_core_binary Num.prec Num.emax (Zpos m) 0 (10 ^ Z.of_nat k) 0 in
  binary_round_aux Num.prec Num.emax sign q e l.

Definition parseFloat (s : string) : Num.number :=
  let s := JS.trimStart s in
  let '(sign, s1) :=
    match s with
    | String c r =>
        if Ascii.eqb c "-" then (true, r)
        else if Ascii.eqb c "+" then (false, r)
        else (false, s)
    | EmptyString => (false, s)
    end in
  let '(intPart, r1) := span JS.isDigit s1 in
  let fracPart :=
    match r1 with
    | String c r2 => if Ascii.eqb c "." then fst (span JS.isDigit r2) else EmptyString
    | EmptyString => EmptyString
    end in
  if negb (JS.truthy intPart) && negb (JS.truthy fracPart) then Num.NaN
  else
    match digitsToZ 0 (intPart ++ fracPart) with
    | Zpos m => decimalToNumber sign m (length fracPart)
    | _ => S754_zero sign
    end.

(** [[$,()]] *)
Definition currencyOrParen (c : ascii) : bool :=
  JS.isChar "$" c || JS.isChar "," c || JS.isChar "(" c || JS.isChar ")" c.

(** [[^0-9.-]] *)
Definition notNumeric (c : ascii) : bool :=
  negb (JS.isDigit c || JS.isChar "." c || JS.isChar "-" c).

(** The three locals of [parseNumber], each as a function of [value]. *)
Definition cleaned (value : string) : string :=
  JS.trim (replaceAll (Chr currencyOrParen) EmptyString value 0).

Definition isNegative (value : string) : bool :=
  JS.includes value "(" || JS.startsWith (cleaned value) "-".

Definition num (value : string) : Num.number :=
  parseFloat (replaceAll (Chr notNumeric) EmptyString (cleaned value) 0).

Definition parseNumber (value : string) : Num.number :=
  if negb (JS.truthy value) then Num.zero
  else if isNegative value then Num.neg (Num.abs (num value))
  else Num.orElse (num value) Num.zero.

(** [/^\d+\.\s*/] *)
Definition prefixRe : regex :=
  Cat (Plus JS.isDigit) (Cat (Lit ".") (Star JS.isSpace)).

Definition stripPrefix (s : string) : string :=
  JS.trim (replaceAtStart prefixRe EmptyString s).

Definition modelsMatch (emailModel sheetModel : string) : bool :=
  if negb (JS.truthy emailModel) || negb (JS.truthy sheetModel) then false
  else if String.eqb (JS.toLowerCase emailModel) (JS.toLowerCase sheetModel) then true
  else if JS.includes (JS.toLowerCase emailModel) (JS.toLowerCase sheetModel)
          || JS.includes (JS.toLowerCase sheetModel) (JS.toLowerCase emailModel)
       then true
  else
    let cleanEmailModel := stripPrefix emailModel in
    let cleanSheetModel := stripPrefix sheetModel in
    if String.eqb (JS.toLowerCase cleanEmailModel) (JS.toLowerCase cleanSheetModel)
    then true
    else false.

(** *** Headers and cells *)

(** [arr.findIndex(p)]: the index of the first element that satisfies
    [p], or -1. *)
Fixpoint findIndexFrom (p : string -> bool) (l : list string) (i : Z) : Z :=
  match l with
  | [] => (-1)%Z
  | x :: l' => if p x then i else findIndexFrom p l' (i + 1)%Z
  end.

Definition findIndex (p : string -> bool) (l : list string) : Z :=
  findIndexFrom p l 0.

Fixpoint findHeaderIndex (headers searchTerms : list string) : Z :=
  match searchTerms with
  | [] => (-1)%Z
  | term :: rest =>
      let index := findIndex (fun header => JS.includes header term) headers in
      if negb (index =? -1)%Z then index else findHeaderIndex headers rest
  end.

(** [keywords.some(keyword => headerText.includes(keyword))] *)
Definition isHoldingsTable (headerText : string) : bool :=
  existsb (fun keyword => JS.includes headerText keyword)
    ["symbol"; "quantity"; "price"; "value"; "shares"; "position"; "market value"].

Definition isPortfolioPerformanceTable (headerText : string) : bool :=
  let matchCount :=
    List.length
      (filter (fun keyword => JS.includes headerText keyword)
         ["final equity"; "ret. ytd"; "ret. 1mo"; "sharpe"; "cagr"; "portfolio"; "name"]) in
  (3 <=? matchCount)%nat.

(** [/^[A-Z]{1,5}$/] *)
Definition optional (r : regex) : regex := Alt r Eps.

Definition symbolShapeRe : regex :=
  Cat (Chr JS.isUpperAZ)
   (Cat (optional (Chr JS.isUpperAZ))
    (Cat (optional (Chr JS.isUpperAZ))
     (Cat (optional (Chr JS.isUpperAZ))
      (Cat (optional (Chr JS.isUpperAZ)) Eoi)))).

(** [/^[0-9]+\.[0-9]{2}$/] *)
Definition priceShapeRe : regex :=
  Cat (Plus JS.isDigit)
   (Cat (Lit ".") (Cat (Chr JS.isDigit) (Cat (Chr JS.isDigit) Eoi))).

(** [a > b] and [a === b] on numbers. *)
Definition gt (a b : Num.number) : bool := SFltb b a.
Definition strictEq (a b : Num.number) : bool := SFeqb a b.

Definition looksLikeSymbol (text : string) : bool :=
  testAtStart symbolShapeRe (JS.trim text).

Definition looksLikeQuantity (text : string) : bool :=
  let num := parseNumber text in
  gt num Num.zero && SFltb num (Num.ofZ 1000000)
  && negb (JS.includes text "$") && negb (JS.includes text "%").

Definition looksLikePrice (text : string) : bool :=
  JS.includes text "$"
  || (testAtStart priceShapeRe text && SFltb (parseNumber text) (Num.ofZ 10000)).

Definition looksLikeValue (text : string) : bool :=
  JS.includes text "$" && gt (parseNumber text) (Num.ofZ 100).

(** The four locals of [guessCellMeaning] and the body of its loop. *)
Record guess : Type := {
  g_symbol : string;
  g_quantity : Num.number;
  g_value : Num.number;
  g_price : Num.number
}.

Definition guessStep (g : guess) (cell : string) : guess :=
  if looksLikeSymbol cell then
    {| g_symbol := cell; g_quantity := g_quantity g; g_value := g_value g;
       g_price := g_price g |}
  else if looksLikeQuantity cell then
    {| g_symbol := g_symbol g; g_quantity := parseNumber cell; g_value := g_value g;
       g_price := g_price g |}
  else if looksLikePrice cell && strictEq (g_price g) Num.zero then
    {| g_symbol := g_symbol g; g_quantity := g_quantity g; g_value := g_value g;
       g_price := parseNumber cell |}
  else if looksLikeValue cell then
    {| g_symbol := g_symbol g; g_quantity := g_quantity g; g_value := parseNumber cell;
       g_price := g_price g |}
  else g.

Definition guessCellMeaning (cells : list string) : option Holding :=
  let g :=
    fold_left guessStep cells
      {| g_symbol := EmptyString; g_quantity := Num.zero; g_value := Num.zero;
         g_price := Num.zero |} in
  if JS.truthy (g_symbol g) && (gt (g_quantity g) Num.zero || gt (g_value g) Num.zero)
  then Some {| h_symbol := g_symbol g; h_name := g_symbol g;
               quantity := g_quantity g; price := g_price g; value := g_value g;
               dayChange := Num.zero; dayChangePercent := Num.zero;
               h_performance := None |}
  else None.

(** The regex of a literal text, such as [/&amp;/]. *)
Fixpoint literal (s : string) : regex :=
  match s with
  | EmptyString => Eps
  | String c s' => Cat (Lit c) (literal s')
  end.

Definition decodeHtmlEntities (text : string) : string :=
  if negb (JS.truthy text) then text
  else
    let text := replaceAll (literal "&amp;") "&" text 0 in
    let text := replaceAll (literal "&lt;") "<" text 0 in
    let text := replaceAll (literal "&gt;") ">" text 0 in
    let text := replaceAll (literal "&quot;") (String "034"%char EmptyString) text 0 in
    let text := replaceAll (literal "&#039;") "'" text 0 in
    replaceAll (literal "&nbsp;") " " text 0.

End EmailParser.

(* ================================================================== *)
(** ** Model watch list: model names *)

Module WatchListModel.
Record t : Type := {
  name : string;
  symbol : string;
  return12Month : Num.number;
  returnYTD : Num.number;
  finalEquity : Num.number;
  sharpeRatio : Num.number;
  maxDrawdown : Num.number;
  portfolio : string;
  isOwned : bool
}.
End WatchListModel.

Module ModelWatchListService.

Definition modelsMatch (modelName1 modelName2 : string) : bool :=
  if negb (JS.truthy modelName1) || negb (JS.truthy modelName2) then false
  else if String.eqb (JS.toLowerCase modelName1) (JS.toLowerCase modelName2) then true
  else
    let clean1 := EmailParser.stripPrefix modelName1 in
    let clean2 := EmailParser.stripPrefix modelName2 in
    if String.eqb (JS.toLowerCase clean1) (JS.toLowerCase clean2) then true
    else if JS.includes (JS.toLowerCase clean1) (JS.toLowerCase clean2)
            || JS.includes (JS.toLowerCase clean2) (JS.toLowerCase clean1)
         then true
    else false.

(** *** Watch list models

    [uniqueMap] is the [Map] from lower-cased names to models, in
    insertion order; a key that is set again keeps its place. *)
Definition uniqueMap : Type := list (string * WatchListModel.t).

(** The key of a model. *)
Definition keyOf (model : WatchListModel.t) : string :=
  JS.toLowerCase (WatchListModel.name model).

(** [model] is better than [existing]: a greater 12-month return, or an
    equal one with a greater final equity. *)
Definition better (model existing : WatchListModel.t) : bool :=
  EmailParser.gt (WatchListModel.return12Month model)
                 (WatchListModel.return12Month existing)
  || (EmailParser.strictEq (WatchListModel.return12Month model)
                           (WatchListModel.return12Month existing)
      && EmailParser.gt (WatchListModel.finalEquity model)
                        (WatchListModel.finalEquity existing)).

(** The body of the loop of [removeDuplicateModels]. *)
Fixpoint keepBetter (m : uniqueMap) (key : string) (model : WatchListModel.t)
  : uniqueMap :=
  match m with
  | [] => [(key, model)]
  | (k, existing) :: m' =>
      if String.eqb k key then
        if better model existing then (k, model) :: m' else (k, existing) :: m'
      else (k, existing) :: keepBetter m' key model
  end.

Definition removeDuplicateModels (models : list WatchListModel.t)
  : list WatchListModel.t :=
  map snd (fold_left (fun m model => keepBetter m (keyOf model) model) models []).

(** The model that the loop keeps for a key: the first model with this
    key, replaced in turn by every later one that is better than the
    model kept so far. *)
Definition keptOf (key : string) (models : list WatchListModel.t)
  : option WatchListModel.t :=
  match filter (fun model => String.eqb (keyOf model) key) models with
  | [] => None
  | first :: later =>
      Some (fold_left (fun existing model =>
                         if better model existing then model else existing)
                      later first)
  end.

(** The watch list model of a holding that has performance data. *)
Definition toWatchListModel (ourHoldings : list string) (model : Holding)
    (perf : PerformanceData) : WatchListModel.t :=
  {| WatchListModel.name := h_name model;
     WatchListModel.symbol := h_symbol model;
     WatchListModel.return12Month := Num.orElse (return12Month perf) Num.zero;
     WatchListModel.returnYTD := Num.orElse (returnYTD perf) Num.zero;
     WatchListModel.finalEquity := Num.orElse (finalEquity perf) Num.zero;
     WatchListModel.sharpeRatio := Num.orElse (sharpeRatio perf) Num.zero;
     WatchListModel.maxDrawdown := Num.orElse (maxDrawdown perf) Num.zero;
     WatchListModel.portfolio := JS.orElse (portfolio perf) EmptyString;
     WatchListModel.isOwned :=
       existsb (fun ownedModel => modelsMatch (h_name model) ownedModel) ourHoldings |}.

Definition convertToWatchListModels (allModels : list Holding)
    (ourHoldings : list string) : list WatchListModel.t :=
  removeDuplicateModels
    (flat_map
       (fun model =>
          match h_performance model with
          | Some perf => [toWatchListModel ourHoldings model perf]
          | None => []
          end)
       allModels).

(** The [Map] that the loop has built when it has seen [seen]. *)
Definition keptEntries (seen : list WatchListModel.t) (keys : list string)
  : uniqueMap :=
  flat_map
    (fun key => match keptOf key seen with
                | Some model => [(key, model)]
                | None => []
                end)
    keys.

Definition keptMap (seen : list WatchListModel.t) : uniqueMap :=
  keptEntries seen (JS.uniq (map keyOf seen)).

End ModelWatchListService.

(* ================================================================== *)
(** ** Portfolio assembler *)

Record Mapping : Type := {
  model : string;
  account : string
}.

Record Email : Type := {
  subject : string;
  emailDate : string;
  htmlBody : string
}.

Module PortfolioData.
Record t : Type := {
  accountName : string;
  accountNumber : string;
  holdings : list Holding;
  totalValue : Num.number;
  dayChange : Num.number;
  dayChangePercent : Num.number;
  date : string
}.
End PortfolioData.

Module AccountPortfolioService.

Definition modelsMatch (emailModel sheetModel : string) : bool :=
  if negb (JS.truthy emailModel) || negb (JS.truthy sheetModel) then false
  else if String.eqb (JS.toLowerCase emailModel) (JS.toLowerCase sheetModel) then true
  else if JS.includes (JS.toLowerCase emailModel) (JS.toLowerCase sheetModel)
          || JS.includes (JS.toLowerCase sheetModel) (JS.toLowerCase emailModel)
       then true
  else
    let cleanEmailModel := EmailParser.stripPrefix emailModel in
    let cleanSheetModel := EmailParser.stripPrefix sheetModel in
    if String.eqb (JS.toLowerCase cleanEmailModel) (JS.toLowerCase cleanSheetModel)
    then true
    else false.

(** *** The object [accountGroups]

    An object used as a map from account names to model lists: its own
    properties in insertion order.  A name that [Object.prototype] already
    carries reads as a truthy inherited value, so no array is created for
    it and the [push] on it throws. *)
Definition groups : Type := list (string * list ModelData).

Definition objectPrototypeKeys : list string :=
  [ "constructor"; "__proto__"; "hasOwnProperty"; "isPrototypeOf";
    "propertyIsEnumerable"; "toLocaleString"; "toString"; "valueOf";
    "__defineGetter__"; "__defineSetter__"; "__lookupGetter__";
    "__lookupSetter__" ].

Fixpoint pushTo (g : groups) (accountName : string) (m : ModelData) : groups :=
  match g with
  | [] => [(accountName, [m])]
  | (k, ms) :: g' =>
      if String.eqb k accountName then (k, (ms ++ [m])%list) :: g'
      else (k, ms) :: pushTo g' accountName m
  end.

(** [if (!accountGroups[a]) accountGroups[a] = []; ... accountGroups[a].push(m)] *)
Definition addToGroup (g : groups) (accountName : string) (m : ModelData)
  : outcome groups :=
  if JS.arrIncludes objectPrototypeKeys accountName then Threw
  else Returned (pushTo g accountName m).

(** A property name that is an array index: a canonical decimal below
    2^32 - 1.  [Object.entries] lists these first, in ascending order. *)
Definition arrayIndex (k : string) : option Z :=
  match k with
  | EmptyString => None
  | String c rest =>
      if Ascii.eqb c "0" && JS.truthy rest then None
      else
        match DateModel.digitsVal 0 k with
        | Some n => if (n <? 4294967295)%Z then Some n else None
        | None => None
        end
  end.

Definition isArrayIndex (k : string) : bool :=
  match arrayIndex k with Some _ => true | None => false end.

Definition indexOf (k : string) : Z :=
  match arrayIndex k with Some n => n | None => 0%Z end.

Definition objectEntries (g : groups) : groups :=
  (JS.sortBy (fun a b => (indexOf (fst a) - indexOf (fst b))%Z)
          (filter (fun e => isArrayIndex (fst e)) g)
   ++ filter (fun e => negb (isArrayIndex (fst e))) g)%list.

Definition toModelData (holding : Holding) : ModelData :=
  {| name := h_name holding;
     symbol := h_symbol holding;
     performance :=
       match h_performance holding with
       | Some p => p
       | None =>
           {| finalEquity := value holding;
              probabilityWin := Num.zero;
              returnYTD := dayChangePercent holding;
              return1Month := Num.zero;
              return3Month := Num.zero;
              return6Month := Num.zero;
              return12Month := Num.zero;
              tradesYTD := Num.zero;
              maxDrawdown := Num.zero;
              currentDrawdown := Num.zero;
              sharpeRatio := Num.zero;
              cagr := Num.zero;
              volatility := Num.zero;
              portfolio := EmptyString;
              mlAccuracies := EmptyString |}
       end |}.

Section GetAccountPortfolios.

(** The collaborators: the spreadsheet, the mail source, the HTML table
    parser (which catches its own errors), the clock and the collation. *)
Variable getModelAccountMappings : outcome (list Mapping).
Variable getPortfolioEmails : string -> string -> outcome (list Email).
Variable parseFilteredPortfolioEmail :
  string -> string -> string -> list string -> list PortfolioData.t.
Variable now : string.
Variable localeCompare : string -> string -> Z.

(** The loop over the holdings: every mapping that matches the holding
    receives its model. *)
Definition groupHolding (mappings : list Mapping) (acc : outcome groups)
    (holding : Holding) : outcome groups :=
  let matchingMappings :=
    filter (fun m => modelsMatch (h_name holding) (model m)) mappings in
  fold_left
    (fun acc mapping =>
       match acc with
       | Returned g => addToGroup g (account mapping) (toModelData holding)
       | other => other
       end)
    matchingMappings acc.

Definition toAccountPortfolio (date : string) (e : string * list ModelData)
  : AccountPortfolio.t :=
  let '(accountName, models) := e in
  {| AccountPortfolio.accountName := accountName;
     AccountPortfolio.models := models;
     AccountPortfolio.totalValue :=
       fold_left (fun sum m => Num.add sum (finalEquity (performance m)))
                 models Num.zero;
     AccountPortfolio.date := date |}.

Definition compareAccounts (a b : AccountPortfolio.t) : Z :=
  localeCompare (AccountPortfolio.accountName a) (AccountPortfolio.accountName b).

Definition getAccountPortfolios (dateStr : option string)
  : outcome (list AccountPortfolio.t) :=
  let date := match dateStr with
              | Some d => JS.orElse d now
              | None => now
              end in
  match getModelAccountMappings with
  | Returned mappings =>
      let allowedModels := map model mappings in
      match getPortfolioEmails date date with
      | Returned emails =>
          match emails with
          | [] => Returned []
          | _ =>
              let allPortfolioData :=
                flat_map
                  (fun email =>
                     flat_map PortfolioData.holdings
                       (parseFilteredPortfolioEmail (htmlBody email) (subject email)
                          (emailDate email) allowedModels))
                  emails in
              match fold_left (groupHolding mappings) allPortfolioData (Returned []) with
              | Returned accountGroups =>
                  Returned
                    (JS.sortBy compareAccounts
                       (map (toAccountPortfolio date) (objectEntries accountGroups)))
              | Threw => Threw
              | OutOfFuel => OutOfFuel
              end
          end
      | Threw => Threw
      | OutOfFuel => OutOfFuel
      end
  | Threw => Threw
  | OutOfFuel => OutOfFuel
  end.

(** [[...new Set(mappings.map(m => m.account))].sort()] *)
Definition getUniqueAccounts : outcome (list string) :=
  match getModelAccountMappings with
  | Returned mappings =>
      Returned (JS.sortBy JS.defaultCompare (JS.uniq (map account mappings)))
  | Threw => Threw
  | OutOfFuel => OutOfFuel
  end.

End GetAccountPortfolios.

(** Two orders on account portfolios: by the code units of the account
    names, and by a collation. *)
Definition codePointLe (a b : AccountPortfolio.t) : Prop :=
  String.leb (AccountPortfolio.accountName a) (AccountPortfolio.accountName b) = true.

Definition collationLe (localeCompare : string -> string -> Z)
    (a b : AccountPortfolio.t) : Prop :=
  (localeCompare (AccountPortfolio.accountName a) (AccountPortfolio.accountName b) <= 0)%Z.

(** The account [k] of the groups holds the model [m]. *)
Definition holds (g : groups) (k : string) (m : ModelData) : Prop :=
  exists ms, In (k, ms) g /\ In m ms.

(** The model [m] under the account [k] comes from a holding of [data]
    whose name matches a mapping to [k]. *)
Definition assigned (mappings : list Mapping) (data : list Holding)
    (k : string) (m : ModelData) : Prop :=
  exists holding mapping,
    In holding data /\ In mapping mappings
    /\ m = toModelData holding /\ account mapping = k
    /\ modelsMatch (h_name holding) (model mapping) = true.

(** Groups whose keys are distinct and own, and whose models are all
    assigned. *)
Definition sound (mappings : list Mapping) (data : list Holding) (g : groups) : Prop :=
  NoDup (map fst g)
  /\ forall k ms, In (k, ms) g ->
       ms <> [] /\ JS.arrIncludes objectPrototypeKeys k = false
       /\ forall m, In m ms -> assigned mappings data k m.

End AccountPortfolioService.

(* ================================================================== *)
(** ** Cache

    The cache service: a [Map] from keys to entries with a time of
    expiry.  The [Map] is the list of its entries in insertion order; the
    clock is read where the source calls [Date.now()], so every
    operation that looks at the clock takes its readings, in
    milliseconds, as arguments. *)

Module CacheService.

Section Cache.

Variable T : Type.

Record CacheEntry : Type := {
  data : T;
  timestamp : Z;
  expiresAt : Z
}.

Definition store : Type := list (string * CacheEntry).

(** 30 minutes, and 1 hour for email data. *)
Definition DEFAULT_TTL : Z := 30 * 60 * 1000.
Definition EMAIL_TTL : Z := 60 * 60 * 1000.

(** [Map.prototype.get], [set] (an existing key keeps its place) and
    [delete]. *)
Fixpoint mapGet (m : store) (key : string) : option CacheEntry :=
  match m with
  | [] => None
  | (k, e) :: m' => if String.eqb k key then Some e else mapGet m' key
  end.

Fixpoint mapSet (m : store) (key : string) (entry : CacheEntry) : store :=
  match m with
  | [] => [(key, entry)]
  | (k, e) :: m' =>
      if String.eqb k key then (k, entry) :: m' else (k, e) :: mapSet m' key entry
  end.

Definition mapDelete (m : store) (key : string) : store :=
  filter (fun e => negb (String.eqb (fst e) key)) m.

(** [get(key)] at the time [now]: the data, or [None] for [null]; an
    expired entry is deleted. *)
Definition get (m : store) (now : Z) (key : string) : option T * store :=
  match mapGet m key with
  | None => (None, m)
  | Some entry =>
      if (expiresAt entry <? now)%Z then (None, mapDelete m key)
      else (Some (data entry), m)
  end.

(** [set(key, data, ttl)]: the clock is read once for the time stamp and
    once more for the expiry; a [ttl] left out or 0 is the default. *)
Definition set (m : store) (now now' : Z) (key : string) (d : T) (ttl : option Z)
  : store :=
  let cacheTTL :=
    match ttl with
    | Some t => if (t =? 0)%Z then DEFAULT_TTL else t
    | None => DEFAULT_TTL
    end in
  mapSet m key {| data := d; timestamp := now; expiresAt := (now' + cacheTTL)%Z |}.

Definition clear (m : store) (key : string) : store := mapDelete m key.

Definition clearAll (m : store) : store := [].

(** [getStats()]: the size and the keys. *)
Definition getStats (m : store) : nat * list string :=
  (List.length m, map fst m).

Definition has (m : store) (now : Z) (key : string) : bool :=
  match mapGet m key with
  | Some entry => (now <=? expiresAt entry)%Z
  | None => false
  end.

(** The methods for portfolio data, each with its family of keys. *)
Definition getCombinedAccounts (m : store) (now : Z) (date : string)
  : option T * store :=
  get m now ("combined-accounts-" ++ date).

Definition setCombinedAccounts (m : store) (now now' : Z) (date : string) (d : T)
  : store :=
  set m now now' ("combined-accounts-" ++ date) d (Some EMAIL_TTL).

Definition getModelWatchList (m : store) (now : Z) (date : string)
  : option T * store :=
  get m now ("model-watch-list-" ++ date).

Definition setModelWatchList (m : store) (now now' : Z) (date : string) (d : T)
  : store :=
  set m now now' ("model-watch-list-" ++ date) d (Some EMAIL_TTL).

Definition hasEmailDataForDate (m : store) (now : Z) (date : string) : bool :=
  has m now ("email-data-" ++ date).

Definition setEmailDataFetched (m : store) (now now' : Z) (date : string) (d : T)
  : store :=
  set m now now' ("email-data-" ++ date) d (Some EMAIL_TTL).

End Cache.

Arguments data {T} _.
Arguments timestamp {T} _.
Arguments expiresAt {T} _.
Arguments mapGet {T} m key.
Arguments mapSet {T} m key entry.
Arguments mapDelete {T} m key.
Arguments get {T} m now key.
Arguments set {T} m now now' key d ttl.
Arguments clear {T} m key.
Arguments clearAll {T} m.
Arguments getStats {T} m.
Arguments has {T} m now key.
Arguments getCombinedAccounts {T} m now date.
Arguments setCombinedAccounts {T} m now now' date d.
Arguments getModelWatchList {T} m now date.
Arguments setModelWatchList {T} m now now' date d.
Arguments hasEmailDataForDate {T} m now date.
Arguments setEmailDataFetched {T} m now now' date d.

End CacheService.

(* ================================================================== *)
(** ** Combined accounts: grouping by currency *)

Module CurrencyPortfolio.
Record t : Type := {
  currency : string;
  models : list ModelData;
  totalValue : Num.number
}.
End CurrencyPortfolio.

Module AccountChanges.
Record t : Type := {
  addedHoldings : list string;
  removedHoldings : list string;
  hasChanges : bool
}.
End AccountChanges.

Module CombinedAccountPortfolio.
Record t : Type := {
  baseAccountName : string;
  currencies : list CurrencyPortfolio.t;
  totalValueAllCurrencies : Num.number;
  date : string;
  changes : option AccountChanges.t
}.
End CombinedAccountPortfolio.

Module CombinedAccounts.

Import CombinedAccountService.

(** The [Map] from base names to combined accounts, in insertion order. *)
Definition groupedMap : Type := list (string * CombinedAccountPortfolio.t).

Definition mapHas (m : groupedMap) (key : string) : bool :=
  JS.arrIncludes (map fst m) key.

(** [combinedAccount.currencies.push(cp); combinedAccount.total... += v]
    on the entry of [key]. *)
Fixpoint pushCurrency (m : groupedMap) (key : string) (cp : CurrencyPortfolio.t)
  : groupedMap :=
  match m with
  | [] => []
  | (k, c) :: m' =>
      if String.eqb k key then
        (k, {| CombinedAccountPortfolio.baseAccountName :=
                 CombinedAccountPortfolio.baseAccountName c;
               CombinedAccountPortfolio.currencies :=
                 (CombinedAccountPortfolio.currencies c ++ [cp])%list;
               CombinedAccountPortfolio.totalValueAllCurrencies :=
                 Num.add (CombinedAccountPortfolio.totalValueAllCurrencies c)
                         (CurrencyPortfolio.totalValue cp);
               CombinedAccountPortfolio.date := CombinedAccountPortfolio.date c;
               CombinedAccountPortfolio.changes := CombinedAccountPortfolio.changes c |})
        :: m'
      else (k, c) :: pushCurrency m' key cp
  end.

(** The body of the loop of [groupAccountsByCurrency]. *)
Definition groupStep (m : groupedMap) (account : AccountPortfolio.t) : groupedMap :=
  let baseAccountName := extractBaseAccountName (AccountPortfolio.accountName account) in
  let currency := extractCurrency (AccountPortfolio.accountName account) in
  let m :=
    if negb (mapHas m baseAccountName) then
      (m ++ [(baseAccountName,
              {| CombinedAccountPortfolio.baseAccountName := baseAccountName;
                 CombinedAccountPortfolio.currencies := [];
                 CombinedAccountPortfolio.totalValueAllCurrencies := Num.zero;
                 CombinedAccountPortfolio.date := AccountPortfolio.date account;
                 CombinedAccountPortfolio.changes := None |})])%list
    else m in
  pushCurrency m baseAccountName
    {| CurrencyPortfolio.currency := currency;
       CurrencyPortfolio.models := AccountPortfolio.models account;
       CurrencyPortfolio.totalValue := AccountPortfolio.totalValue account |}.

Definition groupAccountsByCurrency (accountPortfolios : list AccountPortfolio.t)
  : list CombinedAccountPortfolio.t :=
  map snd (fold_left groupStep accountPortfolios []).

(** The currency portfolio that an account contributes. *)
Definition currencyPortfolioOf (account : AccountPortfolio.t) : CurrencyPortfolio.t :=
  {| CurrencyPortfolio.currency := extractCurrency (AccountPortfolio.accountName account);
     CurrencyPortfolio.models := AccountPortfolio.models account;
     CurrencyPortfolio.totalValue := AccountPortfolio.totalValue account |}.

(** The accounts with a given base name, and the combined account they
    make: their currency portfolios in order, the sum of their totals
    and the date of the first of them. *)
Definition accountsOf (base : string) (accounts : list AccountPortfolio.t)
  : list AccountPortfolio.t :=
  filter
    (fun a => String.eqb (extractBaseAccountName (AccountPortfolio.accountName a)) base)
    accounts.

Definition combinedOf (accounts : list AccountPortfolio.t) (base : string)
  : CombinedAccountPortfolio.t :=
  {| CombinedAccountPortfolio.baseAccountName := base;
     CombinedAccountPortfolio.currencies :=
       map currencyPortfolioOf (accountsOf base accounts);
     CombinedAccountPortfolio.totalValueAllCurrencies :=
       fold_left (fun sum a => Num.add sum (AccountPortfolio.totalValue a))
         (accountsOf base accounts) Num.zero;
     CombinedAccountPortfolio.date :=
       match accountsOf base accounts with
       | first :: _ => AccountPortfolio.date first
       | [] => EmptyString
       end;
     CombinedAccountPortfolio.changes := None |}.

(** The base name of an account, and the [Map] that the grouping loop
    has built when it has seen the accounts [seen]. *)
Definition baseOf (a : AccountPortfolio.t) : string :=
  extractBaseAccountName (AccountPortfolio.accountName a).

Definition build (seen : list AccountPortfolio.t) : groupedMap :=
  map (fun k => (k, combinedOf seen k)) (JS.uniq (map baseOf seen)).

(** The changes that belong to a combined account. *)
Definition changesOf (changes : list PortfolioChange)
    (combinedAccount : CombinedAccountPortfolio.t) : list PortfolioChange :=
  filter
    (fun change =>
       String.eqb (extractBaseAccountName (accountName change))
                  (CombinedAccountPortfolio.baseAccountName combinedAccount))
    changes.

Definition withChanges (c : CombinedAccountPortfolio.t) (ch : AccountChanges.t)
  : CombinedAccountPortfolio.t :=
  {| CombinedAccountPortfolio.baseAccountName := CombinedAccountPortfolio.baseAccountName c;
     CombinedAccountPortfolio.currencies := CombinedAccountPortfolio.currencies c;
     CombinedAccountPortfolio.totalValueAllCurrencies :=
       CombinedAccountPortfolio.totalValueAllCurrencies c;
     CombinedAccountPortfolio.date := CombinedAccountPortfolio.date c;
     CombinedAccountPortfolio.changes := Some ch |}.

Definition addChangeDataToCombinedAccounts
    (combinedAccounts : list CombinedAccountPortfolio.t)
    (changes : list PortfolioChange) (date : string)
  : list CombinedAccountPortfolio.t :=
  map
    (fun combinedAccount =>
       let accountChanges := changesOf changes combinedAccount in
       if (0 <? List.length accountChanges)%nat then
         let allAddedHoldings := flat_map addedHoldings accountChanges in
         let allRemovedHoldings := flat_map removedHoldings accountChanges in
         withChanges combinedAccount
           {| AccountChanges.addedHoldings := JS.uniq allAddedHoldings;
              AccountChanges.removedHoldings := JS.uniq allRemovedHoldings;
              AccountChanges.hasChanges :=
                (0 <? List.length allAddedHoldings)%nat
                || (0 <? List.length allRemovedHoldings)%nat |}
       else
         withChanges combinedAccount
           {| AccountChanges.addedHoldings := [];
              AccountChanges.removedHoldings := [];
              AccountChanges.hasChanges := false |})
    combinedAccounts.

(** *** [getCombinedAccountPortfolios]

    The service reads the cache, asks the account service for the day's
    portfolios, runs the change detector on the same date, and stores
    what it returns.  The array is stored before it is sorted, but the
    sort is in place, so the stored array and the returned one are one
    sorted array.  The state is the cache together with the log of the
    calls of the account service; [clock] holds the three readings of
    the clock: at the look-up and, twice, at the store. *)

Section GetCombinedAccountPortfolios.

Variable host : DateModel.Host.
Variable getAccountPortfolios : string -> outcome (list AccountPortfolio.t).
Variable now : string.
Variable localeCompare : string -> string -> Z.

Definition state : Type :=
  CacheService.store (list CombinedAccountPortfolio.t) * list string.

Definition compareCombined (a b : CombinedAccountPortfolio.t) : Z :=
  localeCompare (CombinedAccountPortfolio.baseAccountName a)
                (CombinedAccountPortfolio.baseAccountName b).

Definition getCombinedAccountPortfolios (fuel : nat) (clock : Z * Z * Z)
    (dateStr : option string) (st : state)
  : outcome (list CombinedAccountPortfolio.t) * state :=
  let '(atGet, atSet, atSet') := clock in
  let '(cache, log) := st in
  let date := resolveToday now dateStr in
  match CacheService.getCombinedAccounts cache atGet date with
  | (Some cachedData, cache) => (Returned cachedData, (cache, log))
  | (None, cache) =>
      let log := (log ++ [date])%list in
      match getAccountPortfolios date with
      | Returned accountPortfolios =>
          match detectChanges host getAccountPortfolios now localeCompare fuel
                  (Some date) log with
          | (Returned changeAlert, log) =>
              let groupedAccounts := groupAccountsByCurrency accountPortfolios in
              let combinedAccounts :=
                addChangeDataToCombinedAccounts groupedAccounts
                  (ChangeAlert.changes changeAlert) date in
              let combinedAccounts := JS.sortBy compareCombined combinedAccounts in
              (Returned combinedAccounts,
               (CacheService.setCombinedAccounts cache atSet atSet' date combinedAccounts,
                log))
          | (Threw, log) => (Threw, (cache, log))
          | (OutOfFuel, log) => (OutOfFuel, (cache, log))
          end
      | Threw => (Threw, (cache, log))
      | OutOfFuel => (OutOfFuel, (cache, log))
      end
  end.

(** [getCombinedAccountByName] and [getCombinedAccountNames] *)
Definition getCombinedAccountByName (fuel : nat) (clock : Z * Z * Z)
    (baseAccountName : string) (dateStr : option string) (st : state)
  : outcome (option CombinedAccountPortfolio.t) * state :=
  match getCombinedAccountPortfolios fuel clock dateStr st with
  | (Returned combinedAccounts, st) =>
      (Returned
         (find (fun account =>
                  String.eqb (CombinedAccountPortfolio.baseAccountName account)
                             baseAccountName)
               combinedAccounts), st)
  | (Threw, st) => (Threw, st)
  | (OutOfFuel, st) => (OutOfFuel, st)
  end.

Definition getCombinedAccountNames (fuel : nat) (clock : Z * Z * Z) (st : state)
  : outcome (list string) * state :=
  match getCombinedAccountPortfolios fuel clock None st with
  | (Returned combinedAccounts, st) =>
      (Returned (map CombinedAccountPortfolio.baseAccountName combinedAccounts), st)
  | (Threw, st) => (Threw, st)
  | (OutOfFuel, st) => (OutOfFuel, st)
  end.

End GetCombinedAccountPortfolios.

End CombinedAccounts.

(* ================================================================== *)
(** ** Sample data *)

Module Sample.

(** Two hosts that keep one offset all year: one at UTC, and one five
    hours behind it, as a host in the zone America/Bogota is.  The
    samples hand them date-only strings only. *)
Definition utc : DateModel.Host := DateModel.fixedHost 0 (fun _ => None).
Definition west : DateModel.Host := DateModel.fixedHost (-18000000) (fun _ => None).

(** The same host five hours behind UTC, which also reads the form
    [MM/DD/YYYY], as Node does: midnight of that day in local time. *)
Definition westSlash : DateModel.Host :=
  DateModel.fixedHost (-18000000)
    (fun s => if String.eqb s "12/25/2024" then Some 1735102800000%Z
              else if String.eqb s "12/14/2024" then Some 1734152400000%Z
              else None).

Definition perf (finalEquity : Num.number) (portfolio : string) : PerformanceData :=
  {| finalEquity := finalEquity; probabilityWin := Num.zero; returnYTD := Num.zero;
     return1Month := Num.zero; return3Month := Num.zero; return6Month := Num.zero;
     return12Month := Num.zero; tradesYTD := Num.zero; maxDrawdown := Num.zero;
     currentDrawdown := Num.zero; sharpeRatio := Num.zero; cagr := Num.zero;
     volatility := Num.zero; portfolio := portfolio; mlAccuracies := EmptyString |}.

(** A model whose holdings text has one token per line. *)
Definition modelOf (name : string) (lines : list string) : ModelData :=
  {| name := name; symbol := name;
     performance := perf Num.zero (String.concat JS.LF lines) |}.

Definition accountOf (accountName date : string) (models : list ModelData)
  : AccountPortfolio.t :=
  {| AccountPortfolio.accountName := accountName;
     AccountPortfolio.models := models;
     AccountPortfolio.totalValue := Num.zero;
     AccountPortfolio.date := date |}.

(** A collation in the manner of the CLDR root collation, for the
    examples: a sort key made of the primary weights of the characters
    (punctuation, then digits, then letters without regard to case), a
    separator, and their case weights (lower before upper); two strings
    compare as their keys do. *)
Definition primaryWeight (c : ascii) : nat :=
  if JS.isUpperAZ c || JS.isLowerAZ c then 1000 + JS.code (JS.lowerChar c)
  else if JS.isDigit c then 500 + JS.code c
  else 1 + JS.code c.

Definition caseWeight (c : ascii) : nat := if JS.isUpperAZ c then 2 else 1.

Definition sortKey (s : string) : list nat :=
  (map primaryWeight (list_ascii_of_string s)
   ++ 0 :: map caseWeight (list_ascii_of_string s))%list.

Fixpoint lexCompare (a b : list nat) : comparison :=
  match a, b with
  | [], [] => Eq
  | [], _ :: _ => Lt
  | _ :: _, [] => Gt
  | x :: a', y :: b' =>
      match Nat.compare x y with
      | Eq => lexCompare a' b'
      | o => o
      end
  end.

Definition collate (a b : string) : Z :=
  match lexCompare (sortKey a) (sortKey b) with
  | Lt => (-1)%Z
  | Eq => 0%Z
  | Gt => 1%Z
  end.

(** Two days of one account: on Friday 2024-12-13 it holds the models
    Growth and Cash Reserve, the latter with an empty holdings text; on
    Monday 2024-12-16 it holds Growth alone, reweighted. *)
Definition twoDays (day : string) : outcome (list AccountPortfolio.t) :=
  if String.eqb day "2024-12-16" then
    Returned [accountOf "Glen RRSP $USD" day [modelOf "Growth" ["NVDA (22%)"]]]
  else
    Returned [accountOf "Glen RRSP $USD" day
                [modelOf "Growth" ["NVDA (21%)"]; modelOf "Cash Reserve" []]].

(** A day of the assembler: two mapped models, one email whose tables
    hold one row for each model. *)
Definition mappings : list Mapping :=
  [ {| model := "Alpha Growth"; account := "anne TFSA" |};
    {| model := "Beta Income"; account := "Glen RRSP" |} ].

Definition holdingOf (name : string) (equity : Num.number) : Holding :=
  {| h_symbol := name; h_name := name; quantity := Num.zero; price := equity;
     value := equity; dayChange := Num.zero; dayChangePercent := Num.zero;
     h_performance := None |}.

Definition oneEmail (dateFrom dateTo : string) : outcome (list Email) :=
  Returned [ {| subject := "Daily performance"; emailDate := dateFrom;
                htmlBody := "<table></table>" |} ].

Definition parsedTables (html subject date : string) (allowed : list string)
  : list PortfolioData.t :=
  [ {| PortfolioData.accountName := "Portfolio";
       PortfolioData.accountNumber := EmptyString;
       PortfolioData.holdings :=
         [ holdingOf "1. Beta Income" (Num.ofZ 2500);
           holdingOf "2. Alpha Growth" (Num.ofZ 1000) ];
       PortfolioData.totalValue := Num.ofZ 3500;
       PortfolioData.dayChange := Num.zero;
       PortfolioData.dayChangePercent := Num.zero;
       PortfolioData.date := date |} ].

End Sample.

(* ================================================================== *)
(** * Properties *)

(** ** Strings *)

Module StringFacts.

Lemma append_nil_r (s : string) : s ++ EmptyString = s.
Proof. induction s as [|c s IH]; simpl; [reflexivity | now rewrite IH]. Qed.

Lemma append_assoc (a b c : string) : (a ++ b) ++ c = a ++ (b ++ c).
Proof. induction a as [|x a IH]; simpl; [reflexivity | now rewrite IH]. Qed.

Lemma length_append (a b : string) : length (a ++ b) = length a + length b.
Proof. induction a as [|x a IH]; simpl; [reflexivity | now rewrite IH]. Qed.

Lemma substring_prefix (a b : string) : substring 0 (length a) (a ++ b) = a.
Proof.
  induction a as [|x a IH]; simpl.
  - destruct b; reflexivity.
  - now rewrite IH.
Qed.

Lemma substring_take (a b : string) :
  substring 0 (length (a ++ b) - length b) (a ++ b) = a.
Proof.
  rewrite length_append, Nat.add_sub. apply substring_prefix.
Qed.


Lemma orElse_empty (s : string) : JS.orElse s EmptyString = s.
Proof. now destruct s. Qed.

Lemma arrIncludes_In (l : list string) (x : string) :
  JS.arrIncludes l x = true <-> In x l.
Proof.
  unfold JS.arrIncludes. rewrite existsb_exists. split.
  - intros (y & Hy & E). apply String.eqb_eq in E. now subst.
  - intros H. exists x. split; [assumption | apply String.eqb_refl].
Qed.

End StringFacts.

(** ** The matcher finds matches, and only matches *)

Module RegexFacts.

Import StringFacts.

Lemma exec_star_nil (p : ascii -> bool) (k : string -> option string) :
  exec (Star p) EmptyString k = k EmptyString.
Proof. reflexivity. Qed.

Lemma exec_star_cons (p : ascii -> bool) (c : ascii) (s : string)
    (k : string -> option string) :
  exec (Star p) (String c s) k =
  if p c then
    match exec (Star p) s k with
    | Some t => Some t
    | None => k (String c s)
    end
  else k (String c s).
Proof. reflexivity. Qed.

Lemma exec_cat (r1 r2 : regex) (s : string) (k : string -> option string) :
  exec (Cat r1 r2) s k = exec r1 s (fun s' => exec r2 s' k).
Proof. reflexivity. Qed.

Lemma exec_chr_cons (p : ascii -> bool) (c : ascii) (s : string)
    (k : string -> option string) :
  exec (Chr p) (String c s) k = if p c then k s else None.
Proof. reflexivity. Qed.






Lemma search_here (r : regex) (s m a : string) :
  matchAt r s = Some (m, a) -> search r s = Some (EmptyString, m, a).
Proof. intros H. destruct s; simpl; now rewrite H. Qed.



End RegexFacts.

(** ** Holdings texts *)

Module HoldingsFacts.

Import StringFacts RegexFacts.

Lemma star_greedy (p : ascii -> bool) (k : string -> option string) :
  forall run rest t,
    JS.allChars p run = true -> JS.headNot p rest -> k rest = Some t ->
    exec (Star p) (run ++ rest) k = Some t.
Proof.
  induction run as [|c run IH]; intros rest t A N K.
  - simpl append. destruct rest as [|c rest]; [exact K|].
    rewrite exec_star_cons. simpl in N. now rewrite N.
  - simpl in A. apply andb_prop in A as [Ec A].
    simpl append. rewrite exec_star_cons, Ec. now rewrite (IH rest t A N K).
Qed.


Lemma trimEnd_nonspace_end (a : string) (c : ascii) :
  JS.isSpace c = false ->
  JS.trimEnd (a ++ String c EmptyString) = a ++ String c EmptyString.
Proof.
  intros E. induction a as [|x a IH]; simpl.
  - now rewrite E.
  - rewrite IH. destruct a; reflexivity.
Qed.

Lemma scan_skip_all (r : regex) :
  forall s n, length s = n -> matchAt r EmptyString = None -> scan r s n = [].
Proof.
  induction s as [|c s IH]; intros n L E; simpl in *; subst n.
  - now rewrite E.
  - now apply IH.
Qed.

(** A holdings token, for a symbol class [P] that holds no white space,
    is matched whole. *)
Section Token.

Variable P : ascii -> bool.
Hypothesis P_not_space : forall c, P c = true -> JS.isSpace c = false.

Let re : regex :=
  Cat (Plus P)
   (Cat (Star JS.isSpace)
    (Cat (Lit "(")
     (Cat (Plus JS.isDigit)
      (Cat (Lit "%") (Lit ")"))))).

Lemma token_spelled (sym pct rest : string) :
  token sym pct ++ rest = sym ++ " (" ++ pct ++ "%)" ++ rest.
Proof. unfold token. now rewrite !append_assoc. Qed.

(** Whatever follows it, the token is what the matcher takes. *)
Lemma token_exec (sym pct rest : string) :
  sym <> EmptyString -> JS.allChars P sym = true ->
  pct <> EmptyString -> JS.allChars JS.isDigit pct = true ->
  exec re (token sym pct ++ rest) Some = Some rest.
Proof.
  intros Hs As Hp Ap. rewrite token_spelled.
  destruct sym as [|c sym]; [contradiction|].
  destruct pct as [|d pct]; [contradiction|].
  simpl in As, Ap. apply andb_prop in As as [Ec As].
  apply andb_prop in Ap as [Ed Ap].
  unfold re, Plus, Lit. simpl append.
  rewrite !exec_cat, exec_chr_cons, Ec.
  apply star_greedy; [exact As | |].
  { simpl. destruct (P " ") eqn:E; [|reflexivity].
    apply P_not_space in E. discriminate. }
  rewrite exec_cat.
  apply (star_greedy JS.isSpace _ " "
           (String "(" (String d (pct ++ String "%" (String ")" rest)))));
    [reflexivity | reflexivity |].
  rewrite !exec_cat, exec_chr_cons.
  change (JS.isChar "(" "(") with true. cbv iota.
  rewrite !exec_cat, exec_chr_cons, Ed.
  apply star_greedy; [exact Ap | reflexivity | reflexivity].
Qed.

Lemma token_matchAt_rest (sym pct rest : string) :
  sym <> EmptyString -> JS.allChars P sym = true ->
  pct <> EmptyString -> JS.allChars JS.isDigit pct = true ->
  matchAt re (token sym pct ++ rest) = Some (token sym pct, rest).
Proof.
  intros Hs As Hp Ap. unfold matchAt.
  rewrite (token_exec sym pct rest Hs As Hp Ap). now rewrite substring_take.
Qed.

Lemma token_matchAt (sym pct : string) :
  sym <> EmptyString -> JS.allChars P sym = true ->
  pct <> EmptyString -> JS.allChars JS.isDigit pct = true ->
  matchAt re (token sym pct) = Some (token sym pct, EmptyString).
Proof.
  intros Hs As Hp Ap.
  pose proof (token_matchAt_rest sym pct EmptyString Hs As Hp Ap) as H.
  now rewrite append_nil_r in H.
Qed.

Lemma token_scan (sym pct : string) :
  sym <> EmptyString -> JS.allChars P sym = true ->
  pct <> EmptyString -> JS.allChars JS.isDigit pct = true ->
  matchAll re (token sym pct) = Some [token sym pct].
Proof.
  intros Hs As Hp Ap.
  pose proof (token_matchAt sym pct Hs As Hp Ap) as M.
  unfold matchAll.
  destruct (token sym pct) as [|c rest] eqn:T.
  - destruct sym; [contradiction | discriminate].
  - cbn [scan]. rewrite M.
    replace (length (String c rest) - 1) with (length rest) by (simpl; lia).
    rewrite scan_skip_all; [reflexivity | reflexivity | reflexivity].
Qed.

Lemma scan_append_skip (r : regex) (a b : string) :
  scan r (a ++ b) (length a) = scan r b 0.
Proof. induction a as [|c a IH]; [reflexivity | exact IH]. Qed.

Lemma token_nonempty (sym pct : string) :
  sym <> EmptyString -> exists c t, token sym pct = String c t.
Proof. destruct sym as [|c sym]; [contradiction|]. intros _. now eexists; eexists. Qed.

Lemma scan_token_then (sym pct rest : string) :
  sym <> EmptyString -> JS.allChars P sym = true ->
  pct <> EmptyString -> JS.allChars JS.isDigit pct = true ->
  scan re (token sym pct ++ rest) 0 = token sym pct :: scan re rest 0.
Proof.
  intros Hs As Hp Ap.
  pose proof (token_matchAt_rest sym pct rest Hs As Hp Ap) as M.
  destruct (token_nonempty sym pct Hs) as (c & t & T). rewrite T in *.
  simpl append in *. cbn [scan]. rewrite M. f_equal.
  replace (length (String c t) - 1) with (length t) by (simpl; lia).
  apply scan_append_skip.
Qed.

Lemma scan_line_feed (rest : string) :
  scan re (JS.LF ++ rest) 0 = scan re rest 0.
Proof.
  unfold JS.LF. simpl append. cbn [scan].
  assert (E : matchAt re (String (ascii_of_nat 10) rest) = None).
  { unfold matchAt, re, Plus. rewrite !exec_cat, exec_chr_cons.
    destruct (P (ascii_of_nat 10)) eqn:E; [|reflexivity].
    apply P_not_space in E. discriminate. }
  now rewrite E.
Qed.

Lemma token_trim (sym pct : string) :
  sym <> EmptyString -> JS.allChars P sym = true ->
  JS.trim (token sym pct) = token sym pct.
Proof.
  intros Hs As. unfold JS.trim.
  assert (TS : JS.trimStart (token sym pct) = token sym pct).
  { destruct sym as [|c sym]; [contradiction|].
    simpl in As. apply andb_prop in As as [Ec _].
    unfold token. simpl. now rewrite (P_not_space c Ec). }
  rewrite TS.
  assert (T : token sym pct = (sym ++ " (" ++ pct ++ "%") ++ ")").
  { unfold token. rewrite !append_assoc. reflexivity. }
  rewrite T. now apply trimEnd_nonspace_end.
Qed.

End Token.

(** The matches of a holdings text with one well-formed token per line
    are its tokens. *)
Lemma scan_holdingsText (entries : list (string * string)) :
  Forall wellFormedEntry entries ->
  scan holdingRe (holdingsText entries) 0 = map tokenOf entries.
Proof.
  assert (NS : forall c, symbolChar c = true -> JS.isSpace c = false).
  { intros c. destruct c as [[] [] [] [] [] [] [] []]; vm_compute; congruence. }
  unfold holdingsText.
  induction 1 as [|e l (Hs & As & Hp & Ap) Hl IH]; [reflexivity|].
  cbn [map String.concat]. destruct l as [|e' l'].
  - cbn [map]. rewrite <- (append_nil_r (tokenOf e)) at 1.
    unfold tokenOf, holdingRe.
    now rewrite (scan_token_then symbolChar NS _ _ EmptyString Hs As Hp Ap).
  - cbn [map] in *. unfold tokenOf at 1. unfold holdingRe in *.
    rewrite (scan_token_then symbolChar NS _ _ _ Hs As Hp Ap).
    now rewrite (scan_line_feed symbolChar NS), IH.
Qed.

Lemma holdingsText_truthy (e : string * string) (l : list (string * string)) :
  wellFormedEntry e -> JS.truthy (holdingsText (e :: l)) = true.
Proof.
  intros (Hs & _). unfold holdingsText. cbn [map String.concat].
  destruct (fst e) as [|c sym] eqn:E; [contradiction|].
  destruct (map tokenOf l); unfold tokenOf, token; now rewrite E.
Qed.

Lemma extractHoldings_holdingsText (entries : list (string * string)) :
  Forall wellFormedEntry entries ->
  extractHoldingsFromPortfolio (holdingsText entries) = map tokenOf entries.
Proof.
  assert (NS : forall c, symbolChar c = true -> JS.isSpace c = false).
  { intros c. destruct c as [[] [] [] [] [] [] [] []]; vm_compute; congruence. }
  intros W. unfold extractHoldingsFromPortfolio, matchAll.
  rewrite (scan_holdingsText entries W).
  destruct W as [|e l We Wl]; [reflexivity|].
  rewrite (holdingsText_truthy e l We). cbn [negb map].
  f_equal.
  - destruct We as (Hs & As & _). apply (token_trim symbolChar NS _ _ Hs As).
  - induction Wl as [|e' l' (Hs & As & _) _ IH]; [reflexivity|].
    cbn [map]. f_equal; [apply (token_trim symbolChar NS _ _ Hs As) | exact IH].
Qed.

Lemma symbol_of_token (sym pct : string) :
  sym <> EmptyString -> JS.allChars symbolChar sym = true ->
  match1 symbolRe (token sym pct) = Some sym.
Proof.
  intros Hs As. unfold match1.
  assert (M : matchAt symbolRe (token sym pct) = Some (sym, " (" ++ pct ++ "%)")).
  { unfold matchAt, symbolRe, Plus, token.
    assert (N : JS.headNot symbolChar (" (" ++ pct ++ "%)")) by reflexivity.
    set (rest := " (" ++ pct ++ "%)") in *.
    destruct sym as [|c sym]; [contradiction|].
    simpl in As. apply andb_prop in As as [Ec As].
    cbn [append]. rewrite exec_cat, exec_chr_cons, Ec.
    rewrite (star_greedy symbolChar Some sym rest rest As N eq_refl).
    change (String c (sym ++ rest)) with (String c sym ++ rest).
    now rewrite substring_take. }
  now rewrite (RegexFacts.search_here _ _ _ _ M).
Qed.

Lemma extractSymbols_holdingsText (entries : list (string * string)) :
  Forall wellFormedEntry entries ->
  extractSecuritySymbols (holdingsText entries) = map fst entries.
Proof.
  intros W. unfold extractSecuritySymbols, matchAll.
  rewrite (scan_holdingsText entries W).
  destruct W as [|e l We Wl]; [reflexivity|].
  rewrite (holdingsText_truthy e l We). cbn [negb map flat_map].
  destruct We as (Hs & As & _). unfold tokenOf at 1.
  rewrite (symbol_of_token _ _ Hs As). cbn [app]. f_equal.
  induction Wl as [|e' l' (Hs' & As' & _) _ IH]; [reflexivity|].
  cbn [map flat_map]. unfold tokenOf at 1.
  rewrite (symbol_of_token _ _ Hs' As'). cbn [app]. now f_equal.
Qed.

End HoldingsFacts.

(** ** Change detector: comparison of two holdings texts *)

Module CompareFacts.

Import StringFacts HoldingsFacts.

Lemma symbolChar_not_space (c : ascii) :
  symbolChar c = true -> JS.isSpace c = false.
Proof.
  destruct c as [[] [] [] [] [] [] [] []]; vm_compute; congruence.
Qed.

Lemma symbolCharBackslash_not_space (c : ascii) :
  CombinedAccountService.symbolCharBackslash c = true -> JS.isSpace c = false.
Proof.
  destruct c as [[] [] [] [] [] [] [] []]; vm_compute; congruence.
Qed.

Lemma symbolChar_backslash (s : string) :
  JS.allChars symbolChar s = true ->
  JS.allChars CombinedAccountService.symbolCharBackslash s = true.
Proof.
  induction s as [|c s IH]; simpl; [reflexivity|].
  intros H. apply andb_prop in H as [Hc Hs]. rewrite (IH Hs), andb_true_r.
  unfold CombinedAccountService.symbolCharBackslash, symbolChar in *.
  apply orb_prop in Hc as [-> | ->]; [reflexivity | now rewrite orb_true_r].
Qed.

Lemma token_truthy (sym pct : string) :
  sym <> EmptyString -> JS.truthy (token sym pct) = true.
Proof. destruct sym; [contradiction | reflexivity]. Qed.

(** The loops push nothing when every symbol of one day is a symbol of
    the other. *)
Lemma removedLoop_nothing (ys ts hs : list string) :
  (forall s, In s ys -> In s ts) -> removedLoop ys ts hs = [].
Proof.
  intros H. unfold removedLoop. generalize (@nil string) as acc.
  induction ys as [|y ys IH]; intros acc; simpl; [reflexivity|].
  assert (E : JS.arrIncludes ts y = true).
  { apply arrIncludes_In, H. now left. }
  rewrite E. simpl. apply IH. intros s Hs. apply H. now right.
Qed.

Lemma addedLoop_nothing (ts ys hs : list string) :
  (forall s, In s ts -> In s ys) -> addedLoop ts ys hs = [].
Proof.
  intros H. unfold addedLoop. generalize (@nil string) as acc.
  induction ts as [|t ts IH]; intros acc; simpl; [reflexivity|].
  assert (E : JS.arrIncludes ys t = true).
  { apply arrIncludes_In, H. now left. }
  rewrite E. simpl. apply IH. intros s Hs. apply H. now right.
Qed.

End CompareFacts.

(** ** Change detector: what is reported when symbols are prefix-free *)

Module LookupFacts.

Import StringFacts HoldingsFacts CompareFacts.

Lemma prefix_app (a b : string) : String.prefix a (a ++ b) = true.
Proof.
  induction a as [|c a IH]; simpl; [now destruct b|].
  now destruct (ascii_dec c c).
Qed.

Lemma prefix_empty (s : string) : String.prefix EmptyString s = true.
Proof. now destruct s. Qed.

(** A string of symbol characters that begins a token begins its symbol. *)
Lemma prefix_of_token (s sym pct : string) :
  JS.allChars symbolChar s = true ->
  JS.startsWith (token sym pct) s = true -> String.prefix s sym = true.
Proof.
  unfold JS.startsWith, token. revert s.
  induction sym as [|b sym IH]; intros [|a s] A H; try reflexivity.
  - simpl in A. apply andb_prop in A as [Ea _]. simpl in H.
    destruct (ascii_dec a " ") as [->|]; [discriminate Ea | discriminate H].
  - simpl in A. apply andb_prop in A as [_ A]. simpl in H |- *.
    destruct (ascii_dec a b); [|discriminate]. now apply IH.
Qed.

Lemma token_startsWith_symbol (sym pct : string) :
  JS.startsWith (token sym pct) sym = true.
Proof. apply prefix_app. Qed.

(** The lookup of a symbol finds the first line with this symbol. *)
Lemma find_symbol (lines : list (string * string)) (e : string * string) :
  Forall wellFormedEntry lines -> prefixFree lines -> In e lines ->
  exists e0,
    find (fun h => JS.startsWith h (fst e)) (map tokenOf lines) = Some (tokenOf e0)
    /\ In e0 lines /\ fst e0 = fst e.
Proof.
  intros W PF I.
  assert (We : JS.allChars symbolChar (fst e) = true).
  { rewrite Forall_forall in W. now destruct (W e I) as (_ & A & _). }
  assert (G : forall l, (forall x, In x l -> In x lines) -> In e l ->
                exists e0,
                  find (fun h => JS.startsWith h (fst e)) (map tokenOf l)
                  = Some (tokenOf e0) /\ In e0 l /\ fst e0 = fst e).
  { induction l as [|x l IH]; intros S Il; [contradiction|].
    cbn [map find].
    destruct (JS.startsWith (tokenOf x) (fst e)) eqn:E.
    - exists x. split; [reflexivity|]. split; [now left|].
      symmetry. apply (PF e x I (S x (or_introl eq_refl))).
      apply (prefix_of_token _ _ (snd x) We E).
    - destruct Il as [-> | Il].
      + unfold tokenOf in E. now rewrite token_startsWith_symbol in E.
      + destruct (IH (fun y Hy => S y (or_intror Hy)) Il) as (e0 & F & I0 & E0).
        exists e0. split; [exact F|]. split; [now right | exact E0]. }
  apply (G lines (fun x H => H) I).
Qed.

Lemma In_uniq (x : string) (l : list string) : In x (JS.uniq l) <-> In x l.
Proof.
  induction l as [|y l IH]; simpl; [tauto|].
  rewrite filter_In, IH. destruct (String.eqb_spec y x) as [->|N]; simpl.
  - tauto.
  - intuition congruence.
Qed.

(** What the removal loop and the addition loop push. *)
Lemma In_removedLoop (ys ts hs : list string) (h : string) :
  In h (removedLoop ys ts hs) <->
  exists s, In s ys /\ JS.arrIncludes ts s = false
            /\ find (fun x => JS.startsWith x s) hs = Some h /\ JS.truthy h = true.
Proof.
  unfold removedLoop.
  assert (G : forall acc,
            In h (fold_left
                    (fun removed yesterdaySymbol =>
                       if negb (JS.arrIncludes ts yesterdaySymbol) then
                         match find (fun x => JS.startsWith x yesterdaySymbol) hs with
                         | Some removedHolding =>
                             if JS.truthy removedHolding
                             then (removed ++ [removedHolding])%list else removed
                         | None => removed
                         end
                       else removed) ys acc) <->
            In h acc \/
            exists s, In s ys /\ JS.arrIncludes ts s = false
                      /\ find (fun x => JS.startsWith x s) hs = Some h
                      /\ JS.truthy h = true).
  { induction ys as [|y ys IH]; intros acc; cbn [fold_left].
    - split; [now left | intros [H | (s & [] & _)]; exact H].
    - rewrite IH. clear IH.
      destruct (JS.arrIncludes ts y) eqn:Ey; cbn [negb].
      + split; intros [H | (s & Hs & R)]; auto.
        * right. exists s. split; [now right | exact R].
        * destruct Hs as [<- | Hs]; [destruct R as (R & _); congruence|].
          right. now exists s.
      + destruct (find (fun x => JS.startsWith x y) hs) as [r|] eqn:Fy.
        * destruct (JS.truthy r) eqn:Tr.
          -- rewrite in_app_iff. cbn [In].
             split; [intros [[H | [<- | []]] | (s & Hs & R)]
                    | intros [H | (s & [<- | Hs] & R)]]; auto.
             ++ right. exists y. split; [now left|]. now repeat split.
             ++ right. exists s. split; [now right | exact R].
             ++ destruct R as (_ & R & _). left. right. left. congruence.
             ++ right. now exists s.
          -- split; intros [H | (s & Hs & R)]; auto.
             ++ right. exists s. split; [now right | exact R].
             ++ destruct Hs as [<- | Hs];
                  [destruct R as (_ & R & T); congruence|].
                right. now exists s.
        * split; intros [H | (s & Hs & R)]; auto.
          -- right. exists s. split; [now right | exact R].
          -- destruct Hs as [<- | Hs]; [destruct R as (_ & R & _); congruence|].
             right. now exists s. }
  rewrite G. split; [intros [[] | H]; exact H | now right].
Qed.

Lemma In_addedLoop (ts ys hs : list string) (h : string) :
  In h (addedLoop ts ys hs) <->
  exists s, In s ts /\ JS.arrIncludes ys s = false
            /\ find (fun x => JS.startsWith x s) hs = Some h /\ JS.truthy h = true.
Proof.
  unfold addedLoop.
  assert (G : forall acc,
            In h (fold_left
                    (fun added todaySymbol =>
                       if negb (JS.arrIncludes ys todaySymbol) then
                         match find (fun x => JS.startsWith x todaySymbol) hs with
                         | Some addedHolding =>
                             if JS.truthy addedHolding
                                && negb (JS.arrIncludes added addedHolding)
                             then (added ++ [addedHolding])%list else added
                         | None => added
                         end
                       else added) ts acc) <->
            In h acc \/
            exists s, In s ts /\ JS.arrIncludes ys s = false
                      /\ find (fun x => JS.startsWith x s) hs = Some h
                      /\ JS.truthy h = true).
  { induction ts as [|t ts IH]; intros acc; cbn [fold_left].
    - split; [now left | intros [H | (s & [] & _)]; exact H].
    - rewrite IH. clear IH.
      destruct (JS.arrIncludes ys t) eqn:Et; cbn [negb].
      + split; intros [H | (s & Hs & R)]; auto.
        * right. exists s. split; [now right | exact R].
        * destruct Hs as [<- | Hs]; [destruct R as (R & _); congruence|].
          right. now exists s.
      + destruct (find (fun x => JS.startsWith x t) hs) as [r|] eqn:Ft.
        * destruct (JS.truthy r) eqn:Tr; cbn [andb].
          -- destruct (JS.arrIncludes acc r) eqn:Ir; cbn [negb].
             ++ apply arrIncludes_In in Ir.
                split; intros [H | (s & Hs & R)]; auto.
                ** right. exists s. split; [now right | exact R].
                ** destruct Hs as [<- | Hs].
                   --- destruct R as (_ & R & _). left. congruence.
                   --- right. now exists s.
             ++ rewrite in_app_iff. cbn [In].
                split; [intros [[H | [<- | []]] | (s & Hs & R)]
                       | intros [H | (s & [<- | Hs] & R)]]; auto.
                ** right. exists t. split; [now left|]. now repeat split.
                ** right. exists s. split; [now right | exact R].
                ** destruct R as (_ & R & _). left. right. left. congruence.
                ** right. now exists s.
          -- split; intros [H | (s & Hs & R)]; auto.
             ++ right. exists s. split; [now right | exact R].
             ++ destruct Hs as [<- | Hs];
                  [destruct R as (_ & R & T); congruence|].
                right. now exists s.
        * split; intros [H | (s & Hs & R)]; auto.
          -- right. exists s. split; [now right | exact R].
          -- destruct Hs as [<- | Hs]; [destruct R as (_ & R & _); congruence|].
             right. now exists s. }
  rewrite G. split; [intros [[] | H]; exact H | now right].
Qed.

Lemma tokenOf_truthy (e : string * string) :
  wellFormedEntry e -> JS.truthy (tokenOf e) = true.
Proof. intros (N & _). now apply token_truthy. Qed.

Lemma arrIncludes_false (l : list string) (x : string) :
  JS.arrIncludes l x = false <-> ~ In x l.
Proof.
  rewrite <- arrIncludes_In. destruct (JS.arrIncludes l x); split; congruence.
Qed.

(** One direction of the comparison: the holdings reported for the
    symbols of [lines] that [others] lacks. *)
Lemma lookup_reports (lines : list (string * string)) (others : list string)
    (reported : list string) :
  Forall wellFormedEntry lines -> prefixFree lines ->
  (forall h, In h reported <->
     exists s, In s (map fst lines) /\ JS.arrIncludes others s = false
               /\ find (fun x => JS.startsWith x s) (map tokenOf lines) = Some h
               /\ JS.truthy h = true) ->
  (forall e, In e lines -> ~ In (fst e) others ->
     exists e0, In e0 lines /\ fst e0 = fst e /\ In (tokenOf e0) reported)
  /\ (forall h, In h reported ->
       exists e0, In e0 lines /\ h = tokenOf e0 /\ ~ In (fst e0) others).
Proof.
  intros W PF R. split.
  - intros e I N. destruct (find_symbol lines e W PF I) as (e0 & F & I0 & E0).
    exists e0. split; [exact I0|]. split; [exact E0|].
    apply R. exists (fst e). split; [now apply in_map|].
    split; [now apply arrIncludes_false|]. split; [exact F|].
    apply tokenOf_truthy. rewrite Forall_forall in W. now apply W.
  - intros h H. apply R in H as (s & Is & N & F & _).
    apply in_map_iff in Is as (e & <- & I).
    destruct (find_symbol lines e W PF I) as (e0 & F0 & I0 & E0).
    exists e0. split; [exact I0|]. split; [congruence|].
    rewrite E0. now apply arrIncludes_false.
Qed.

(** When the symbols of each day are prefix-free, the comparison of two
    holdings texts of one token per line reports, for every symbol that
    only the previous day has, the holding of the previous day's first
    line with this symbol as removed, for every symbol that only today
    has, the holding of today's first line with this symbol as added,
    and nothing else. *)
Lemma prefix_free_comparison (t y : ModelData)
    (todayLines previousLines : list (string * string)) (acct day : string) :
  portfolio (performance t) = holdingsText todayLines ->
  portfolio (performance y) = holdingsText previousLines ->
  Forall wellFormedEntry todayLines -> Forall wellFormedEntry previousLines ->
  prefixFree todayLines -> prefixFree previousLines ->
  let c := compareModelHoldings t (Some y) acct day in
  (forall e, In e previousLines -> ~ In (fst e) (map fst todayLines) ->
     exists e0, In e0 previousLines /\ fst e0 = fst e
                /\ In (tokenOf e0) (removedHoldings c))
  /\ (forall h, In h (removedHoldings c) ->
       exists e0, In e0 previousLines /\ h = tokenOf e0
                  /\ ~ In (fst e0) (map fst todayLines))
  /\ (forall e, In e todayLines -> ~ In (fst e) (map fst previousLines) ->
       exists e0, In e0 todayLines /\ fst e0 = fst e
                  /\ In (tokenOf e0) (addedHoldings c))
  /\ (forall h, In h (addedHoldings c) ->
       exists e0, In e0 todayLines /\ h = tokenOf e0
                  /\ ~ In (fst e0) (map fst previousLines)).
Proof.
  intros Et Ey Wt Wy Pt Py c.
  assert (Rm : forall h, In h (removedHoldings c) <->
             exists s, In s (map fst previousLines)
               /\ JS.arrIncludes (map fst todayLines) s = false
               /\ find (fun x => JS.startsWith x s) (map tokenOf previousLines) = Some h
               /\ JS.truthy h = true).
  { intros h. unfold c, compareModelHoldings. cbn [removedHoldings].
    rewrite !orElse_empty, Et, Ey.
    rewrite !extractSymbols_holdingsText, !extractHoldings_holdingsText by assumption.
    rewrite In_uniq. apply In_removedLoop. }
  assert (Ad : forall h, In h (addedHoldings c) <->
             exists s, In s (map fst todayLines)
               /\ JS.arrIncludes (map fst previousLines) s = false
               /\ find (fun x => JS.startsWith x s) (map tokenOf todayLines) = Some h
               /\ JS.truthy h = true).
  { intros h. unfold c, compareModelHoldings. cbn [addedHoldings].
    rewrite !orElse_empty, Et, Ey.
    rewrite !extractSymbols_holdingsText, !extractHoldings_holdingsText by assumption.
    rewrite In_uniq. apply In_addedLoop. }
  destruct (lookup_reports previousLines (map fst todayLines) _ Wy Py Rm) as [R1 R2].
  destruct (lookup_reports todayLines (map fst previousLines) _ Wt Pt Ad) as [A1 A2].
  repeat split; assumption.
Qed.

End LookupFacts.

Import StringFacts HoldingsFacts CompareFacts.

(** C1.  When today's and the previous trading day's holdings texts of a
    model contain the same set of security symbols, whatever the weights,
    [compareModelHoldings] reports no added and no removed holding.  For
    texts of one [SYMBOL (NN%)] token per line the symbols are those of
    the lines, so two such texts with the same symbols and any
    percentages give no change; so it is for [NVDA (22%)], [AVGO (39%)]
    against [NVDA (17%)], [AVGO (42%)]. *)
Theorem same_symbols_no_change
    (todayModel yesterdayModel : ModelData) (acct day : string) :
  (forall s,
     In s (extractSecuritySymbols (portfolio (performance todayModel))) <->
     In s (extractSecuritySymbols (portfolio (performance yesterdayModel)))) ->
  addedHoldings (compareModelHoldings todayModel (Some yesterdayModel) acct day) = []
  /\ removedHoldings (compareModelHoldings todayModel (Some yesterdayModel) acct day) = []
  /\ (forall (t y : ModelData) (todayLines previousLines : list (string * string)),
        portfolio (performance t) = holdingsText todayLines ->
        portfolio (performance y) = holdingsText previousLines ->
        Forall wellFormedEntry todayLines -> Forall wellFormedEntry previousLines ->
        (forall s, In s (map fst todayLines) <-> In s (map fst previousLines)) ->
        addedHoldings (compareModelHoldings t (Some y) acct day) = []
        /\ removedHoldings (compareModelHoldings t (Some y) acct day) = [])
  /\ (let today := Sample.modelOf "Growth" ["NVDA (17%)"; "AVGO (42%)"] in
      let previous := Sample.modelOf "Growth" ["NVDA (22%)"; "AVGO (39%)"] in
      addedHoldings (compareModelHoldings today (Some previous) acct day) = []
      /\ removedHoldings (compareModelHoldings today (Some previous) acct day) = []).
Proof.
  assert (G : forall t y,
            (forall s,
               In s (extractSecuritySymbols (portfolio (performance t))) <->
               In s (extractSecuritySymbols (portfolio (performance y)))) ->
            addedHoldings (compareModelHoldings t (Some y) acct day) = []
            /\ removedHoldings (compareModelHoldings t (Some y) acct day) = []).
  { intros t y H. unfold compareModelHoldings. cbn [addedHoldings removedHoldings].
    rewrite !orElse_empty. split.
    - rewrite addedLoop_nothing; [reflexivity|]. intros s. apply H.
    - rewrite removedLoop_nothing; [reflexivity|]. intros s. apply H. }
  intros H. split; [apply (G _ _ H)|]. split; [apply (G _ _ H)|]. split.
  - intros t y tl pl Et Ey Wt Wy S. apply G. intros s.
    rewrite Et, Ey, !extractSymbols_holdingsText by assumption. apply S.
  - split; reflexivity.
Qed.

Lemma same_symbols_no_change_witness :
  (forall s,
     In s (extractSecuritySymbols
             (portfolio (performance (Sample.modelOf "Income" ["PXT.TO (17%)"; "KNT.TO (42%)"])))) <->
     In s (extractSecuritySymbols
             (portfolio (performance (Sample.modelOf "Income" ["PXT.TO (18%)"; "KNT.TO (41%)"])))))
  /\ addedHoldings
       (compareModelHoldings (Sample.modelOf "Income" ["PXT.TO (17%)"; "KNT.TO (42%)"])
          (Some (Sample.modelOf "Income" ["PXT.TO (18%)"; "KNT.TO (41%)"]))
          "Glen RRSP $USD" "2024-12-16") = [].
Proof.
  assert (H : forall s,
     In s (extractSecuritySymbols
             (portfolio (performance (Sample.modelOf "Income" ["PXT.TO (17%)"; "KNT.TO (42%)"])))) <->
     In s (extractSecuritySymbols
             (portfolio (performance (Sample.modelOf "Income" ["PXT.TO (18%)"; "KNT.TO (41%)"]))))).
  { intros s. vm_compute. split; intros X; exact X. }
  split; [exact H|].
  exact (proj1 (same_symbols_no_change _ _ "Glen RRSP $USD" "2024-12-16" H)).
Defined.

(** C2.  The report looks a symbol up with [startsWith].  For two
    holdings texts of one token per line in which no symbol is a proper
    prefix of another symbol of the same day, every symbol that only the
    previous day has is reported in [removedHoldings] with the previous
    day's holding of that symbol, every symbol that only today has is
    reported in [addedHoldings] with today's holding, and nothing else is
    reported; so it is for [PXT.TO], [AAPL] against [PXT.TO], [TSLA].
    Without that condition the lookup can return another holding: when
    the previous day held [TSLA (15%)] and [T (10%)] and today holds only
    [TSLA (20%)], the symbol [T] has vanished, and what is reported as
    removed is [TSLA (15%)], the first holding that begins with [T]. *)
Theorem holdings_reported_by_prefix_lookup
    (t y : ModelData) (todayLines previousLines : list (string * string))
    (acct day : string) :
  portfolio (performance t) = holdingsText todayLines ->
  portfolio (performance y) = holdingsText previousLines ->
  Forall wellFormedEntry todayLines -> Forall wellFormedEntry previousLines ->
  prefixFree todayLines -> prefixFree previousLines ->
  (let c := compareModelHoldings t (Some y) acct day in
   (forall e, In e previousLines -> ~ In (fst e) (map fst todayLines) ->
      exists e0, In e0 previousLines /\ fst e0 = fst e
                 /\ In (tokenOf e0) (removedHoldings c))
   /\ (forall h, In h (removedHoldings c) ->
        exists e0, In e0 previousLines /\ h = tokenOf e0
                   /\ ~ In (fst e0) (map fst todayLines))
   /\ (forall e, In e todayLines -> ~ In (fst e) (map fst previousLines) ->
        exists e0, In e0 todayLines /\ fst e0 = fst e
                   /\ In (tokenOf e0) (addedHoldings c))
   /\ (forall h, In h (addedHoldings c) ->
        exists e0, In e0 todayLines /\ h = tokenOf e0
                   /\ ~ In (fst e0) (map fst previousLines)))
  /\ (let previous := Sample.modelOf "Income" ["PXT.TO (18%)"; "AAPL (25%)"] in
      let today := Sample.modelOf "Income" ["PXT.TO (17%)"; "TSLA (15%)"] in
      let change := compareModelHoldings today (Some previous) acct day in
      addedHoldings change = ["TSLA (15%)"] /\ removedHoldings change = ["AAPL (25%)"])
  /\ (let previous := Sample.modelOf "Growth" ["TSLA (15%)"; "T (10%)"] in
      let today := Sample.modelOf "Growth" ["TSLA (20%)"] in
      let change := compareModelHoldings today (Some previous) acct day in
      extractSecuritySymbols (portfolio (performance previous)) = ["TSLA"; "T"]
      /\ extractSecuritySymbols (portfolio (performance today)) = ["TSLA"]
      /\ extractHoldingsFromPortfolio (portfolio (performance previous))
         = ["TSLA (15%)"; "T (10%)"]
      /\ removedHoldings change = ["TSLA (15%)"]
      /\ addedHoldings change = []).
Proof.
  intros Et Ey Wt Wy Pt Py. split.
  - exact (LookupFacts.prefix_free_comparison t y todayLines previousLines acct day
             Et Ey Wt Wy Pt Py).
  - split; [split; reflexivity|]. repeat split; reflexivity.
Qed.

Lemma holdings_reported_by_prefix_lookup_witness :
  let todayLines := [("PXT.TO", "17"); ("TSLA", "15")] in
  let previousLines := [("PXT.TO", "18"); ("AAPL", "25")] in
  let t := Sample.modelOf "Income" ["PXT.TO (17%)"; "TSLA (15%)"] in
  let y := Sample.modelOf "Income" ["PXT.TO (18%)"; "AAPL (25%)"] in
  portfolio (performance t) = holdingsText todayLines
  /\ portfolio (performance y) = holdingsText previousLines
  /\ Forall wellFormedEntry todayLines /\ Forall wellFormedEntry previousLines
  /\ prefixFree todayLines /\ prefixFree previousLines
  /\ (forall h,
        In h (removedHoldings (compareModelHoldings t (Some y) "Glen RRSP" "2024-12-16")) ->
        exists e0, In e0 previousLines /\ h = tokenOf e0
                   /\ ~ In (fst e0) (map fst todayLines)).
Proof.
  intros todayLines previousLines t y.
  assert (Et : portfolio (performance t) = holdingsText todayLines) by reflexivity.
  assert (Ey : portfolio (performance y) = holdingsText previousLines) by reflexivity.
  assert (Wt : Forall wellFormedEntry todayLines).
  { repeat constructor; discriminate. }
  assert (Wy : Forall wellFormedEntry previousLines).
  { repeat constructor; discriminate. }
  assert (Pt : prefixFree todayLines).
  { intros e e' [<-|[<-|[]]] [<-|[<-|[]]] H; solve [reflexivity | discriminate H]. }
  assert (Py : prefixFree previousLines).
  { intros e e' [<-|[<-|[]]] [<-|[<-|[]]] H; solve [reflexivity | discriminate H]. }
  split; [exact Et|]. split; [exact Ey|]. split; [exact Wt|]. split; [exact Wy|].
  split; [exact Pt|]. split; [exact Py|].
  exact (proj1 (proj2 (proj1
           (holdings_reported_by_prefix_lookup t y todayLines previousLines
              "Glen RRSP" "2024-12-16" Et Ey Wt Wy Pt Py)))).
Defined.

(** C7.  A token [SYMBOL (NN%)], its symbol made of capital letters and
    dots and its percentage of digits, is parsed by either holdings
    extractor into the one-element list holding that very string, which
    reports print as it stands; so [NVDA (22%)] gives [["NVDA (22%)"]]. *)
Theorem holdings_token_round_trip (sym pct : string) :
  sym <> EmptyString -> JS.allChars symbolChar sym = true ->
  pct <> EmptyString -> JS.allChars JS.isDigit pct = true ->
  extractHoldingsFromPortfolio (token sym pct) = [token sym pct]
  /\ CombinedAccountService.extractHoldingsWithPercentages (token sym pct)
     = [token sym pct]
  /\ extractHoldingsFromPortfolio "NVDA (22%)" = ["NVDA (22%)"]
  /\ CombinedAccountService.extractHoldingsWithPercentages "NVDA (22%)"
     = ["NVDA (22%)"].
Proof.
  intros Hs As Hp Ap. repeat split; try reflexivity.
  - unfold extractHoldingsFromPortfolio.
    rewrite (token_truthy sym pct Hs). cbn [negb].
    unfold holdingRe.
    rewrite (token_scan symbolChar symbolChar_not_space sym pct Hs As Hp Ap).
    cbn [map]. now rewrite (token_trim symbolChar symbolChar_not_space sym pct Hs As).
  - unfold CombinedAccountService.extractHoldingsWithPercentages.
    rewrite (token_truthy sym pct Hs). cbn [negb].
    unfold CombinedAccountService.holdingReBackslash.
    pose proof (symbolChar_backslash sym As) as As'.
    rewrite (token_scan _ symbolCharBackslash_not_space sym pct Hs As' Hp Ap).
    cbn [map].
    now rewrite (token_trim _ symbolCharBackslash_not_space sym pct Hs As').
Qed.

Lemma holdings_token_round_trip_witness :
  "PXT.TO" <> EmptyString /\ JS.allChars symbolChar "PXT.TO" = true
  /\ "18" <> EmptyString /\ JS.allChars JS.isDigit "18" = true
  /\ extractHoldingsFromPortfolio (token "PXT.TO" "18") = [token "PXT.TO" "18"].
Proof.
  assert (H1 : "PXT.TO" <> EmptyString) by discriminate.
  assert (H2 : JS.allChars symbolChar "PXT.TO" = true) by reflexivity.
  assert (H3 : "18" <> EmptyString) by discriminate.
  assert (H4 : JS.allChars JS.isDigit "18" = true) by reflexivity.
  split; [exact H1|]. split; [exact H2|]. split; [exact H3|]. split; [exact H4|].
  exact (proj1 (holdings_token_round_trip "PXT.TO" "18" H1 H2 H3 H4)).
Defined.

(** ** Change detector: the alert *)

Module DetectFacts.

Lemma In_insertBy {A : Type} (cmp : A -> A -> Z) (x y : A) (l : list A) :
  In y (JS.insertBy cmp x l) <-> y = x \/ In y l.
Proof.
  induction l as [|z l IH]; simpl.
  - intuition congruence.
  - destruct (cmp x z <=? 0)%Z; simpl; [intuition congruence|].
    rewrite IH. intuition congruence.
Qed.

Lemma In_sortBy {A : Type} (cmp : A -> A -> Z) (y : A) (l : list A) :
  In y (JS.sortBy cmp l) <-> In y l.
Proof.
  induction l as [|x l IH]; simpl; [tauto|].
  unfold JS.sortBy in *. simpl. rewrite In_insertBy, IH. intuition congruence.
Qed.

Section Invariant.

Variables (today : string) (todayPortfolios previousPortfolios : list AccountPortfolio.t).

(** What every record pushed onto [changes] satisfies. *)
Let good (c : PortfolioChange) : Prop :=
  nonEmptyChange c \/ removedModelRecord today todayPortfolios previousPortfolios c.

Let allGood (st : list PortfolioChange * list string) : Prop :=
  forall c, In c (fst st) -> good c.

Lemma todayModelStep_good todayAccount previousAccount st todayModel :
  allGood st ->
  allGood (todayModelStep today todayAccount previousAccount st todayModel).
Proof.
  intros G. destruct st as [changes affected]. unfold todayModelStep.
  set (mc := compareModelHoldings _ _ _ _).
  destruct ((0 <? List.length (addedHoldings mc))%nat
            || (0 <? List.length (removedHoldings mc))%nat) eqn:E; [|exact G].
  intros c Hc. cbn [fst] in Hc. apply in_app_or in Hc as [Hc | [<- | []]].
  - now apply G.
  - left. unfold nonEmptyChange.
    apply orb_prop in E as [E | E]; apply Nat.ltb_lt in E;
      [left | right]; intros Z; rewrite Z in E; simpl in E; lia.
Qed.

Lemma previousModels_good todayAccount previousAccount :
  In todayAccount todayPortfolios ->
  findAccount previousPortfolios (AccountPortfolio.accountName todayAccount)
    = Some previousAccount ->
  forall ms st,
    (forall m, In m ms -> In m (AccountPortfolio.models previousAccount)) ->
    allGood st ->
    allGood (fold_left (previousModelStep today todayAccount) ms st).
Proof.
  intros Hta Hpa. induction ms as [|m ms IH]; intros st Hms G; [exact G|].
  simpl. apply IH; [intros x Hx; apply Hms; now right|].
  destruct st as [changes affected]. unfold previousModelStep.
  destruct (findModel (AccountPortfolio.models todayAccount) (name m)) eqn:F;
    [exact G|].
  intros c Hc. cbn [fst] in Hc. apply in_app_or in Hc as [Hc | [<- | []]].
  - now apply G.
  - right. exists todayAccount, previousAccount, m.
    repeat split; try assumption. apply Hms. now left.
Qed.

Lemma todayModels_good todayAccount previousAccount :
  forall ms st, allGood st ->
  allGood (fold_left (todayModelStep today todayAccount previousAccount) ms st).
Proof.
  induction ms as [|m ms IH]; intros st G; [exact G|].
  simpl. apply IH. now apply todayModelStep_good.
Qed.

Lemma accountStep_good st todayAccount :
  In todayAccount todayPortfolios -> allGood st ->
  allGood (accountStep today previousPortfolios st todayAccount).
Proof.
  intros Hta G. unfold accountStep.
  destruct (findAccount previousPortfolios
              (AccountPortfolio.accountName todayAccount)) as [pa|] eqn:F.
  - apply (previousModels_good todayAccount pa Hta F); [auto|].
    now apply todayModels_good.
  - now apply todayModels_good.
Qed.

Lemma accounts_good :
  forall accts st,
    (forall a, In a accts -> In a todayPortfolios) -> allGood st ->
    allGood (fold_left (accountStep today previousPortfolios) accts st).
Proof.
  induction accts as [|a accts IH]; intros st Hin G; [exact G|].
  simpl. apply IH; [intros x Hx; apply Hin; now right|].
  apply accountStep_good; [apply Hin; now left | exact G].
Qed.

End Invariant.

End DetectFacts.

Import DetectFacts.


(** C6, as the code has it.  A record of the changes list comes from one
    of two places.  One pushed by the per-model comparison has a non-empty
    [addedHoldings] or a non-empty [removedHoldings].  One pushed for a
    model of the previous trading day that today's account lacks has
    empty [addedHoldings] and, as [removedHoldings], all the holdings
    parsed from the model's previous text. *)
Theorem changes_nonempty_or_removed_model
    (host : DateModel.Host)
    (getAccountPortfolios : string -> outcome (list AccountPortfolio.t))
    (now : string) (localeCompare : string -> string -> Z)
    (fuel : nat) (todayDate : option string) (log log' : list string)
    (alert : ChangeAlert.t) :
  detectChanges host getAccountPortfolios now localeCompare fuel todayDate log
    = (Returned alert, log') ->
  forall c, In c (ChangeAlert.changes alert) ->
    nonEmptyChange c
    \/ exists previousTradingDay todayPortfolios previousPortfolios,
         ChangeAlert.comparisonDate alert = Some previousTradingDay
         /\ getAccountPortfolios (resolveToday now todayDate) = Returned todayPortfolios
         /\ getAccountPortfolios previousTradingDay = Returned previousPortfolios
         /\ removedModelRecord (resolveToday now todayDate)
              todayPortfolios previousPortfolios c.
Proof.
  unfold detectChanges. set (today := resolveToday now todayDate).
  destruct (isTradingDay host today); cbn [negb].
  - unfold bind, lift.
    destruct (getPreviousTradingDay host fuel today) as [prev| |]; try discriminate.
    unfold fetchBoth.
    destruct (getAccountPortfolios today) as [tp| |] eqn:Et;
      destruct (getAccountPortfolios prev) as [pp| |] eqn:Ep; try discriminate.
    pose proof (accounts_good today tp pp tp ([], []) (fun a H => H)) as G.
    destruct (fold_left (accountStep today pp) tp ([], [])) as [changes affected].
    unfold ret. intros H. injection H as <- _. cbn [ChangeAlert.changes].
    intros c Hc. apply In_sortBy in Hc.
    destruct (G (fun c H => match H with end) c Hc) as [N | R]; [now left|].
    right. exists prev, tp, pp. now repeat split.
  - unfold bind, lift. destruct (getNoChangeReason host fuel today); try discriminate.
    unfold ret. intros H. injection H as <- _. intros c [].
Qed.

Lemma changes_nonempty_or_removed_model_witness :
  exists alert log',
    detectChanges Sample.utc Sample.twoDays "2024-12-16" Sample.collate 5 None [] = (Returned alert, log')
    /\ forall c, In c (ChangeAlert.changes alert) ->
         nonEmptyChange c
         \/ exists previousTradingDay todayPortfolios previousPortfolios,
              ChangeAlert.comparisonDate alert = Some previousTradingDay
              /\ Sample.twoDays (resolveToday "2024-12-16" None) = Returned todayPortfolios
              /\ Sample.twoDays previousTradingDay = Returned previousPortfolios
              /\ removedModelRecord (resolveToday "2024-12-16" None)
                   todayPortfolios previousPortfolios c.
Proof.
  eexists. eexists. split; [vm_compute; reflexivity|].
  eapply (changes_nonempty_or_removed_model Sample.utc Sample.twoDays "2024-12-16" Sample.collate
            5 None []).
  vm_compute. reflexivity.
Defined.

(** C6, as stated, fails: the model Cash Reserve, held on the previous
    trading day with an empty holdings text and gone today, is reported by
    a record whose two lists are empty. *)
Lemma changes_nonempty_counterexample :
  exists alert log' c,
    detectChanges Sample.utc Sample.twoDays "2024-12-16" Sample.collate 5 None []
    = (Returned alert, log')
    /\ In c (ChangeAlert.changes alert)
    /\ modelName c = "Cash Reserve"
    /\ addedHoldings c = [] /\ removedHoldings c = [].
Proof.
  eexists. eexists. eexists. split; [vm_compute; reflexivity|].
  split; [left; reflexivity|]. repeat split.
Qed.

(** ** Calendar arithmetic *)

Module CalendarFacts.

Import DateModel.

Local Open Scope Z_scope.

Lemma InLeapYear_cases (y : Z) : InLeapYear y = 0 \/ InLeapYear y = 1.
Proof. unfold InLeapYear. destruct (_ && _); auto. Qed.

Lemma DayFromYear_succ (y : Z) :
  DayFromYear (y + 1) = DayFromYear y + 365 + InLeapYear y.
Proof.
  unfold DayFromYear, InLeapYear.
  destruct (Z.eqb_spec (y mod 4) 0), (Z.eqb_spec (y mod 100) 0),
           (Z.eqb_spec (y mod 400) 0); cbn [negb andb orb];
    Z.div_mod_to_equations; lia.
Qed.

(** [YearFromDay d] is the year whose days include [d]. *)
Lemma YearFromDay_spec (d : Z) :
  DayFromYear (YearFromDay d) <= d < DayFromYear (YearFromDay d + 1).
Proof.
  unfold YearFromDay.
  destruct (Z.ltb_spec d (DayFromYear (1970 + 400 * d / 146097))).
  - unfold DayFromYear in *. Z.div_mod_to_equations. lia.
  - destruct (Z.leb_spec (DayFromYear (1970 + 400 * d / 146097 + 1)) d).
    + unfold DayFromYear in *. Z.div_mod_to_equations. lia.
    + lia.
Qed.

Lemma DayFromYear_mono (y1 y2 : Z) : y1 <= y2 -> DayFromYear y1 <= DayFromYear y2.
Proof. unfold DayFromYear. intros H. Z.div_mod_to_equations. lia. Qed.

Lemma YearFromDay_bounds (d lo hi : Z) :
  DayFromYear lo <= d < DayFromYear hi -> lo <= YearFromDay d < hi.
Proof.
  intros [H1 H2]. pose proof (YearFromDay_spec d) as [S1 S2]. split.
  - destruct (Z_lt_le_dec (YearFromDay d) lo) as [L|L]; [|exact L].
    pose proof (DayFromYear_mono (YearFromDay d + 1) lo ltac:(lia)). lia.
  - destruct (Z_lt_le_dec (YearFromDay d) hi) as [L|L]; [exact L|].
    pose proof (DayFromYear_mono hi (YearFromDay d) L). lia.
Qed.

Lemma DayWithinYear_range (d : Z) :
  0 <= DayWithinYear d < 365 + InLeapYear (YearFromDay d).
Proof.
  unfold DayWithinYear. pose proof (YearFromDay_spec d) as [S1 S2].
  rewrite DayFromYear_succ in S2. lia.
Qed.

Lemma MonthFromDay_range (d : Z) : 0 <= MonthFromDay d <= 11.
Proof.
  unfold MonthFromDay.
  repeat match goal with |- context [if ?b then _ else _] => destruct b end; lia.
Qed.

Lemma DateFromDay_range (d : Z) : 1 <= DateFromDay d <= 31.
Proof.
  pose proof (DayWithinYear_range d) as R.
  pose proof (InLeapYear_cases (YearFromDay d)) as L.
  unfold DateFromDay, MonthFromDay, monthStart.
  repeat match goal with
         | |- context [if ?a <? ?b then _ else _] => destruct (Z.ltb_spec a b)
         end;
    cbn [Z.leb Z.eqb Z.compare Pos.compare Pos.compare_cont Pos.eqb]; lia.
Qed.

(** Year, month and day of the month give the day back. *)
Lemma MakeDay_fields (d : Z) :
  MakeDay (YearFromDay d) (MonthFromDay d) (DateFromDay d) = d.
Proof. unfold MakeDay, DateFromDay, DayWithinYear. lia. Qed.

Lemma MakeDay_step (d n : Z) :
  MakeDay (YearFromDay d) (MonthFromDay d) (DateFromDay d + n) = d + n.
Proof. unfold MakeDay, DateFromDay, DayWithinYear. lia. Qed.

Lemma Day_whole (d : Z) : Day (d * msPerDay) = d.
Proof. unfold Day, msPerDay. now rewrite Z.div_mul. Qed.

Lemma Day_step (t n : Z) : Day (t + n * msPerDay) = Day t + n.
Proof. unfold Day, msPerDay. now rewrite Z.div_add. Qed.

(** At midnight UTC of day [d], a host whose offset is less than a day
    is in the local day [d + localShift offset]. *)
Lemma Day_local (d offset : Z) :
  - msPerDay < offset < msPerDay ->
  Day (d * msPerDay + offset) = d + localShift offset
  /\ (0 <= offset -> localShift offset = 0)
  /\ (offset < 0 -> localShift offset = -1).
Proof.
  unfold Day, localShift, msPerDay. intros H.
  rewrite Z.add_comm, Z.div_add by lia.
  split; [lia|]. split; intros; Z.div_mod_to_equations; lia.
Qed.

Lemma fixedHost_steady (offset : Z) (other : string -> option Z) (lo hi : Z) :
  steady (fixedHost offset other) offset lo hi.
Proof. intros t b _. reflexivity. Qed.

Lemma fixedHost_steadyAround (offset : Z) (other : string -> option Z) (d n : Z) :
  steadyAround (fixedHost offset other) offset d n.
Proof. apply fixedHost_steady. Qed.

Lemma steady_sub (host : Host) (offset lo hi lo' hi' : Z) :
  steady host offset lo hi -> lo <= lo' -> hi' <= hi -> steady host offset lo' hi'.
Proof. intros S L H t b Ht. apply S. lia. Qed.

Lemma steadyAround_sub (host : Host) (offset d n d' n' : Z) :
  steadyAround host offset d n -> Z.abs (d' - d) + n' <= n ->
  steadyAround host offset d' n'.
Proof.
  unfold steadyAround, msPerDay. intros S H.
  apply (steady_sub _ _ _ _ _ _ S); lia.
Qed.

(** While the host keeps its offset, [setDate(getDate() + step)] moves
    the time value by [step] days. *)
Lemma setDate_step (host : Host) (offset lo hi t step : Z) :
  steady host offset lo hi -> - msPerDay < offset < msPerDay -> -1 <= step <= 1 ->
  lo + 2 * msPerDay <= t <= hi - 2 * msPerDay ->
  setDate host (Some t) (option_map (fun n => n + step) (getDate host (Some t)))
  = TimeClip (t + step * msPerDay).
Proof.
  intros S Ho Hs Ht. unfold setDate, getDate, option_map, LocalTime, UTC.
  rewrite (S t true) by (unfold msPerDay in *; lia).
  rewrite MakeDay_step.
  assert (E : MakeDate (Day (t + offset) + step) (TimeWithinDay (t + offset))
              = t + offset + step * msPerDay).
  { unfold MakeDate, Day, TimeWithinDay.
    pose proof (Z.div_mod (t + offset) msPerDay ltac:(discriminate)). lia. }
  rewrite E. rewrite (S _ false) by (unfold msPerDay in *; lia).
  f_equal. lia.
Qed.

(** *** Date-only strings *)

Lemma digits_checked : forallb digitChecked (daysFrom 0 10) = true.
Proof. vm_compute. reflexivity. Qed.

Lemma digitChar_facts (n : Z) :
  0 <= n <= 9 ->
  digitVal (digitChar n) = Some n
  /\ Ascii.eqb (digitChar n) "+" = false /\ Ascii.eqb (digitChar n) "-" = false.
Proof.
  intros H. pose proof digits_checked as F. rewrite forallb_forall in F.
  assert (I : In n (daysFrom 0 10)).
  { unfold daysFrom. apply in_map_iff. exists (Z.to_nat n).
    split; [lia | apply in_seq; lia]. }
  specialize (F n I). unfold digitChecked in F.
  destruct (digitVal (digitChar n)) as [m|]; [|discriminate].
  apply andb_prop in F as [F Fm]. apply andb_prop in F as [Fe Fp].
  apply Z.eqb_eq in Fe. subst m.
  repeat split; [now destruct (Ascii.eqb (digitChar n) "+")
                | now destruct (Ascii.eqb (digitChar n) "-")].
Qed.

Lemma digitVal_digitChar (n : Z) : 0 <= n <= 9 -> digitVal (digitChar n) = Some n.
Proof. intros H. now apply digitChar_facts. Qed.

Lemma digitChar_not_plus (n : Z) : 0 <= n <= 9 -> Ascii.eqb (digitChar n) "+" = false.
Proof. intros H. now apply digitChar_facts. Qed.

Lemma digitChar_not_minus (n : Z) : 0 <= n <= 9 -> Ascii.eqb (digitChar n) "-" = false.
Proof. intros H. now apply digitChar_facts. Qed.

Lemma digit_of (n k : Z) : 0 <= n / k mod 10 <= 9.
Proof. pose proof (Z.mod_pos_bound (n / k) 10). lia. Qed.

Lemma digit_of_units (n : Z) : 0 <= n mod 10 <= 9.
Proof. pose proof (Z.mod_pos_bound n 10). lia. Qed.

Lemma digitsVal_pad2 (n : Z) : 0 <= n <= 99 -> digitsVal 0 (pad2 n) = Some n.
Proof.
  intros H. unfold pad2. cbn [digitsVal].
  rewrite (digitVal_digitChar _ (digit_of n 10)).
  rewrite (digitVal_digitChar _ (digit_of_units n)).
  f_equal. Z.div_mod_to_equations. lia.
Qed.

Lemma digitsVal_pad4 (n : Z) : 0 <= n <= 9999 -> digitsVal 0 (pad4 n) = Some n.
Proof.
  intros H. unfold pad4, pad2. cbn [digitsVal].
  rewrite (digitVal_digitChar _ (digit_of n 1000)).
  rewrite (digitVal_digitChar _ (digit_of n 100)).
  rewrite (digitVal_digitChar _ (digit_of n 10)).
  rewrite (digitVal_digitChar _ (digit_of_units n)).
  f_equal. Z.div_mod_to_equations. lia.
Qed.

(** The date-only string of a year 0..9999, month and day parses back to
    the day they make. *)
Lemma parse_fields (host : Host) (y mm dd : Z) :
  0 <= y <= 9999 -> 1 <= mm <= 12 -> 1 <= dd <= 31 ->
  parse host (pad4 y ++ "-" ++ pad2 mm ++ "-" ++ pad2 dd)%string
  = TimeClip (MakeDate (MakeDay y (mm - 1) dd) 0).
Proof.
  intros Hy Hm Hd.
  pose proof (digitsVal_pad4 y Hy) as Py.
  pose proof (digitsVal_pad2 mm ltac:(lia)) as Pm.
  pose proof (digitsVal_pad2 dd ltac:(lia)) as Pd.
  unfold pad4, pad2 in *. cbn [append]. unfold parse, parseDateOnly.
  rewrite (digitChar_not_plus _ (digit_of y 1000)).
  rewrite (digitChar_not_minus _ (digit_of y 1000)).
  cbn [orb substring]. rewrite Py.
  cbn [length Nat.eqb]. unfold parseMonthDay. cbn [Ascii.eqb Bool.eqb andb].
  rewrite Pm, Pd.
  destruct (Z.leb_spec 1 mm), (Z.leb_spec mm 12), (Z.leb_spec 1 dd),
           (Z.leb_spec dd 31); try lia.
  reflexivity.
Qed.

Lemma isoOfDay_fields (d : Z) :
  0 <= YearFromDay d <= 9999 ->
  isoOfDay d
  = (pad4 (YearFromDay d) ++ "-" ++ pad2 (MonthFromDay d + 1) ++ "-"
     ++ pad2 (DateFromDay d))%string.
Proof.
  intros [H1 H2]. unfold isoOfDay.
  destruct (Z.leb_spec 0 (YearFromDay d)), (Z.leb_spec (YearFromDay d) 9999);
    try lia.
  reflexivity.
Qed.

Lemma fourDigitYear_small (d : Z) : fourDigitYear d -> Z.abs d <= maxDay.
Proof.
  unfold fourDigitYear, maxDay.
  replace (DayFromYear 0) with (-719528) by reflexivity.
  replace (DayFromYear 10000) with 2932897 by reflexivity.
  lia.
Qed.

(** A time value within the years 0..9999 is a valid one. *)
Lemma TimeClip_fourDigit (t : Z) : fourDigitYear (Day t) -> TimeClip t = Some t.
Proof.
  unfold fourDigitYear, TimeClip, maxTime.
  replace (DayFromYear 0) with (-719528) by reflexivity.
  replace (DayFromYear 10000) with 2932897 by reflexivity.
  unfold Day, maxDay, msPerDay. intros H.
  destruct (Z.leb_spec (Z.abs t) (100000000 * 86400000)); [reflexivity|].
  exfalso. Z.div_mod_to_equations. lia.
Qed.

(** [new Date(s)] undoes [toISOString().split('T')[0]]: it gives midnight
    UTC of the day, on every host. *)
Lemma parse_isoOfDay (host : Host) (d : Z) :
  fourDigitYear d -> parse host (isoOfDay d) = Some (d * msPerDay).
Proof.
  intros H. pose proof (YearFromDay_bounds d 0 10000 H) as Y.
  rewrite isoOfDay_fields by lia.
  pose proof (MonthFromDay_range d). pose proof (DateFromDay_range d).
  rewrite (parse_fields host) by lia.
  replace (MonthFromDay d + 1 - 1) with (MonthFromDay d) by lia.
  rewrite MakeDay_fields. unfold MakeDate. rewrite Z.add_0_r.
  apply TimeClip_fourDigit. now rewrite Day_whole.
Qed.

Lemma isoOfDay_inj (d1 d2 : Z) :
  fourDigitYear d1 -> fourDigitYear d2 -> isoOfDay d1 = isoOfDay d2 -> d1 = d2.
Proof.
  intros H1 H2 E.
  apply (parse_isoOfDay (fixedHost 0 (fun _ => None))) in H1, H2.
  rewrite E in H1. rewrite H1 in H2. injection H2 as H2.
  unfold msPerDay in H2. lia.
Qed.

End CalendarFacts.

(** ** Trading calendar *)

Module TradingFacts.

Import DateModel CalendarFacts.

Local Open Scope Z_scope.

Lemma holidays_as_days : map isoOfDay holidayDays = MARKET_HOLIDAYS.
Proof. vm_compute. reflexivity. Qed.

Lemma holidayDays_fourDigit : Forall fourDigitYear holidayDays.
Proof.
  unfold fourDigitYear.
  replace (DayFromYear 0) with (-719528) by reflexivity.
  replace (DayFromYear 10000) with 2932897 by reflexivity.
  unfold holidayDays. repeat constructor; lia.
Qed.

Lemma includes_iso (d : Z) (l : list Z) :
  fourDigitYear d -> Forall fourDigitYear l ->
  JS.arrIncludes (map isoOfDay l) (isoOfDay d) = existsb (Z.eqb d) l.
Proof.
  intros Hd Hl. unfold JS.arrIncludes.
  induction Hl as [|h l Hh Hl IH]; simpl; [reflexivity|].
  rewrite IH. f_equal.
  destruct (Z.eqb_spec d h) as [->|N].
  - apply String.eqb_refl.
  - apply String.eqb_neq. intros E. apply N. now apply isoOfDay_inj.
Qed.

Lemma localShift_cases (offset : Z) :
  - msPerDay < offset < msPerDay -> localShift offset = -1 \/ localShift offset = 0.
Proof.
  intros H. destruct (Day_local 0 offset H) as (_ & P & N).
  destruct (Z_lt_le_dec offset 0); [left; now apply N | right; now apply P].
Qed.

(** The weekday that [getDay] reads from the date-only string of day
    [d] is that of the local day at midnight UTC. *)
Lemma getDay_iso (host : Host) (offset lo hi d : Z) :
  steady host offset lo hi -> - msPerDay < offset < msPerDay -> fourDigitYear d ->
  lo <= d * msPerDay <= hi ->
  getDay host (parse host (isoOfDay d)) = Some (WeekDay (d + localShift offset)).
Proof.
  intros F S H W. rewrite (parse_isoOfDay host d H).
  unfold getDay, option_map, LocalTime. rewrite (F _ true W).
  now destruct (Day_local d offset S) as (-> & _).
Qed.

(** On the date-only string of a day, [isTradingDay] is the test on the
    day number. *)
Lemma isTradingDay_iso (host : Host) (offset lo hi d : Z) :
  steady host offset lo hi -> - msPerDay < offset < msPerDay -> fourDigitYear d ->
  lo <= d * msPerDay <= hi ->
  isTradingDay host (isoOfDay d) = isTradingDayNumber (localShift offset) d.
Proof.
  intros F S H W. unfold isTradingDay, isTradingDayNumber.
  rewrite (getDay_iso host offset lo hi d F S H W). cbn [isWeekend].
  rewrite <- holidays_as_days, (includes_iso d _ H holidayDays_fourDigit).
  unfold isSunday, isSaturday.
  destruct ((WeekDay (d + localShift offset) =? 0)
            || (WeekDay (d + localShift offset) =? 6)); cbn [negb andb]; [reflexivity|].
  now destruct (existsb (Z.eqb d) holidayDays).
Qed.

Lemma Day_bounds (t : Z) : t - msPerDay < Day t * msPerDay <= t.
Proof. unfold Day, msPerDay. Z.div_mod_to_equations. lia. Qed.

(** The loop on strings follows the search on day numbers, while the
    host keeps its offset. *)
Lemma tradingDayLoop_iso (host : Host) (offset lo hi step : Z) :
  steady host offset lo hi -> - msPerDay < offset < msPerDay ->
  step = -1 \/ step = 1 ->
  forall fuel t,
    lo + (Z.of_nat fuel + 2) * msPerDay <= t <= hi - (Z.of_nat fuel + 2) * msPerDay ->
    (forall k, 1 <= k <= Z.of_nat fuel -> fourDigitYear (Day t + step * k)) ->
    tradingDayLoop host step fuel (Some t)
    = match searchFrom (localShift offset) step fuel (Day t) with
      | Some r => Returned (isoOfDay r)
      | None => OutOfFuel
      end.
Proof.
  intros F S Hs.
  induction fuel as [|fuel IH]; intros t W H; [reflexivity|].
  assert (H1 : fourDigitYear (Day t + step)).
  { replace (Day t + step) with (Day t + step * 1) by lia. apply H. lia. }
  rewrite Nat2Z.inj_succ in W.
  cbn [tradingDayLoop searchFrom].
  rewrite (setDate_step host offset lo hi t step F S)
    by (unfold msPerDay in *; lia).
  rewrite TimeClip_fourDigit by (now rewrite Day_step).
  cbn [toISODate option_map]. rewrite Day_step.
  pose proof (Day_bounds (t + step * msPerDay)) as B. rewrite Day_step in B.
  rewrite (isTradingDay_iso host offset lo hi _ F S H1)
    by (unfold msPerDay in *; lia).
  destruct (isTradingDayNumber (localShift offset) (Day t + step)); [reflexivity|].
  rewrite IH; [now rewrite Day_step | unfold msPerDay in *; lia |].
  intros k Hk. rewrite Day_step.
  replace (Day t + step + step * k) with (Day t + step * (k + 1)) by lia.
  apply H. lia.
Qed.

Lemma tradingDayLoop_more_fuel (host : Host) (step : Z) (r : string) :
  forall fuel fuel' t,
    tradingDayLoop host step fuel t = Returned r -> (fuel <= fuel')%nat ->
    tradingDayLoop host step fuel' t = Returned r.
Proof.
  induction fuel as [|fuel IH]; intros fuel' t H L; [discriminate|].
  destruct fuel' as [|fuel']; [lia|].
  cbn [tradingDayLoop] in *.
  destruct (toISODate _) as [str|]; [|discriminate].
  destruct (isTradingDay host str); [exact H|].
  apply (IH fuel' _ H). lia.
Qed.

(** What a successful search has found: the first trading day in the
    direction of [step]. *)
Lemma searchFrom_first (shift step : Z) :
  forall fuel d r,
    searchFrom shift step fuel d = Some r ->
    exists k, 1 <= k <= Z.of_nat fuel /\ r = d + step * k
              /\ isTradingDayNumber shift r = true
              /\ forall j, 1 <= j < k -> isTradingDayNumber shift (d + step * j) = false.
Proof.
  induction fuel as [|fuel IH]; intros d r H; [discriminate|].
  cbn [searchFrom] in H. destruct (isTradingDayNumber shift (d + step)) eqn:E.
  - injection H as <-. exists 1.
    split; [lia|]. split; [lia|]. split; [exact E|]. intros j Hj. lia.
  - destruct (IH _ _ H) as (k & Hk & -> & T & B).
    exists (k + 1).
    split; [lia|]. split; [lia|]. split; [exact T|]. intros j Hj. destruct (Z.eq_dec j 1) as [->|N].
    + now rewrite Z.mul_1_r.
    + replace (d + step * j) with (d + step + step * (j - 1)) by lia.
      apply B. lia.
Qed.

(** Away from the holiday table only weekends close the market. *)
Lemma no_holiday_outside (d : Z) :
  d < 19723 \/ 20447 < d -> existsb (Z.eqb d) holidayDays = false.
Proof.
  intros H. unfold holidayDays. cbn [existsb].
  repeat match goal with
         | |- context [Z.eqb d ?h] => destruct (Z.eqb_spec d h); [lia|]
         end.
  reflexivity.
Qed.

Lemma In_daysFrom (lo d : Z) (n : nat) :
  lo <= d < lo + Z.of_nat n -> In d (daysFrom lo n).
Proof.
  intros H. unfold daysFrom. apply in_map_iff.
  exists (Z.to_nat (d - lo)). split; [lia|]. apply in_seq. lia.
Qed.

Lemma search_near_holidays (shift step : Z) :
  shift = -1 \/ shift = 0 -> step = -1 \/ step = 1 ->
  forallb (fun d => match searchFrom shift step 5 d with
                    | Some _ => true
                    | None => false
                    end)
          (daysFrom 19700 770) = true.
Proof. intros [-> | ->] [-> | ->]; vm_compute; reflexivity. Qed.

(** Far from the holiday table one of the next three days is a day that
    the host takes for a weekday. *)
Lemma search_far_from_holidays (shift step d : Z) :
  shift = -1 \/ shift = 0 -> step = -1 \/ step = 1 -> d < 19700 \/ 20470 <= d ->
  searchFrom shift step 5 d <> None.
Proof.
  intros Hh Hs Hd.
  assert (W : forall k, 1 <= k <= 3 ->
                isTradingDayNumber shift (d + step * k)
                = negb (isSunday (d + step * k + shift)
                        || isSaturday (d + step * k + shift))).
  { intros k Hk. unfold isTradingDayNumber.
    rewrite no_holiday_outside by lia. apply andb_true_r. }
  cbn [searchFrom].
  pose proof (W 1 ltac:(lia)) as W1. pose proof (W 2 ltac:(lia)) as W2.
  pose proof (W 3 ltac:(lia)) as W3.
  replace (d + step * 1) with (d + step) in W1 by lia.
  replace (d + step * 2) with (d + step + step) in W2 by lia.
  replace (d + step * 3) with (d + step + step + step) in W3 by lia.
  rewrite W1, W2, W3. unfold isSunday, isSaturday, WeekDay.
  destruct Hh as [-> | ->], Hs as [-> | ->];
    repeat match goal with
           | |- context [Z.eqb ?a ?b] => destruct (Z.eqb_spec a b)
           end; cbn [negb orb]; try discriminate;
    exfalso; Z.div_mod_to_equations; lia.
Qed.

(** Five steps always reach a trading day. *)
Lemma searchFrom_total (shift step d : Z) :
  shift = -1 \/ shift = 0 -> step = -1 \/ step = 1 ->
  searchFrom shift step 5 d <> None.
Proof.
  intros Hh Hs.
  destruct (Z_lt_le_dec d 19700) as [L|L];
    [apply search_far_from_holidays; [exact Hh | exact Hs | now left]|].
  destruct (Z_lt_le_dec d 20470) as [U|U];
    [|apply search_far_from_holidays; [exact Hh | exact Hs | now right]].
  pose proof (search_near_holidays shift step Hh Hs) as F.
  rewrite forallb_forall in F.
  specialize (F d (In_daysFrom 19700 d 770 ltac:(lia))).
  now destruct (searchFrom shift step 5 d).
Qed.

Lemma year_limits :
  DayFromYear 0 = -719528 /\ DayFromYear 1 = -719162
  /\ DayFromYear 9999 = 2932532 /\ DayFromYear 10000 = 2932897.
Proof. repeat split; reflexivity. Qed.

Lemma fourDigitYear_near (d k : Z) :
  DayFromYear 1 <= d < DayFromYear 9999 -> -5 <= k <= 5 -> fourDigitYear (d + k).
Proof.
  unfold fourDigitYear. destruct year_limits as (-> & -> & -> & ->). lia.
Qed.

Lemma fourDigitYear_in (d : Z) :
  DayFromYear 1 <= d < DayFromYear 9999 -> fourDigitYear d.
Proof.
  intros H. replace d with (d + 0) by lia. apply fourDigitYear_near; [exact H | lia].
Qed.

(** While the host keeps its offset for a week either way, the search
    loop, from any instant [t] of a day, returns the string of the
    nearest day in its direction that [isTradingDay] accepts, at most
    five days away. *)
Lemma tradingDayLoop_nearest_from (host : Host) (offset step t : Z) (fuel : nat) :
  steady host offset (t - 7 * msPerDay) (t + 7 * msPerDay) ->
  - msPerDay < offset < msPerDay ->
  step = -1 \/ step = 1 ->
  DayFromYear 1 <= Day t < DayFromYear 9999 -> (5 <= fuel)%nat ->
  exists k,
    1 <= k <= 5
    /\ tradingDayLoop host step fuel (Some t) = Returned (isoOfDay (Day t + step * k))
    /\ isTradingDay host (isoOfDay (Day t + step * k)) = true
    /\ forall j, 1 <= j < k -> isTradingDay host (isoOfDay (Day t + step * j)) = false.
Proof.
  intros F S Hs Hd Hf.
  pose proof (localShift_cases offset S) as Hh.
  pose proof (Day_bounds t) as Bt.
  assert (N : forall k, -5 <= k <= 5 -> fourDigitYear (Day t + step * k)).
  { intros k Hk. apply fourDigitYear_near; [exact Hd|]. destruct Hs; subst; lia. }
  assert (W : forall k, -5 <= k <= 5 ->
                t - 7 * msPerDay <= (Day t + step * k) * msPerDay <= t + 7 * msPerDay).
  { intros k Hk. unfold msPerDay in *. destruct Hs; subst; lia. }
  destruct (searchFrom (localShift offset) step 5 (Day t)) as [r|] eqn:E;
    [|now apply searchFrom_total in E].
  destruct (searchFrom_first _ step 5 (Day t) r E) as (k & Hk & -> & T & B).
  exists k. split; [lia|]. split; [|split].
  - apply (tradingDayLoop_more_fuel host step _ 5 fuel); [|exact Hf].
    rewrite (tradingDayLoop_iso host offset _ _ step F S Hs), E; [reflexivity | |].
    + unfold msPerDay. cbn [Z.of_nat]. lia.
    + intros j Hj. apply N. lia.
  - rewrite (isTradingDay_iso host offset _ _ _ F S); [exact T | apply N; lia |].
    apply W. lia.
  - intros j Hj.
    rewrite (isTradingDay_iso host offset _ _ _ F S); [now apply B | apply N; lia |].
    apply W. lia.
Qed.

Lemma tradingDayLoop_nearest (host : Host) (offset step d : Z) (fuel : nat) :
  steadyAround host offset d 7 -> - msPerDay < offset < msPerDay ->
  step = -1 \/ step = 1 ->
  DayFromYear 1 <= d < DayFromYear 9999 -> (5 <= fuel)%nat ->
  exists k,
    1 <= k <= 5
    /\ tradingDayLoop host step fuel (parse host (isoOfDay d))
       = Returned (isoOfDay (d + step * k))
    /\ isTradingDay host (isoOfDay (d + step * k)) = true
    /\ forall j, 1 <= j < k -> isTradingDay host (isoOfDay (d + step * j)) = false.
Proof.
  intros F S Hs Hd Hf.
  rewrite (parse_isoOfDay host d (fourDigitYear_in d Hd)).
  pose proof (tradingDayLoop_nearest_from host offset step (d * msPerDay) fuel) as P.
  rewrite Day_whole in P. apply P; try assumption.
  unfold steadyAround in F. apply (steady_sub _ _ _ _ _ _ F); lia.
Qed.

(** The weekday test of a host at the offset it has at midnight UTC of
    the date: at or east of UTC it reads the weekday of the date, west of
    UTC that of the day before. *)
Lemma isTradingDay_at (host : Host) (offset d : Z) :
  steadyAround host offset d 0 -> - msPerDay < offset < msPerDay ->
  DayFromYear 1 <= d < DayFromYear 9999 ->
  let seen := if offset <? 0 then d - 1 else d in
  getDay host (parse host (isoOfDay d)) = Some (WeekDay seen)
  /\ (isTradingDay host (isoOfDay d) = false <->
      WeekDay seen = 6 \/ WeekDay seen = 0 \/ In (isoOfDay d) MARKET_HOLIDAYS).
Proof.
  intros F S Hd seen. pose proof (fourDigitYear_in d Hd) as H.
  assert (E : d + localShift offset = seen).
  { unfold seen. destruct (Day_local d offset S) as (_ & P & N).
    destruct (Z.ltb_spec offset 0); [rewrite N | rewrite P]; lia. }
  assert (G : getDay host (parse host (isoOfDay d)) = Some (WeekDay seen)).
  { rewrite <- E. apply (getDay_iso host offset _ _ d F S H). lia. }
  split; [exact G|].
  unfold isTradingDay. rewrite G. cbn [isWeekend].
  rewrite <- StringFacts.arrIncludes_In.
  destruct (Z.eqb_spec (WeekDay seen) 0) as [E0|N0];
    destruct (Z.eqb_spec (WeekDay seen) 6) as [E6|N6]; cbn [orb].
  - split; [|reflexivity]. intros _. right. now left.
  - split; [|reflexivity]. intros _. right. now left.
  - split; [|reflexivity]. intros _. now left.
  - destruct (JS.arrIncludes MARKET_HOLIDAYS (isoOfDay d)).
    + split; [|reflexivity]. intros _. now right; right.
    + split; [discriminate|]. intros [X | [X | X]]; congruence.
Qed.

Lemma steadyAround_0 (host : Host) (offset d n : Z) :
  steadyAround host offset d n -> 0 <= n -> steadyAround host offset d 0.
Proof. intros S H. apply (steadyAround_sub _ _ _ _ _ _ S). lia. Qed.

End TradingFacts.

Import DateModel CalendarFacts TradingFacts.

(** The two searches on a host whose offset does not change within a
    week of the date. *)
Lemma previous_trading_day_steady (host : Host) (offset d : Z) (fuel : nat) :
  steadyAround host offset d 7 -> (- msPerDay < offset < msPerDay)%Z ->
  (DayFromYear 1 <= d < DayFromYear 9999)%Z -> (5 <= fuel)%nat ->
  exists k, (1 <= k <= 5)%Z
    /\ getPreviousTradingDay host fuel (isoOfDay d) = Returned (isoOfDay (d - k))
    /\ isTradingDay host (isoOfDay (d - k)) = true
    /\ forall j, (1 <= j < k)%Z -> isTradingDay host (isoOfDay (d - j)) = false.
Proof.
  intros F S Hd Hf.
  destruct (tradingDayLoop_nearest host offset (-1) d fuel F S (or_introl eq_refl) Hd Hf)
    as (k & Hk & L & T & B).
  exists k. replace (d - k)%Z with (d + -1 * k)%Z by lia.
  split; [exact Hk|]. split; [exact L|]. split; [exact T|].
  intros j Hj. replace (d - j)%Z with (d + -1 * j)%Z by lia. now apply B.
Qed.

Lemma next_trading_day_steady (host : Host) (offset d : Z) (fuel : nat) :
  steadyAround host offset d 7 -> (- msPerDay < offset < msPerDay)%Z ->
  (DayFromYear 1 <= d < DayFromYear 9999)%Z -> (5 <= fuel)%nat ->
  exists k, (1 <= k <= 5)%Z
    /\ getNextTradingDay host fuel (isoOfDay d) = Returned (isoOfDay (d + k))
    /\ isTradingDay host (isoOfDay (d + k)) = true
    /\ forall j, (1 <= j < k)%Z -> isTradingDay host (isoOfDay (d + j)) = false.
Proof.
  intros F S Hd Hf.
  destruct (tradingDayLoop_nearest host offset 1 d fuel F S (or_intror eq_refl) Hd Hf)
    as (k & Hk & L & T & B).
  exists k. replace (d + k)%Z with (d + 1 * k)%Z by lia.
  split; [exact Hk|]. split; [exact L|]. split; [exact T|].
  intros j Hj. replace (d + j)%Z with (d + 1 * j)%Z by lia. now apply B.
Qed.

(** The two searches from a date-only string, as the search on day
    numbers. *)
Lemma search_on_days (host : Host) (offset step d : Z) :
  steadyAround host offset d 7 -> (- msPerDay < offset < msPerDay)%Z ->
  step = (-1)%Z \/ step = 1%Z ->
  (DayFromYear 1 <= d < DayFromYear 9999)%Z ->
  tradingDayLoop host step 5 (parse host (isoOfDay d))
  = match searchFrom (localShift offset) step 5 d with
    | Some r => Returned (isoOfDay r)
    | None => OutOfFuel
    end.
Proof.
  intros F S Hs Hd. rewrite (parse_isoOfDay host d (fourDigitYear_in d Hd)).
  rewrite (tradingDayLoop_iso host offset _ _ step F S Hs); rewrite ?Day_whole.
  - reflexivity.
  - unfold msPerDay. cbn [Z.of_nat]. lia.
  - intros k Hk. apply fourDigitYear_near; [exact Hd|]. cbn [Z.of_nat] in Hk.
    destruct Hs; subst; lia.
Qed.

Lemma isTradingDay_on_days (host : Host) (offset d n : Z) :
  steadyAround host offset d n -> (0 <= n)%Z -> (- msPerDay < offset < msPerDay)%Z ->
  (DayFromYear 1 <= d < DayFromYear 9999)%Z ->
  isTradingDay host (isoOfDay d) = isTradingDayNumber (localShift offset) d.
Proof.
  intros F Hn S Hd.
  apply (isTradingDay_iso host offset _ _ d F S (fourDigitYear_in d Hd)).
  unfold msPerDay. lia.
Qed.

(** C5.  On a host at or east of UTC that keeps its offset for a week
    either way, for every date of the years 1 to 9998 given as its
    date-only string: [isTradingDay] is false exactly when the date is a
    Saturday, a Sunday or one of the listed holidays;
    [getPreviousTradingDay] returns, within five steps of one day, the
    latest earlier date on which [isTradingDay] holds, and
    [getNextTradingDay] the earliest later one.  West of UTC the claim
    fails: the date is read as midnight UTC and its weekday taken in local
    time, which is still the evening before.  On a host that is five
    hours behind UTC in December 2024, as one in New York is, Monday 16
    December is no trading day and Saturday 14 December is one, which
    both searches return. *)
Theorem trading_calendar (host : Host) (offset d : Z) :
  steadyAround host offset d 7 -> (0 <= offset < msPerDay)%Z ->
  (DayFromYear 1 <= d < DayFromYear 9999)%Z ->
  (parse host (isoOfDay d) = Some (d * msPerDay)%Z
   /\ getDay host (parse host (isoOfDay d)) = Some (WeekDay d)
   /\ (isTradingDay host (isoOfDay d) = false <->
       WeekDay d = 6%Z \/ WeekDay d = 0%Z \/ In (isoOfDay d) MARKET_HOLIDAYS)
   /\ (forall fuel, (5 <= fuel)%nat ->
       exists k, (1 <= k <= 5)%Z
         /\ getPreviousTradingDay host fuel (isoOfDay d) = Returned (isoOfDay (d - k))
         /\ isTradingDay host (isoOfDay (d - k)) = true
         /\ forall j, (1 <= j < k)%Z -> isTradingDay host (isoOfDay (d - j)) = false)
   /\ (forall fuel, (5 <= fuel)%nat ->
       exists k, (1 <= k <= 5)%Z
         /\ getNextTradingDay host fuel (isoOfDay d) = Returned (isoOfDay (d + k))
         /\ isTradingDay host (isoOfDay (d + k)) = true
         /\ forall j, (1 <= j < k)%Z -> isTradingDay host (isoOfDay (d + j)) = false))
  /\ (forall west : Host,
        steadyAround west (-18000000) 20073 10 ->
        isoOfDay 20073 = "2024-12-16" /\ WeekDay 20073 = 1%Z
        /\ ~ In "2024-12-16" MARKET_HOLIDAYS
        /\ isTradingDay west "2024-12-16" = false
        /\ isoOfDay 20071 = "2024-12-14" /\ WeekDay 20071 = 6%Z
        /\ isTradingDay west "2024-12-14" = true
        /\ getPreviousTradingDay west 5 "2024-12-16" = Returned "2024-12-14"
        /\ getNextTradingDay west 5 "2024-12-13" = Returned "2024-12-14").
Proof.
  intros F S Hd.
  assert (S' : (- msPerDay < offset < msPerDay)%Z) by (unfold msPerDay in *; lia).
  split.
  - split; [apply parse_isoOfDay, fourDigitYear_in, Hd|].
    pose proof (isTradingDay_at host offset d (steadyAround_0 _ _ _ _ F ltac:(lia)) S' Hd)
      as P.
    cbv zeta in P.
    destruct (Z.ltb_spec offset 0); [lia|]. destruct P as [G T].
    split; [exact G|]. split; [exact T|]. split.
    + intros fuel Hf. now apply (previous_trading_day_steady host offset).
    + intros fuel Hf. now apply (next_trading_day_steady host offset).
  - intros west W.
    assert (So : (- msPerDay < -18000000 < msPerDay)%Z) by (split; reflexivity).
    assert (R : forall e, (20063 <= e <= 20083)%Z ->
                  (DayFromYear 1 <= e < DayFromYear 9999)%Z).
    { intros e He. destruct year_limits as (_ & -> & -> & _). lia. }
    assert (W7 : forall e, (20070 <= e <= 20076)%Z ->
                   steadyAround west (-18000000) e 7).
    { intros e He. apply (steadyAround_sub _ _ _ _ _ _ W). lia. }
    split; [reflexivity|]. split; [reflexivity|].
    split; [intros I; apply StringFacts.arrIncludes_In in I; discriminate I|].
    split.
    { change "2024-12-16" with (isoOfDay 20073).
      rewrite (isTradingDay_on_days west (-18000000) 20073 7 (W7 20073%Z ltac:(lia)) ltac:(lia) So
                 (R 20073%Z ltac:(lia))).
      reflexivity. }
    split; [reflexivity|]. split; [reflexivity|]. split.
    { change "2024-12-14" with (isoOfDay 20071).
      rewrite (isTradingDay_on_days west (-18000000) 20071 7 (W7 20071%Z ltac:(lia)) ltac:(lia) So
                 (R 20071%Z ltac:(lia))).
      reflexivity. }
    split.
    + unfold getPreviousTradingDay. change "2024-12-16" with (isoOfDay 20073).
      rewrite (search_on_days west (-18000000) _ 20073 (W7 20073%Z ltac:(lia)) So (or_introl eq_refl)
                 (R 20073%Z ltac:(lia))).
      reflexivity.
    + unfold getNextTradingDay. change "2024-12-13" with (isoOfDay 20070).
      rewrite (search_on_days west (-18000000) _ 20070 (W7 20070%Z ltac:(lia)) So (or_intror eq_refl)
                 (R 20070%Z ltac:(lia))).
      reflexivity.
Qed.

Lemma trading_calendar_witness :
  steadyAround Sample.utc 0 20059 7
  /\ (0 <= 0 < msPerDay)%Z
  /\ (DayFromYear 1 <= 20059 < DayFromYear 9999)%Z
  /\ exists k, (1 <= k <= 5)%Z
       /\ getPreviousTradingDay Sample.utc 5 (isoOfDay 20059) = Returned (isoOfDay (20059 - k))
       /\ isTradingDay Sample.utc (isoOfDay (20059 - k)) = true
       /\ forall j, (1 <= j < k)%Z -> isTradingDay Sample.utc (isoOfDay (20059 - j)) = false.
Proof.
  assert (F : steadyAround Sample.utc 0 20059 7) by apply fixedHost_steadyAround.
  assert (S : (0 <= 0 < msPerDay)%Z) by (split; [discriminate | reflexivity]).
  assert (H : (DayFromYear 1 <= 20059 < DayFromYear 9999)%Z).
  { split; vm_compute; [discriminate | reflexivity]. }
  split; [exact F|]. split; [exact S|]. split; [exact H|].
  exact (proj1 (proj2 (proj2 (proj2
           (proj1 (trading_calendar Sample.utc 0 20059 F S H))))) 5%nat (le_n 5)).
Defined.

(** Monday 2 December 2024 follows a weekend and the two Thanksgiving
    holidays: at UTC the previous trading day is Wednesday 27 November. *)
Example previous_trading_day_after_thanksgiving :
  isoOfDay 20059 = "2024-12-02"
  /\ getDay Sample.utc (parse Sample.utc "2024-12-02") = Some 1%Z
  /\ getPreviousTradingDay Sample.utc 5 "2024-12-02" = Returned "2024-11-27"
  /\ getNextTradingDay Sample.utc 5 "2024-11-27" = Returned "2024-12-02"
  /\ isTradingDay Sample.utc "2024-11-30" = false
  /\ isTradingDay Sample.utc "2024-11-29" = false.
Proof. vm_compute. repeat split. Qed.

(** A date in another form than [YYYY-MM-DD] is judged by the weekday
    that the host reads from it alone when its text is not in the list of
    holidays, which holds date-only strings: Christmas Day 2024, a
    Wednesday, given as [12/25/2024], passes for a trading day. *)
Lemma isTradingDay_other_form (host : Host) (dateStr : string) :
  parseDateOnly dateStr = None ->
  isTradingDay host dateStr
  = negb (isWeekend (getDay host (parseOther host dateStr)))
    && negb (JS.arrIncludes MARKET_HOLIDAYS dateStr).
Proof.
  intros P. unfold isTradingDay, parse. rewrite P.
  destruct (isWeekend _); [reflexivity|].
  now destruct (JS.arrIncludes _ _).
Qed.

Example isTradingDay_christmas_with_slashes :
  parse Sample.westSlash "12/25/2024" = Some (20082 * msPerDay + 18000000)%Z
  /\ isoOfDay 20082 = "2024-12-25"
  /\ In "2024-12-25" MARKET_HOLIDAYS
  /\ getDay Sample.westSlash (parse Sample.westSlash "12/25/2024") = Some 3%Z
  /\ isTradingDay Sample.westSlash "12/25/2024" = true.
Proof.
  split; [reflexivity|]. split; [reflexivity|].
  split; [apply StringFacts.arrIncludes_In; reflexivity|].
  split; reflexivity.
Qed.

Lemma resolveToday_iso (now : string) (d : Z) :
  fourDigitYear d -> resolveToday now (Some (isoOfDay d)) = isoOfDay d.
Proof.
  intros F. pose proof (YearFromDay_bounds d 0 10000 F) as Y.
  unfold resolveToday, JS.orElse. now rewrite isoOfDay_fields by lia.
Qed.

(** On a day that the host takes for a trading day, with enough
    iterations for the calendar and an account service that answers for
    both days, [detectChanges] returns an alert, having fetched today's
    portfolios and those of the previous trading day, in this order. *)
Lemma detectChanges_returns_on_trading_day
    (host : Host) (offset : Z)
    (getAccountPortfolios : string -> outcome (list AccountPortfolio.t))
    (now : string) (localeCompare : string -> string -> Z)
    (fuel : nat) (d : Z) (log : list string) :
  steadyAround host offset d 7 -> (- msPerDay < offset < msPerDay)%Z ->
  (DayFromYear 1 <= d < DayFromYear 9999)%Z ->
  isTradingDay host (isoOfDay d) = true -> (5 <= fuel)%nat ->
  exists k, (1 <= k <= 5)%Z /\
    forall todayPortfolios previousPortfolios,
      getAccountPortfolios (isoOfDay d) = Returned todayPortfolios ->
      getAccountPortfolios (isoOfDay (d - k)) = Returned previousPortfolios ->
      exists alert,
        detectChanges host getAccountPortfolios now localeCompare fuel
          (Some (isoOfDay d)) log
        = (Returned alert, (log ++ [isoOfDay d; isoOfDay (d - k)])%list)
        /\ ChangeAlert.comparisonDate alert = Some (isoOfDay (d - k)).
Proof.
  intros F S Hd T Hf.
  destruct (previous_trading_day_steady host offset d fuel F S Hd Hf) as (k & Hk & L & _).
  exists k. split; [exact Hk|].
  intros tp pp Et Ep.
  pose proof (resolveToday_iso now d (fourDigitYear_in d Hd)) as R.
  unfold detectChanges. rewrite R, T. cbn [negb].
  unfold bind, lift. rewrite L. unfold fetchBoth. rewrite Et, Ep.
  destruct (fold_left _ tp _) as [changes affected]. unfold ret.
  eexists. split; reflexivity.
Qed.

(** The earlier copy of the detector knows no trading calendar: on every
    date it fetches the portfolios of the day and of the day before, so
    also on Saturday 14 December 2024. *)
Lemma detectChangesEarlier_fetches
    (host : Host) (offset : Z)
    (getAccountPortfolios : string -> outcome (list AccountPortfolio.t))
    (now : string) (localeCompare : string -> string -> Z)
    (d : Z) (log : list string) :
  steadyAround host offset d 2 -> (- msPerDay < offset < msPerDay)%Z ->
  (DayFromYear 1 <= d < DayFromYear 9999)%Z ->
  snd (detectChangesEarlier host getAccountPortfolios now localeCompare
         (Some (isoOfDay d)) log)
  = (log ++ [isoOfDay d; isoOfDay (d - 1)])%list.
Proof.
  intros Fx Sm Hd.
  pose proof (fourDigitYear_in d Hd) as F.
  assert (F1 : fourDigitYear (d - 1)).
  { replace (d - 1)%Z with (d + -1)%Z by lia.
    apply fourDigitYear_near; [exact Hd | lia]. }
  pose proof (resolveToday_iso now d F) as R.
  assert (Y : getYesterdayDate host (isoOfDay d) = Returned (isoOfDay (d - 1))).
  { unfold getYesterdayDate. rewrite (parse_isoOfDay host d F).
    replace (fun n : Z => (n - 1)%Z) with (fun n : Z => (n + -1)%Z) by reflexivity.
    rewrite (setDate_step host offset _ _ _ _ Fx Sm) by (unfold msPerDay; lia).
    rewrite TimeClip_fourDigit; rewrite ?Day_step, ?Day_whole;
      [|now replace (d + -1)%Z with (d - 1)%Z by lia].
    cbn [toISODate option_map]. rewrite Day_step, Day_whole.
    now replace (d + -1)%Z with (d - 1)%Z by lia. }
  unfold detectChangesEarlier. rewrite R. unfold bind, lift. rewrite Y.
  unfold fetchBoth.
  destruct (getAccountPortfolios (isoOfDay d)) as [tp| |];
    destruct (getAccountPortfolios (isoOfDay (d - 1))) as [pp| |]; try reflexivity.
  destruct (fold_left _ tp _) as [changes affected]. reflexivity.
Qed.

Example detectChangesEarlier_on_saturday :
  snd (detectChangesEarlier Sample.utc Sample.twoDays "2024-12-16" Sample.collate
         (Some "2024-12-14") [])
  = ["2024-12-14"; "2024-12-13"].
Proof. reflexivity. Qed.

(** The reason given on a day that is no trading day. *)
Lemma getNoChangeReason_closed (host : Host) (fuel : nat) (dateStr : string) :
  isTradingDay host dateStr = false ->
  getNoChangeReason host fuel dateStr
  = Returned (if isWeekend (getDay host (parse host dateStr))
              then "Markets closed - Weekend" else "Markets closed - Holiday")
  /\ (isWeekend (getDay host (parse host dateStr)) = false ->
      In dateStr MARKET_HOLIDAYS).
Proof.
  intros H. unfold getNoChangeReason. rewrite H. cbn [negb]. split.
  - now destruct (isWeekend _).
  - intros W. unfold isTradingDay in H. rewrite W in H.
    apply StringFacts.arrIncludes_In.
    now destruct (JS.arrIncludes MARKET_HOLIDAYS dateStr).
Qed.

(** C3.  On a date for which [isTradingDay] is false, [detectChanges]
    returns at once, on every host: the alert has [hasChanges = false], no
    comparison date, no changes, no affected accounts, and as message the
    weekend reason when [getDay] reads a Saturday or a Sunday and the
    holiday reason otherwise, the date being then a listed holiday; the
    log of fetches is what it was.  On a host that is at or east of UTC
    at midnight UTC of the date this is so on every Saturday, Sunday and
    listed holiday.  West of UTC it is not: on a host that is five hours
    behind UTC in December 2024, as one in New York is, Saturday 14
    December passes for a trading day, and the portfolios of that day and
    of the Friday are fetched.  The earlier copy of the detector,
    [detectChangesEarlier], has no calendar and fetches on every date. *)
Theorem detectChanges_non_trading_day
    (host : Host)
    (getAccountPortfolios : string -> outcome (list AccountPortfolio.t))
    (now : string) (localeCompare : string -> string -> Z)
    (fuel : nat) (todayDate : option string) (log : list string) :
  isTradingDay host (resolveToday now todayDate) = false ->
  (exists reason,
     detectChanges host getAccountPortfolios now localeCompare fuel todayDate log
     = (Returned {| ChangeAlert.hasChanges := false;
                    ChangeAlert.changes := [];
                    ChangeAlert.totalChanges := 0;
                    ChangeAlert.affectedAccounts := [];
                    ChangeAlert.date := resolveToday now todayDate;
                    ChangeAlert.comparisonDate := None;
                    ChangeAlert.message := Some reason |},
        log)
     /\ getNoChangeReason host fuel (resolveToday now todayDate) = Returned reason
     /\ ((reason = "Markets closed - Weekend"
          /\ (getDay host (parse host (resolveToday now todayDate)) = Some 0%Z
              \/ getDay host (parse host (resolveToday now todayDate)) = Some 6%Z))
         \/ (reason = "Markets closed - Holiday"
             /\ In (resolveToday now todayDate) MARKET_HOLIDAYS
             /\ getDay host (parse host (resolveToday now todayDate)) <> Some 0%Z
             /\ getDay host (parse host (resolveToday now todayDate)) <> Some 6%Z)))
  /\ (forall offset d,
        steadyAround host offset d 0 -> (0 <= offset < msPerDay)%Z ->
        (DayFromYear 1 <= d < DayFromYear 9999)%Z ->
        WeekDay d = 6%Z \/ WeekDay d = 0%Z \/ In (isoOfDay d) MARKET_HOLIDAYS ->
        isTradingDay host (isoOfDay d) = false
        /\ getNoChangeReason host fuel (isoOfDay d)
           = Returned (if (WeekDay d =? 0)%Z || (WeekDay d =? 6)%Z
                       then "Markets closed - Weekend"
                       else "Markets closed - Holiday"))
  /\ (forall west : Host,
        steadyAround west (-18000000) 20071 7 ->
        isoOfDay 20071 = "2024-12-14" /\ WeekDay 20071 = 6%Z
        /\ isTradingDay west "2024-12-14" = true
        /\ snd (detectChanges west getAccountPortfolios now localeCompare 5
                  (Some "2024-12-14") log)
           = (log ++ ["2024-12-14"; "2024-12-13"])%list)
  /\ (forall offset d,
        steadyAround host offset d 2 -> (- msPerDay < offset < msPerDay)%Z ->
        (DayFromYear 1 <= d < DayFromYear 9999)%Z ->
        snd (detectChangesEarlier host getAccountPortfolios now localeCompare
               (Some (isoOfDay d)) log)
        = (log ++ [isoOfDay d; isoOfDay (d - 1)])%list).
Proof.
  intros H. split; [|split; [|split]].
  - destruct (getNoChangeReason_closed host fuel _ H) as [R I].
    eexists. split; [|split; [exact R|]].
    + unfold detectChanges. rewrite H. cbn [negb]. unfold bind, lift. rewrite R.
      reflexivity.
    + destruct (getDay host (parse host (resolveToday now todayDate))) as [n|];
        cbn [isWeekend] in *.
      * destruct (Z.eqb_spec n 0) as [E0|N0]; cbn [orb] in *;
          [left; split; [reflexivity | left; now rewrite E0]|].
        destruct (Z.eqb_spec n 6) as [E6|N6];
          [left; split; [reflexivity | right; now rewrite E6]|].
        right. split; [reflexivity|]. split; [now apply I|].
        split; congruence.
      * right. split; [reflexivity|]. split; [now apply I|]. split; discriminate.
  - intros offset d F S Hd C.
    assert (S' : (- msPerDay < offset < msPerDay)%Z) by (unfold msPerDay in *; lia).
    pose proof (isTradingDay_at host offset d F S' Hd) as P. cbv zeta in P.
    destruct (Z.ltb_spec offset 0); [lia|]. destruct P as [G T].
    pose proof (proj2 T C) as Cl. split; [exact Cl|].
    destruct (getNoChangeReason_closed host fuel _ Cl) as [R _].
    rewrite R, G. reflexivity.
  - intros west W.
    assert (So : (- msPerDay < -18000000 < msPerDay)%Z) by (split; reflexivity).
    assert (R : (DayFromYear 1 <= 20071 < DayFromYear 9999)%Z).
    { destruct year_limits as (_ & -> & -> & _). lia. }
    assert (T : isTradingDay west "2024-12-14" = true).
    { change "2024-12-14" with (isoOfDay 20071).
      rewrite (isTradingDay_on_days west (-18000000) 20071 7 W ltac:(lia) So R).
      reflexivity. }
    assert (P : getPreviousTradingDay west 5 "2024-12-14" = Returned "2024-12-13").
    { unfold getPreviousTradingDay. change "2024-12-14" with (isoOfDay 20071).
      rewrite (search_on_days west (-18000000) _ 20071 W So (or_introl eq_refl) R).
      reflexivity. }
    split; [reflexivity|]. split; [reflexivity|]. split; [exact T|].
    unfold detectChanges. cbn [resolveToday JS.orElse JS.truthy].
    rewrite T. cbn [negb]. unfold bind, lift. rewrite P.
    unfold fetchBoth.
    destruct (getAccountPortfolios "2024-12-14") as [tp| |];
      destruct (getAccountPortfolios "2024-12-13") as [pp| |]; try reflexivity.
    destruct (fold_left _ tp _) as [changes affected]. reflexivity.
  - intros offset d F S Hd. now apply (detectChangesEarlier_fetches host offset).
Qed.

Lemma detectChanges_non_trading_day_witness :
  isTradingDay Sample.utc (resolveToday "2024-12-16" (Some "2024-12-14")) = false
  /\ exists reason,
      detectChanges Sample.utc Sample.twoDays "2024-12-16" Sample.collate 0
        (Some "2024-12-14") []
      = (Returned {| ChangeAlert.hasChanges := false;
                     ChangeAlert.changes := [];
                     ChangeAlert.totalChanges := 0;
                     ChangeAlert.affectedAccounts := [];
                     ChangeAlert.date := resolveToday "2024-12-16" (Some "2024-12-14");
                     ChangeAlert.comparisonDate := None;
                     ChangeAlert.message := Some reason |},
         [])
      /\ reason = "Markets closed - Weekend".
Proof.
  assert (H : isTradingDay Sample.utc (resolveToday "2024-12-16" (Some "2024-12-14"))
              = false) by reflexivity.
  split; [exact H|].
  destruct (proj1 (detectChanges_non_trading_day Sample.utc Sample.twoDays "2024-12-16"
                     Sample.collate 0 (Some "2024-12-14") [] H))
    as (reason & E & R & _).
  exists reason. split; [exact E|].
  vm_compute in R. now injection R as <-.
Defined.

(** ** Currency suffix *)

Module SuffixFacts.

Import StringFacts RegexFacts CombinedAccountService.

(** *** Reading a match back *)






Lemma lower_u (c : ascii) :
  Ascii.eqb (JS.lowerChar c) (JS.lowerChar "U") = true <-> JS.lowerChar c = "u"%char.
Proof. rewrite Ascii.eqb_eq. reflexivity. Qed.







(** *** White space at the end of a name *)






(** *** The leftmost suffix match *)






End SuffixFacts.

Import RegexFacts SuffixFacts CombinedAccountService.



(** ** Model names *)




(** ** Numbers in table cells *)

(** C4.  [parseNumber] drops [$], commas and parentheses and reads the
    number that the digits, dots and dashes left over begin with.  A text
    is marked negative when it contains [(] or when, cleaned, it starts
    with [-].  An unmarked text never gives NaN: when no number can be
    read the result is 0.  A marked text gives minus the magnitude of the
    number read, below 0 unless that number is 0, and NaN when no number
    can be read: so for ["-"] and for ["(N/A)"], where the result is NaN
    and not 0.  An unmarked text gives a number below 0 when it has its
    dash inside, as ["US$-5"].  The examples of the specification hold:
    ["$(1,234.56)"] gives the number nearest to -1234.56, which is
    -5429652300748554 / 2^42, and the empty text and ["N/A"] give 0. *)
Theorem parseNumber_marked_negative_without_number (value : string) :
  (EmailParser.parseNumber value = Num.NaN <->
     JS.truthy value = true /\ EmailParser.isNegative value = true
     /\ EmailParser.num value = Num.NaN)
  /\ (EmailParser.isNegative value = false -> EmailParser.num value = Num.NaN ->
      EmailParser.parseNumber value = Num.zero)
  /\ (JS.truthy value = true -> EmailParser.isNegative value = true ->
      EmailParser.parseNumber value = Num.neg (Num.abs (EmailParser.num value)))
  /\ (JS.truthy value = true -> EmailParser.isNegative value = true ->
      Num.truthy (EmailParser.num value) = true ->
      Num.isNegative (EmailParser.parseNumber value) = true)
  /\ EmailParser.parseNumber "-" = Num.NaN
  /\ EmailParser.parseNumber "(N/A)" = Num.NaN
  /\ EmailParser.isNegative "US$-5" = false
  /\ EmailParser.parseNumber "US$-5" = Num.neg (Num.ofZ 5)
  /\ EmailParser.parseNumber "$(1,234.56)" = S754_finite true 5429652300748554 (-42)
  /\ (Z.abs (5429652300748554 * 100 - 123456 * 2 ^ 42) <= 50)%Z
  /\ EmailParser.parseNumber EmptyString = Num.zero
  /\ EmailParser.parseNumber "N/A" = Num.zero.
Proof.
  split; [|split; [|split; [|split]]].
  - unfold EmailParser.parseNumber.
    destruct (JS.truthy value); cbn [negb].
    + destruct (EmailParser.isNegative value).
      * destruct (EmailParser.num value) as [s| s| |s m e]; cbn;
          split; try discriminate; try (intros (_ & _ & H); discriminate H).
        all: intros _; repeat split.
      * split; [|intros (_ & H & _); discriminate H].
        unfold Num.orElse. destruct (EmailParser.num value) as [s| s| |s m e]; cbn;
          discriminate.
    + split; [discriminate|intros (H & _); discriminate H].
  - intros M N. unfold EmailParser.parseNumber. rewrite M, N.
    destruct (JS.truthy value); reflexivity.
  - intros T M. unfold EmailParser.parseNumber. now rewrite T, M.
  - intros T M N. unfold EmailParser.parseNumber. rewrite T, M. cbn [negb].
    destruct (EmailParser.num value) as [s| s| |s m e]; try discriminate N; reflexivity.
  - vm_compute. repeat split; discriminate.
Qed.

Lemma parseNumber_marked_negative_without_number_witness :
  JS.truthy "(N/A)" = true /\ EmailParser.isNegative "(N/A)" = true
  /\ EmailParser.num "(N/A)" = Num.NaN
  /\ EmailParser.parseNumber "(N/A)" = Num.NaN.
Proof.
  assert (H1 : JS.truthy "(N/A)" = true) by reflexivity.
  assert (H2 : EmailParser.isNegative "(N/A)" = true) by reflexivity.
  assert (H3 : EmailParser.num "(N/A)" = Num.NaN) by reflexivity.
  split; [exact H1|]. split; [exact H2|]. split; [exact H3|].
  exact (proj2 (proj1 (parseNumber_marked_negative_without_number "(N/A)"))
           (conj H1 (conj H2 H3))).
Defined.

(** ** Portfolio assembler: order of the result *)

Module AssemblerFacts.

Import AccountPortfolioService.

Section SortBy.

Context {A : Type} (cmp : A -> A -> Z).
Hypothesis cmp_total : forall a b, (cmp a b <= 0)%Z \/ (cmp b a <= 0)%Z.

Let le (a b : A) : Prop := (cmp a b <= 0)%Z.

Lemma insertBy_hd (x y : A) (l : list A) :
  le y x -> HdRel le y l -> HdRel le y (JS.insertBy cmp x l).
Proof.
  intros Hyx H. destruct l as [|z l]; simpl; [now constructor|].
  destruct (Z.leb_spec (cmp x z) 0); constructor; [exact Hyx|].
  now inversion H.
Qed.

Lemma insertBy_sorted (x : A) (l : list A) :
  Sorted le l -> Sorted le (JS.insertBy cmp x l).
Proof.
  induction l as [|y l IH]; intros S; simpl.
  - repeat constructor.
  - destruct (Z.leb_spec (cmp x y) 0) as [L|G].
    + constructor; [exact S | now constructor].
    + inversion S as [|? ? S' H]; subst. constructor; [now apply IH|].
      apply insertBy_hd; [|exact H].
      destruct (cmp_total y x) as [T|T]; [exact T | unfold le; lia].
Qed.

Lemma sortBy_sorted (l : list A) : Sorted le (JS.sortBy cmp l).
Proof.
  induction l as [|x l IH]; simpl; [constructor|].
  now apply insertBy_sorted.
Qed.

End SortBy.

(** The sample collation is total. *)
Lemma lexCompare_antisym (a b : list nat) :
  Sample.lexCompare b a = CompOpp (Sample.lexCompare a b).
Proof.
  revert b. induction a as [|x a IH]; intros [|y b]; simpl; try reflexivity.
  rewrite (Nat.compare_antisym x y).
  destruct (Nat.compare x y); simpl; [apply IH | reflexivity | reflexivity].
Qed.

Lemma collate_total (a b : string) :
  (Sample.collate a b <= 0)%Z \/ (Sample.collate b a <= 0)%Z.
Proof.
  unfold Sample.collate.
  rewrite (lexCompare_antisym (Sample.sortKey a) (Sample.sortKey b)).
  destruct (Sample.lexCompare (Sample.sortKey a) (Sample.sortKey b)); simpl; lia.
Qed.

End AssemblerFacts.

Import AssemblerFacts AccountPortfolioService.

(** C9, as the code has it.  The array returned by [getAccountPortfolios]
    is sorted by account name in the order of [localeCompare], the
    collation of the runtime: for every adjacent pair, [localeCompare] of
    the first name with the second is at most 0. *)
Theorem getAccountPortfolios_sorted_by_collation
    (getModelAccountMappings : outcome (list Mapping))
    (getPortfolioEmails : string -> string -> outcome (list Email))
    (parseFilteredPortfolioEmail :
       string -> string -> string -> list string -> list PortfolioData.t)
    (now : string) (localeCompare : string -> string -> Z)
    (dateStr : option string) (result : list AccountPortfolio.t) :
  (forall a b, (localeCompare a b <= 0)%Z \/ (localeCompare b a <= 0)%Z) ->
  getAccountPortfolios getModelAccountMappings getPortfolioEmails
    parseFilteredPortfolioEmail now localeCompare dateStr = Returned result ->
  Sorted (collationLe localeCompare) result.
Proof.
  intros T. unfold getAccountPortfolios.
  destruct getModelAccountMappings as [mappings| |]; try discriminate.
  destruct (getPortfolioEmails _ _) as [emails| |]; try discriminate.
  destruct emails as [|e emails].
  - intros [= <-]. constructor.
  - destruct (fold_left _ _ _) as [g| |]; try discriminate.
    intros [= <-].
    apply (sortBy_sorted (compareAccounts localeCompare)).
    intros a b. apply T.
Qed.

Lemma getAccountPortfolios_sorted_by_collation_witness :
  (forall a b, (Sample.collate a b <= 0)%Z \/ (Sample.collate b a <= 0)%Z)
  /\ exists result,
      getAccountPortfolios (Returned Sample.mappings) Sample.oneEmail
        Sample.parsedTables "2024-12-16" Sample.collate None = Returned result
      /\ Sorted (collationLe Sample.collate) result.
Proof.
  split; [exact collate_total|].
  eexists. split; [vm_compute; reflexivity|].
  apply (getAccountPortfolios_sorted_by_collation (Returned Sample.mappings)
           Sample.oneEmail Sample.parsedTables "2024-12-16" Sample.collate None _
           collate_total).
  vm_compute. reflexivity.
Defined.

(** C9, as stated, fails: under a collation that puts letters in
    alphabetical order before it looks at their case, the accounts
    ["anne TFSA"] and ["Glen RRSP"] are returned in this order, and in
    code unit order ["Glen RRSP"] comes first (G is 71, a is 97). *)
Lemma getAccountPortfolios_code_point_counterexample :
  exists result,
    getAccountPortfolios (Returned Sample.mappings) Sample.oneEmail
      Sample.parsedTables "2024-12-16" Sample.collate None = Returned result
    /\ map AccountPortfolio.accountName result = ["anne TFSA"; "Glen RRSP"]
    /\ String.compare "anne TFSA" "Glen RRSP" = Gt
    /\ ~ Sorted codePointLe result.
Proof.
  eexists. split; [vm_compute; reflexivity|].
  split; [reflexivity|]. split; [reflexivity|].
  intros S. inversion S as [|? ? _ H]; subst.
  inversion H as [|? ? L]; subst. vm_compute in L. discriminate.
Qed.

(* ================================================================== *)
(** * Further properties of the services *)

(** ** Trading calendar: searches composed *)

Module SearchFacts.

Import DateModel CalendarFacts TradingFacts.

Local Open Scope Z_scope.

(** The nearest trading day in a direction is at one distance only. *)
Lemma nearest_unique (host : DateModel.Host) (step d k1 k2 : Z) :
  isTradingDay host (isoOfDay (d + step * k1)) = true ->
  (forall j, 1 <= j < k1 -> isTradingDay host (isoOfDay (d + step * j)) = false) ->
  isTradingDay host (isoOfDay (d + step * k2)) = true ->
  (forall j, 1 <= j < k2 -> isTradingDay host (isoOfDay (d + step * j)) = false) ->
  1 <= k1 -> 1 <= k2 -> k1 = k2.
Proof.
  intros T1 B1 T2 B2 H1 H2.
  destruct (Z.lt_trichotomy k1 k2) as [L | [E | L]]; [|exact E|].
  - rewrite (B2 k1) in T1 by lia. discriminate.
  - rewrite (B1 k2) in T2 by lia. discriminate.
Qed.

Lemma previous_nearest (host : Host) (offset d : Z) (fuel : nat) :
  steadyAround host offset d 7 -> - msPerDay < offset < msPerDay ->
  DayFromYear 1 <= d < DayFromYear 9999 -> (5 <= fuel)%nat ->
  exists k, 1 <= k <= 5
    /\ getPreviousTradingDay host fuel (isoOfDay d) = Returned (isoOfDay (d - k))
    /\ isTradingDay host (isoOfDay (d - k)) = true
    /\ forall j, 1 <= j < k -> isTradingDay host (isoOfDay (d - j)) = false.
Proof. apply previous_trading_day_steady. Qed.

Lemma next_nearest (host : Host) (offset d : Z) (fuel : nat) :
  steadyAround host offset d 7 -> - msPerDay < offset < msPerDay ->
  DayFromYear 1 <= d < DayFromYear 9999 -> (5 <= fuel)%nat ->
  exists k, 1 <= k <= 5
    /\ getNextTradingDay host fuel (isoOfDay d) = Returned (isoOfDay (d + k))
    /\ isTradingDay host (isoOfDay (d + k)) = true
    /\ forall j, 1 <= j < k -> isTradingDay host (isoOfDay (d + j)) = false.
Proof. apply next_trading_day_steady. Qed.

Lemma calendar_margin (d : Z) :
  DayFromYear 1 + 5 <= d < DayFromYear 9999 - 5 ->
  forall k, -5 <= k <= 5 -> DayFromYear 1 <= d + k < DayFromYear 9999.
Proof. intros H k Hk. lia. Qed.

End SearchFacts.

Import DateModel CalendarFacts TradingFacts SearchFacts.

(** X1.  On a host whose offset from UTC does not change within twelve
    days of the date, whatever the offset: from a day that [isTradingDay]
    accepts, the next trading day after the previous one is
    the day itself, and so is the previous trading day before the next
    one; from a day that it refuses, both compositions lead to the
    neighbouring accepted day on the far side. *)
Theorem trading_day_searches_compose (host : Host) (offset d : Z) (fuel : nat) :
  steadyAround host offset d 12 -> (- msPerDay < offset < msPerDay)%Z ->
  (DayFromYear 1 + 5 <= d < DayFromYear 9999 - 5)%Z -> (5 <= fuel)%nat ->
  exists p n,
    getPreviousTradingDay host fuel (isoOfDay d) = Returned p
    /\ getNextTradingDay host fuel (isoOfDay d) = Returned n
    /\ getNextTradingDay host fuel p
       = Returned (if isTradingDay host (isoOfDay d) then isoOfDay d else n)
    /\ getPreviousTradingDay host fuel n
       = Returned (if isTradingDay host (isoOfDay d) then isoOfDay d else p).
Proof.
  intros Fx Sm Hd Hf.
  pose proof (calendar_margin d Hd) as M.
  assert (Hd0 : (DayFromYear 1 <= d < DayFromYear 9999)%Z) by lia.
  assert (F0 : steadyAround host offset d 7)
    by (apply (steadyAround_sub _ _ _ _ _ _ Fx); lia).
  destruct (previous_nearest host offset d fuel F0 Sm Hd0 Hf) as (k & Hk & Lp & Tp & Bp).
  destruct (next_nearest host offset d fuel F0 Sm Hd0 Hf) as (m & Hm & Ln & Tn & Bn).
  assert (Fp : steadyAround host offset (d - k) 7)
    by (apply (steadyAround_sub _ _ _ _ _ _ Fx); lia).
  assert (Fn : steadyAround host offset (d + m) 7)
    by (apply (steadyAround_sub _ _ _ _ _ _ Fx); lia).
  exists (isoOfDay (d - k)), (isoOfDay (d + m)).
  split; [exact Lp|]. split; [exact Ln|].
  assert (Rp : (DayFromYear 1 <= d - k < DayFromYear 9999)%Z).
  { replace (d - k)%Z with (d + - k)%Z by lia. apply M. lia. }
  assert (Rn : (DayFromYear 1 <= d + m < DayFromYear 9999)%Z) by (apply M; lia).
  destruct (next_nearest host offset (d - k) fuel Fp Sm Rp Hf) as (k' & Hk' & Lp' & Tp' & Bp').
  destruct (previous_nearest host offset (d + m) fuel Fn Sm Rn Hf) as (m' & Hm' & Ln' & Tn' & Bn').
  rewrite Lp', Ln'.
  assert (Gk : (k <= k')%Z).
  { destruct (Z.le_gt_cases k k') as [G|G]; [exact G|].
    assert (X : isTradingDay host (isoOfDay (d - (k - k'))) = false) by (apply Bp; lia).
    replace (d - (k - k'))%Z with (d - k + k')%Z in X by lia. congruence. }
  assert (Gm : (m <= m')%Z).
  { destruct (Z.le_gt_cases m m') as [G|G]; [exact G|].
    assert (X : isTradingDay host (isoOfDay (d + (m - m'))) = false) by (apply Bn; lia).
    replace (d + (m - m'))%Z with (d + m - m')%Z in X by lia. congruence. }
  destruct (isTradingDay host (isoOfDay d)) eqn:T.
  - split; do 2 f_equal.
    + destruct (Z.eq_dec k' k) as [->|N]; [lia|].
      assert (X : isTradingDay host (isoOfDay (d - k + k)) = false) by (apply Bp'; lia).
      replace (d - k + k)%Z with d in X by lia. congruence.
    + destruct (Z.eq_dec m' m) as [->|N]; [lia|].
      assert (X : isTradingDay host (isoOfDay (d + m - m)) = false) by (apply Bn'; lia).
      replace (d + m - m)%Z with d in X by lia. congruence.
  - assert (Nk : (k' <> k)%Z).
    { intros ->. replace (d - k + k)%Z with d in Tp' by lia. congruence. }
    assert (Nm : (m' <> m)%Z).
    { intros ->. replace (d + m - m)%Z with d in Tn' by lia. congruence. }
    split; do 2 f_equal.
    + assert (E : (k' - k = m)%Z).
      { apply (nearest_unique host 1 d); try lia.
        - replace (d + 1 * (k' - k))%Z with (d - k + k')%Z by lia. exact Tp'.
        - intros j Hj. replace (d + 1 * j)%Z with (d - k + (k + j))%Z by lia.
          apply Bp'. lia.
        - replace (d + 1 * m)%Z with (d + m)%Z by lia. exact Tn.
        - intros j Hj. replace (d + 1 * j)%Z with (d + j)%Z by lia. now apply Bn. }
      lia.
    + assert (E : (m' - m = k)%Z).
      { apply (nearest_unique host (-1) d); try lia.
        - replace (d + -1 * (m' - m))%Z with (d + m - m')%Z by lia. exact Tn'.
        - intros j Hj. replace (d + -1 * j)%Z with (d + m - (m + j))%Z by lia.
          apply Bn'. lia.
        - replace (d + -1 * k)%Z with (d - k)%Z by lia. exact Tp.
        - intros j Hj. replace (d + -1 * j)%Z with (d - j)%Z by lia. now apply Bp. }
      lia.
Qed.

Lemma trading_day_searches_compose_witness :
  steadyAround Sample.west (-18000000) 20059 12 /\ (- msPerDay < -18000000 < msPerDay)%Z
  /\ (DayFromYear 1 + 5 <= 20059 < DayFromYear 9999 - 5)%Z /\ (5 <= 5)%nat
  /\ exists p n,
       getPreviousTradingDay Sample.west 5 (isoOfDay 20059) = Returned p
       /\ getNextTradingDay Sample.west 5 (isoOfDay 20059) = Returned n
       /\ getNextTradingDay Sample.west 5 p
          = Returned (if isTradingDay Sample.west (isoOfDay 20059) then isoOfDay 20059 else n)
       /\ getPreviousTradingDay Sample.west 5 n
          = Returned (if isTradingDay Sample.west (isoOfDay 20059) then isoOfDay 20059 else p).
Proof.
  assert (F : steadyAround Sample.west (-18000000) 20059 12) by apply fixedHost_steadyAround.
  assert (S : (- msPerDay < -18000000 < msPerDay)%Z) by (split; reflexivity).
  assert (H : (DayFromYear 1 + 5 <= 20059 < DayFromYear 9999 - 5)%Z).
  { split; vm_compute; [discriminate | reflexivity]. }
  split; [exact F|]. split; [exact S|]. split; [exact H|]. split; [exact (le_n 5)|].
  exact (trading_day_searches_compose Sample.west (-18000000) 20059 5 F S H (le_n 5)).
Defined.

(** X2.  On a host whose offset from UTC does not change within a week
    of the first date, [shouldCalculateChanges] always answers, and answers true exactly when
    [isTradingDay] accepts the first date and the second date is the
    nearest date before it that [isTradingDay] accepts. *)
Theorem shouldCalculateChanges_previous_trading_day
    (host : Host) (offset : Z)
    (d : Z) (fuel : nat) (yesterdayStr : string) :
  steadyAround host offset d 7 -> (- msPerDay < offset < msPerDay)%Z ->
  (DayFromYear 1 <= d < DayFromYear 9999)%Z -> (5 <= fuel)%nat ->
  exists b,
    shouldCalculateChanges host fuel (isoOfDay d) yesterdayStr = Returned b
    /\ (b = true <->
        isTradingDay host (isoOfDay d) = true
        /\ exists k, (1 <= k <= 5)%Z
             /\ yesterdayStr = isoOfDay (d - k)
             /\ isTradingDay host (isoOfDay (d - k)) = true
             /\ forall j, (1 <= j < k)%Z -> isTradingDay host (isoOfDay (d - j)) = false).
Proof.
  intros Fx Sm Hd Hf.
  destruct (previous_nearest host offset d fuel Fx Sm Hd Hf) as (k & Hk & L & T & B).
  unfold shouldCalculateChanges. rewrite L.
  destruct (isTradingDay host (isoOfDay d)) eqn:Td; cbn [negb orb].
  - destruct (isTradingDay host yesterdayStr) eqn:Ty; cbn [negb].
    + exists (String.eqb yesterdayStr (isoOfDay (d - k))). split; [reflexivity|].
      split.
      * intros E. apply String.eqb_eq in E. split; [reflexivity|].
        exists k. now repeat split.
      * intros (_ & k' & Hk' & E & T' & B'). apply String.eqb_eq. rewrite E.
        do 2 f_equal.
        apply (nearest_unique host (-1) d); try lia.
        -- replace (d + -1 * k')%Z with (d - k')%Z by lia. exact T'.
        -- intros j Hj. replace (d + -1 * j)%Z with (d - j)%Z by lia. now apply B'.
        -- replace (d + -1 * k)%Z with (d - k)%Z by lia. exact T.
        -- intros j Hj. replace (d + -1 * j)%Z with (d - j)%Z by lia. now apply B.
    + exists false. split; [reflexivity|]. split; [discriminate|].
      intros (_ & k' & _ & E & T' & _). congruence.
  - exists false. split; [reflexivity|]. split; [discriminate|].
    intros (X & _). discriminate X.
Qed.

Lemma shouldCalculateChanges_previous_trading_day_witness :
  steadyAround Sample.utc 0 20059 7 /\ (- msPerDay < 0 < msPerDay)%Z
  /\ (DayFromYear 1 <= 20059 < DayFromYear 9999)%Z /\ (5 <= 5)%nat
  /\ exists b,
       shouldCalculateChanges Sample.utc 5 (isoOfDay 20059) "2024-11-27" = Returned b
       /\ (b = true <->
           isTradingDay Sample.utc (isoOfDay 20059) = true
           /\ exists k, (1 <= k <= 5)%Z
                /\ "2024-11-27" = isoOfDay (20059 - k)
                /\ isTradingDay Sample.utc (isoOfDay (20059 - k)) = true
                /\ forall j, (1 <= j < k)%Z ->
                     isTradingDay Sample.utc (isoOfDay (20059 - j)) = false).
Proof.
  assert (F : steadyAround Sample.utc 0 20059 7) by apply fixedHost_steadyAround.
  assert (S : (- msPerDay < 0 < msPerDay)%Z) by (split; reflexivity).
  assert (H : (DayFromYear 1 <= 20059 < DayFromYear 9999)%Z).
  { split; vm_compute; [discriminate | reflexivity]. }
  split; [exact F|]. split; [exact S|]. split; [exact H|]. split; [exact (le_n 5)|].
  exact (shouldCalculateChanges_previous_trading_day Sample.utc 0 20059 5 "2024-11-27"
           F S H (le_n 5)).
Defined.

(** The listed holidays are date-only strings, which every host reads. *)
Lemma holiday_parses (host : Host) (dateStr : string) :
  In dateStr MARKET_HOLIDAYS -> parse host dateStr <> None.
Proof.
  intros I E. unfold MARKET_HOLIDAYS in I. cbn [In] in I.
  repeat (destruct I as [<- | I]; [vm_compute in E; discriminate E|]).
  exact I.
Qed.

(** A text that the host cannot read as a date gives NaN as weekday, which
    is no weekend, and [toISOString] throws on it. *)
Lemma getNoChangeReason_invalid (host : Host) (fuel : nat) (dateStr : string) :
  (5 <= fuel)%nat -> parse host dateStr = None ->
  isTradingDay host dateStr = true /\ getNoChangeReason host fuel dateStr = Threw.
Proof.
  intros Hf E.
  assert (T : isTradingDay host dateStr = true).
  { unfold isTradingDay. rewrite E. cbn [getDay option_map isWeekend].
    destruct (JS.arrIncludes MARKET_HOLIDAYS dateStr) eqn:I; [|reflexivity].
    apply StringFacts.arrIncludes_In in I. now apply holiday_parses in E. }
  split; [exact T|].
  unfold getNoChangeReason, getPreviousTradingDay. rewrite T, E. cbn [negb].
  destruct fuel as [|fuel]; [inversion Hf|]. reflexivity.
Qed.

(** The days between two dates that lie at most five days apart. *)
Lemma calculateDaysDifference_days (host : Host) (d k : Z) :
  fourDigitYear d -> fourDigitYear (d - k) -> (1 <= k <= 5)%Z ->
  calculateDaysDifference host (isoOfDay (d - k)) (isoOfDay d) = Some k.
Proof.
  intros F Fk Hk. unfold calculateDaysDifference.
  rewrite (parse_isoOfDay host _ Fk), (parse_isoOfDay host _ F). cbn [getTime].
  replace (d * msPerDay - (d - k) * msPerDay)%Z with (k * msPerDay)%Z by lia.
  assert (K : k = 1%Z \/ k = 2%Z \/ k = 3%Z \/ k = 4%Z \/ k = 5%Z) by lia.
  destruct K as [-> | [-> | [-> | [-> | ->]]]]; reflexivity.
Qed.

(** X3.  On a host whose offset from UTC does not change within a week
    of the date, [getNoChangeReason] always answers with one of five
    messages.  On a date that
    [isTradingDay] refuses it is the weekend message when the weekday
    that the host reads is a Saturday or a Sunday, and the holiday message
    otherwise, the date being then a listed holiday; the weekday read is
    that of the date at or east of UTC and that of the day before west of
    UTC.  On a date that [isTradingDay] accepts it is the gap message when
    the previous trading day lies four or five days back, and the
    first-comparison message when it lies at most three days back.  On a
    text in any form that [isTradingDay] refuses, the message goes by the
    weekday that [getDay] reads from it.  A text that the host cannot
    read as a date passes for a trading day, and asking for the reason
    throws. *)
Theorem getNoChangeReason_cases (host : Host) (offset d : Z) (fuel : nat) :
  steadyAround host offset d 7 -> (- msPerDay < offset < msPerDay)%Z ->
  (DayFromYear 1 <= d < DayFromYear 9999)%Z -> (5 <= fuel)%nat ->
  let seen := (if offset <? 0 then d - 1 else d)%Z in
  (exists reason k,
    getNoChangeReason host fuel (isoOfDay d) = Returned reason
    /\ getPreviousTradingDay host fuel (isoOfDay d) = Returned (isoOfDay (d - k))
    /\ calculateDaysDifference host (isoOfDay (d - k)) (isoOfDay d) = Some k
    /\ ((isTradingDay host (isoOfDay d) = false
         /\ (WeekDay seen = 0 \/ WeekDay seen = 6)%Z
         /\ reason = "Markets closed - Weekend")
        \/ (isTradingDay host (isoOfDay d) = false
            /\ WeekDay seen <> 0%Z /\ WeekDay seen <> 6%Z
            /\ In (isoOfDay d) MARKET_HOLIDAYS
            /\ reason = "Markets closed - Holiday")
        \/ (isTradingDay host (isoOfDay d) = true /\ (k <= 3)%Z
            /\ reason = "First trading day comparison")
        \/ (isTradingDay host (isoOfDay d) = true /\ k = 4%Z
            /\ reason = "Markets closed - 4 day gap since last trading day")
        \/ (isTradingDay host (isoOfDay d) = true /\ k = 5%Z
            /\ reason = "Markets closed - 5 day gap since last trading day")))
  /\ (forall dateStr,
        isTradingDay host dateStr = false ->
        getNoChangeReason host fuel dateStr
        = Returned (if isWeekend (getDay host (parse host dateStr))
                    then "Markets closed - Weekend" else "Markets closed - Holiday")
        /\ (isWeekend (getDay host (parse host dateStr)) = false ->
            In dateStr MARKET_HOLIDAYS))
  /\ (forall dateStr,
        parse host dateStr = None ->
        isTradingDay host dateStr = true
        /\ getNoChangeReason host fuel dateStr = Threw).
Proof.
  intros Fx Sm Hd Hf seen.
  split; [|split; [intros dateStr; apply getNoChangeReason_closed
                  | intros dateStr; now apply getNoChangeReason_invalid]].
  destruct (previous_nearest host offset d fuel Fx Sm Hd Hf) as (k & Hk & L & T & B).
  pose proof (fourDigitYear_in d Hd) as F.
  assert (Fk : fourDigitYear (d - k)).
  { replace (d - k)%Z with (d + - k)%Z by lia.
    apply fourDigitYear_near; [exact Hd | lia]. }
  pose proof (calculateDaysDifference_days host d k F Fk Hk) as D.
  destruct (isTradingDay_at host offset d (steadyAround_0 _ _ _ _ Fx ltac:(lia)) Sm Hd)
    as [G C].
  fold seen in G, C.
  assert (R : getNoChangeReason host fuel (isoOfDay d)
              = Returned
                  (if negb (isTradingDay host (isoOfDay d)) then
                     if ((WeekDay seen =? 0) || (WeekDay seen =? 6))%Z
                     then "Markets closed - Weekend" else "Markets closed - Holiday"
                   else if (3 <? k)%Z
                        then "Markets closed - " ++ showZ k
                             ++ " day gap since last trading day"
                        else "First trading day comparison")).
  { unfold getNoChangeReason. rewrite L, D, G. cbn [isWeekend].
    destruct (negb (isTradingDay host (isoOfDay d))).
    - now destruct ((WeekDay seen =? 0) || (WeekDay seen =? 6))%Z.
    - now destruct (3 <? k)%Z. }
  eexists. exists k. split; [exact R|]. split; [exact L|]. split; [exact D|].
  destruct (isTradingDay host (isoOfDay d)) eqn:Td; cbn [negb].
  - destruct (Z.ltb_spec 3 k) as [G3|G3].
    + assert (K : k = 4%Z \/ k = 5%Z) by lia. destruct K as [-> | ->].
      * right. right. right. left. now repeat split.
      * right. right. right. right. now repeat split.
    + right. right. left. now repeat split.
  - pose proof (proj1 C eq_refl) as Cl.
    destruct (Z.eqb_spec (WeekDay seen) 0) as [E0|N0];
      destruct (Z.eqb_spec (WeekDay seen) 6) as [E6|N6]; cbn [orb].
    + lia.
    + left. split; [reflexivity|]. split; [now left | reflexivity].
    + left. split; [reflexivity|]. split; [now right | reflexivity].
    + right. left. split; [reflexivity|]. split; [exact N0|]. split; [exact N6|].
      split; [|reflexivity]. destruct Cl as [X | [X | X]]; [lia | lia | exact X].
Qed.

Lemma getNoChangeReason_cases_witness :
  steadyAround Sample.utc 0 20059 7 /\ (- msPerDay < 0 < msPerDay)%Z
  /\ (DayFromYear 1 <= 20059 < DayFromYear 9999)%Z /\ (5 <= 5)%nat
  /\ exists reason k,
       getNoChangeReason Sample.utc 5 (isoOfDay 20059) = Returned reason
       /\ getPreviousTradingDay Sample.utc 5 (isoOfDay 20059) = Returned (isoOfDay (20059 - k)).
Proof.
  assert (F : steadyAround Sample.utc 0 20059 7) by apply fixedHost_steadyAround.
  assert (S : (- msPerDay < 0 < msPerDay)%Z) by (split; reflexivity).
  assert (H : (DayFromYear 1 <= 20059 < DayFromYear 9999)%Z).
  { split; vm_compute; [discriminate | reflexivity]. }
  split; [exact F|]. split; [exact S|]. split; [exact H|]. split; [exact (le_n 5)|].
  destruct (proj1 (getNoChangeReason_cases Sample.utc 0 20059 5 F S H (le_n 5)))
    as (reason & k & R & P & _).
  exists reason, k. split; [exact R | exact P].
Defined.

(** At UTC, Monday 2 December 2024 comes five days after the last trading
    day; five hours west of it, Monday 16 December 2024 passes for a
    weekend. *)
Example getNoChangeReason_samples :
  getNoChangeReason Sample.utc 5 "2024-12-02"
  = Returned "Markets closed - 5 day gap since last trading day"
  /\ getNoChangeReason Sample.utc 5 "2024-12-14" = Returned "Markets closed - Weekend"
  /\ getNoChangeReason Sample.utc 5 "2024-12-25" = Returned "Markets closed - Holiday"
  /\ getNoChangeReason Sample.west 5 "2024-12-16" = Returned "Markets closed - Weekend"
  /\ getNoChangeReason Sample.westSlash 5 "12/14/2024" = Returned "Markets closed - Weekend"
  /\ getNoChangeReason Sample.utc 5 "next Monday" = Threw.
Proof. repeat split; reflexivity. Qed.

Module NextDaysFacts.

Import DateModel CalendarFacts TradingFacts SearchFacts.

Local Open Scope Z_scope.

Lemma last_cons {A : Type} (a d : A) (l : list A) : last (a :: l) d = last l a.
Proof.
  revert a d. induction l as [|b l IH]; intros a d; [reflexivity|].
  change (last (a :: b :: l) d) with (last (b :: l) d).
  now rewrite (IH b d), (IH b a).
Qed.

Lemma nextTradingDaysFrom_days (host : Host) (offset : Z) (fuel : nat) :
  - msPerDay < offset < msPerDay ->
  (5 <= fuel)%nat ->
  forall (count : nat) (d : Z) (acc : list string),
    steady host offset ((d - 7) * msPerDay) ((d + 5 * Z.of_nat count + 7) * msPerDay) ->
    DayFromYear 1 <= d -> d + 5 * Z.of_nat count < DayFromYear 9999 ->
    exists days : list Z,
      nextTradingDaysFrom host fuel count (isoOfDay d) acc
      = Returned (acc ++ map isoOfDay days)%list
      /\ List.length days = count
      /\ Sorted Z.lt (d :: days)
      /\ (forall e, In e days ->
            e <= d + 5 * Z.of_nat count /\ isTradingDay host (isoOfDay e) = true)
      /\ (forall e, d < e <= last days d -> isTradingDay host (isoOfDay e) = true ->
            In e days).
Proof.
  intros Sm Hf. induction count as [|count IH]; intros d acc St Lo Hi.
  - exists []. cbn [nextTradingDaysFrom map]. rewrite app_nil_r.
    split; [reflexivity|]. split; [reflexivity|].
    split; [repeat constructor|]. split; [intros e []|].
    cbn [last]. intros e He. lia.
  - rewrite Nat2Z.inj_succ in Hi, St.
    assert (Hd : DayFromYear 1 <= d < DayFromYear 9999) by lia.
    assert (Fx : steadyAround host offset d 7).
    { unfold steadyAround. apply (steady_sub _ _ _ _ _ _ St); unfold msPerDay; lia. }
    destruct (next_nearest host offset d fuel Fx Sm Hd Hf) as (k & Hk & L & T & B).
    assert (Lo' : DayFromYear 1 <= d + k) by lia.
    assert (Hi' : d + k + 5 * Z.of_nat count < DayFromYear 9999) by lia.
    assert (St' : steady host offset ((d + k - 7) * msPerDay)
                    ((d + k + 5 * Z.of_nat count + 7) * msPerDay)).
    { apply (steady_sub _ _ _ _ _ _ St); unfold msPerDay; lia. }
    destruct (IH (d + k) (acc ++ [isoOfDay (d + k)])%list St' Lo' Hi')
      as (days & E & Len & S & Tr & Ex).
    rewrite Nat2Z.inj_succ.
    exists ((d + k) :: days).
    cbn [nextTradingDaysFrom]. rewrite L, E. cbn [map].
    rewrite <- app_assoc. cbn [app].
    split; [reflexivity|]. split; [cbn [List.length]; now rewrite Len|].
    split; [constructor; [exact S | constructor; lia]|]. split.
    + intros e [<- | He]; [split; [lia | exact T]|].
      destruct (Tr e He) as [Le Te]. split; [lia | exact Te].
    + rewrite last_cons. intros e He Te.
      destruct (Z.lt_trichotomy e (d + k)) as [Lt | [Eq | Gt]].
      * assert (X : isTradingDay host (isoOfDay (d + (e - d))) = false) by (apply B; lia).
        replace (d + (e - d)) with e in X by lia. congruence.
      * left. now symmetry.
      * right. apply Ex; [lia | exact Te].
Qed.

End NextDaysFacts.

(** X4.  On a host whose offset from UTC does not change from a week
    before the start date to a week after the last day that the search
    can reach, [getNextTradingDays(start, count)] returns [count] dates: the dates
    after the start date that [isTradingDay] accepts, in ascending order
    and without a gap, so that every such date after the start and up to
    the last date returned is in the list. *)
Theorem getNextTradingDays_lists_trading_days
    (host : Host) (offset d : Z) (fuel count : nat) :
  steady host offset ((d - 7) * msPerDay)%Z ((d + 5 * Z.of_nat count + 7) * msPerDay)%Z ->
  (- msPerDay < offset < msPerDay)%Z ->
  (DayFromYear 1 <= d)%Z -> (d + 5 * Z.of_nat count < DayFromYear 9999)%Z ->
  (5 <= fuel)%nat ->
  exists days : list Z,
    getNextTradingDays host fuel (isoOfDay d) count = Returned (map isoOfDay days)
    /\ List.length days = count
    /\ Sorted Z.lt (d :: days)
    /\ (forall e, In e days -> isTradingDay host (isoOfDay e) = true)
    /\ (forall e, (d < e <= last days d)%Z -> isTradingDay host (isoOfDay e) = true ->
          In e days).
Proof.
  intros Fx Sm Lo Hi Hf.
  destruct (NextDaysFacts.nextTradingDaysFrom_days host offset fuel Sm Hf count d [] Fx Lo Hi)
    as (days & E & Len & S & Tr & Ex).
  exists days. split; [exact E|]. split; [exact Len|]. split; [exact S|].
  split; [|exact Ex]. intros e He. now destruct (Tr e He).
Qed.

Lemma getNextTradingDays_lists_trading_days_witness :
  steady Sample.utc 0 ((20054 - 7) * msPerDay)%Z ((20054 + 5 * Z.of_nat 3 + 7) * msPerDay)%Z
  /\ (- msPerDay < 0 < msPerDay)%Z
  /\ (DayFromYear 1 <= 20054)%Z /\ (20054 + 5 * Z.of_nat 3 < DayFromYear 9999)%Z
  /\ (5 <= 5)%nat
  /\ exists days : list Z,
       getNextTradingDays Sample.utc 5 (isoOfDay 20054) 3 = Returned (map isoOfDay days)
       /\ List.length days = 3%nat.
Proof.
  assert (F : steady Sample.utc 0 ((20054 - 7) * msPerDay)%Z
                ((20054 + 5 * Z.of_nat 3 + 7) * msPerDay)%Z) by apply fixedHost_steady.
  assert (S : (- msPerDay < 0 < msPerDay)%Z) by (split; reflexivity).
  assert (H1 : (DayFromYear 1 <= 20054)%Z) by (vm_compute; discriminate).
  assert (H2 : (20054 + 5 * Z.of_nat 3 < DayFromYear 9999)%Z) by (vm_compute; reflexivity).
  split; [exact F|]. split; [exact S|].
  split; [exact H1|]. split; [exact H2|]. split; [exact (le_n 5)|].
  destruct (getNextTradingDays_lists_trading_days Sample.utc 0 20054 5 3 F S H1 H2 (le_n 5))
    as (days & E & Len & _).
  exists days. split; [exact E | exact Len].
Defined.

(** Wednesday 27 November 2024 is followed by Thanksgiving, the day after
    it and a weekend.  Five hours west of UTC the Saturday is taken for a
    trading day, and the Monday is not. *)
Example next_trading_days_after_thanksgiving_eve :
  getNextTradingDays Sample.utc 5 "2024-11-27" 3
  = Returned ["2024-12-02"; "2024-12-03"; "2024-12-04"]
  /\ getNextTradingDays Sample.west 5 "2024-11-27" 3
     = Returned ["2024-11-30"; "2024-12-03"; "2024-12-04"].
Proof. split; vm_compute; reflexivity. Qed.

(** Five hours west of UTC in December 2024: Friday 13 and Monday 16 are
    no consecutive trading days, the Saturday follows the Friday, and the
    detector compares Tuesday 17 with the Saturday and fetches nothing on
    the Monday.  A Saturday given as [12/14/2024] is read in local time
    and refused. *)
Example west_of_utc_traces :
  shouldCalculateChanges Sample.utc 5 "2024-12-16" "2024-12-13" = Returned true
  /\ shouldCalculateChanges Sample.west 5 "2024-12-16" "2024-12-13" = Returned false
  /\ getNextTradingDays Sample.west 5 "2024-12-13" 1 = Returned ["2024-12-14"]
  /\ snd (detectChanges Sample.west Sample.twoDays "2024-12-16" Sample.collate 5
            (Some "2024-12-17") [])
     = ["2024-12-17"; "2024-12-14"]
  /\ snd (detectChanges Sample.west Sample.twoDays "2024-12-16" Sample.collate 5
            (Some "2024-12-16") [])
     = []
  /\ snd (detectChanges Sample.utc Sample.twoDays "2024-12-16" Sample.collate 5
            (Some "2024-12-16") [])
     = ["2024-12-16"; "2024-12-13"]
  /\ isTradingDay Sample.westSlash "12/14/2024" = false
  /\ snd (detectChanges Sample.westSlash Sample.twoDays "2024-12-16" Sample.collate 5
            (Some "12/14/2024") [])
     = [].
Proof. repeat split; vm_compute; reflexivity. Qed.

(** ** Change detector: what a comparison reports *)

Module ReportFacts.

Import StringFacts LookupFacts.

Lemma NoDup_uniq (l : list string) : NoDup (JS.uniq l).
Proof.
  induction l as [|x l IH]; simpl; constructor.
  - rewrite filter_In. intros [_ H]. now rewrite String.eqb_refl in H.
  - now apply NoDup_filter.
Qed.

Lemma uniq_NoDup (l : list string) : NoDup l -> JS.uniq l = l.
Proof.
  induction 1 as [|x l N _ IH]; simpl; [reflexivity|].
  rewrite IH. f_equal. apply forallb_filter_id. apply forallb_forall.
  intros y Hy. destruct (String.eqb_spec x y) as [->|]; [contradiction | reflexivity].
Qed.

Lemma uniq_idem (l : list string) : JS.uniq (JS.uniq l) = JS.uniq l.
Proof. apply uniq_NoDup, NoDup_uniq. Qed.

Lemma arrIncludes_uniq (l : list string) (h : string) :
  JS.arrIncludes (JS.uniq l) h = JS.arrIncludes l h.
Proof.
  destruct (JS.arrIncludes l h) eqn:E.
  - apply arrIncludes_In. apply In_uniq. now apply arrIncludes_In.
  - apply arrIncludes_false. rewrite In_uniq. now apply arrIncludes_false.
Qed.

(** [[...new Set(l.concat([h]))]] *)
Lemma uniq_snoc (l : list string) (h : string) :
  JS.uniq (l ++ [h])
  = if JS.arrIncludes l h then JS.uniq l else (JS.uniq l ++ [h])%list.
Proof.
  induction l as [|x l IH]; [reflexivity|].
  cbn [app JS.uniq]. rewrite IH. unfold JS.arrIncludes. cbn [existsb].
  fold (JS.arrIncludes l h).
  destruct (String.eqb_spec h x) as [->|N]; cbn [orb].
  - destruct (JS.arrIncludes l x); [reflexivity|].
    rewrite filter_app. cbn [filter]. rewrite String.eqb_refl. cbn [negb].
    now rewrite app_nil_r.
  - destruct (JS.arrIncludes l h); [reflexivity|].
    rewrite filter_app. cbn [filter].
    destruct (String.eqb_spec x h) as [E|_]; [now subst|]. reflexivity.
Qed.

(** The guarded pushes of the addition loop build the list that [Set]
    makes of the plain pushes of the removal loop. *)
Lemma addedLoop_uniq (a b hs : list string) :
  addedLoop a b hs = JS.uniq (removedLoop a b hs).
Proof.
  unfold addedLoop, removedLoop.
  assert (G : forall acc,
    fold_left
      (fun added todaySymbol =>
         if negb (JS.arrIncludes b todaySymbol) then
           match find (fun h => JS.startsWith h todaySymbol) hs with
           | Some addedHolding =>
               if JS.truthy addedHolding && negb (JS.arrIncludes added addedHolding)
               then (added ++ [addedHolding])%list else added
           | None => added
           end
         else added) a (JS.uniq acc)
    = JS.uniq
        (fold_left
           (fun removed yesterdaySymbol =>
              if negb (JS.arrIncludes b yesterdaySymbol) then
                match find (fun h => JS.startsWith h yesterdaySymbol) hs with
                | Some removedHolding =>
                    if JS.truthy removedHolding
                    then (removed ++ [removedHolding])%list else removed
                | None => removed
                end
              else removed) a acc)).
  { induction a as [|s a IH]; intros acc; cbn [fold_left]; [reflexivity|].
    destruct (negb (JS.arrIncludes b s)); [|apply IH].
    destruct (find (fun h => JS.startsWith h s) hs) as [r|]; [|apply IH].
    destruct (JS.truthy r); cbn [andb]; [|apply IH].
    rewrite <- IH, uniq_snoc, arrIncludes_uniq.
    now destruct (JS.arrIncludes acc r). }
  apply (G []).
Qed.

End ReportFacts.

(** X5.  A comparison never reports a holding twice, and never one that the
    day's holdings list lacks: an added holding is a holding of today's
    text that begins with a symbol of today's text absent from the
    previous day's, a removed holding is one of the previous day's text.
    A model with no model of the previous day to compare with has no
    removed holding. *)
Theorem compareModelHoldings_reports_listed_holdings
    (todayModel : ModelData) (yesterdayModel : option ModelData)
    (acct day : string) :
  let c := compareModelHoldings todayModel yesterdayModel acct day in
  let todayText := portfolio (performance todayModel) in
  NoDup (addedHoldings c) /\ NoDup (removedHoldings c)
  /\ (forall h, In h (addedHoldings c) ->
        In h (extractHoldingsFromPortfolio todayText)
        /\ exists s, In s (extractSecuritySymbols todayText)
             /\ JS.startsWith h s = true
             /\ (forall y, yesterdayModel = Some y ->
                   ~ In s (extractSecuritySymbols (portfolio (performance y)))))
  /\ (forall h, In h (removedHoldings c) ->
        exists y, yesterdayModel = Some y
          /\ In h (extractHoldingsFromPortfolio (portfolio (performance y)))
          /\ exists s, In s (extractSecuritySymbols (portfolio (performance y)))
               /\ JS.startsWith h s = true
               /\ ~ In s (extractSecuritySymbols todayText))
  /\ (yesterdayModel = None -> removedHoldings c = [])
  /\ modelName c = name todayModel /\ accountName c = acct /\ date c = day.
Proof.
  intros c todayText. unfold c, compareModelHoldings.
  cbn [addedHoldings removedHoldings modelName accountName date].
  rewrite !StringFacts.orElse_empty. fold todayText.
  split; [apply ReportFacts.NoDup_uniq|]. split; [apply ReportFacts.NoDup_uniq|].
  split; [|split; [|split; [|repeat split]]].
  - intros h H. apply LookupFacts.In_uniq, LookupFacts.In_addedLoop in H.
    destruct H as (s & Is & N & F & _).
    apply find_some in F as [I S]. split; [exact I|].
    exists s. split; [exact Is|]. split; [exact S|].
    intros y ->. rewrite StringFacts.orElse_empty in N.
    now apply LookupFacts.arrIncludes_false.
  - intros h H. apply LookupFacts.In_uniq, LookupFacts.In_removedLoop in H.
    destruct H as (s & Is & N & F & _).
    destruct yesterdayModel as [y|]; [|contradiction].
    rewrite StringFacts.orElse_empty in *.
    apply find_some in F as [I S]. exists y. split; [reflexivity|].
    split; [exact I|]. exists s. split; [exact Is|]. split; [exact S|].
    now apply LookupFacts.arrIncludes_false.
  - now intros ->.
Qed.

(** X6.  Exchanging the two days exchanges the two lists: what a comparison
    reports as added is, holding for holding and in the same order, what
    the comparison in the other direction reports as removed. *)
Theorem compareModelHoldings_exchange
    (a b : ModelData) (acct acct' day day' : string) :
  addedHoldings (compareModelHoldings a (Some b) acct day)
  = removedHoldings (compareModelHoldings b (Some a) acct' day')
  /\ removedHoldings (compareModelHoldings a (Some b) acct day)
     = addedHoldings (compareModelHoldings b (Some a) acct' day').
Proof.
  unfold compareModelHoldings. cbn [addedHoldings removedHoldings].
  rewrite !ReportFacts.addedLoop_uniq, !ReportFacts.uniq_idem. split; reflexivity.
Qed.

(** ** Change detector: the summary of the alert *)

Module AlertFacts.

Import DetectFacts.

Lemma insertBy_perm {A : Type} (cmp : A -> A -> Z) (x : A) (l : list A) :
  Permutation (JS.insertBy cmp x l) (x :: l).
Proof.
  induction l as [|y l IH]; simpl; [reflexivity|].
  destruct (cmp x y <=? 0)%Z; [reflexivity|].
  rewrite IH. apply perm_swap.
Qed.

Lemma sortBy_perm {A : Type} (cmp : A -> A -> Z) (l : list A) :
  Permutation (JS.sortBy cmp l) l.
Proof.
  induction l as [|x l IH]; simpl; [constructor|].
  unfold JS.sortBy in *. simpl. rewrite insertBy_perm. now constructor.
Qed.

Lemma defaultCompare_total (a b : string) :
  (JS.defaultCompare a b <= 0)%Z \/ (JS.defaultCompare b a <= 0)%Z.
Proof.
  unfold JS.defaultCompare. rewrite (String.compare_antisym b a).
  destruct (String.compare a b); simpl; lia.
Qed.

(** A sorted list without duplicates ascends strictly. *)
Lemma sorted_strict (l : list string) :
  Sorted (fun a b => (JS.defaultCompare a b <= 0)%Z) l -> NoDup l ->
  Sorted (fun a b => String.compare a b = Lt) l.
Proof.
  induction 1 as [|x l S IH H]; intros N; constructor.
  - apply IH. now inversion N.
  - destruct H as [|y l H]; constructor.
    unfold JS.defaultCompare in H.
    destruct (String.compare x y) eqn:E; [|reflexivity|simpl in H; lia].
    apply String.compare_eq_iff in E. subst.
    inversion N as [|? ? X]; subst. exfalso. apply X. now left.
Qed.

Section Summary.

Variables (today : string) (todayPortfolios previousPortfolios : list AccountPortfolio.t).

(** What the two lists built by the loops keep. *)
Let inv (st : list PortfolioChange * list string) : Prop :=
  NoDup (snd st)
  /\ (forall x, In x (snd st) <-> exists c, In c (fst st) /\ accountName c = x)
  /\ (forall c, In c (fst st) ->
        date c = today
        /\ exists todayAccount,
             In todayAccount todayPortfolios
             /\ accountName c = AccountPortfolio.accountName todayAccount).

Lemma push_inv (changes : list PortfolioChange) (affected : list string)
    (c : PortfolioChange) (todayAccount : AccountPortfolio.t) :
  inv (changes, affected) ->
  In todayAccount todayPortfolios ->
  accountName c = AccountPortfolio.accountName todayAccount -> date c = today ->
  inv ((changes ++ [c])%list,
       pushAffected affected (AccountPortfolio.accountName todayAccount)).
Proof.
  intros (N & A & D) I Ec Ed. unfold inv in *. cbn [fst snd] in *.
  unfold pushAffected.
  destruct (JS.arrIncludes affected (AccountPortfolio.accountName todayAccount)) eqn:E.
  - apply StringFacts.arrIncludes_In in E. split; [exact N|]. split.
    + intros x. rewrite A. split.
      * intros (c0 & H & X). exists c0. split; [apply in_or_app; now left | exact X].
      * intros (c0 & H & X). apply in_app_or in H as [H | [<- | []]].
        -- now exists c0.
        -- apply A. congruence.
    + intros c0 H. apply in_app_or in H as [H | [<- | []]]; [now apply D|].
      split; [exact Ed|]. now exists todayAccount.
  - apply LookupFacts.arrIncludes_false in E. split; [|split].
    + apply NoDup_app; [exact N | repeat constructor; intros [] |].
      intros x H [<- | []]. contradiction.
    + intros x. rewrite in_app_iff, A. cbn [In]. split.
      * intros [(c0 & H & X) | [<- | []]].
        -- exists c0. split; [apply in_or_app; now left | exact X].
        -- exists c. split; [apply in_or_app; right; now left | exact Ec].
      * intros (c0 & H & X). apply in_app_or in H as [H | [<- | []]].
        -- left. now exists c0.
        -- right. left. congruence.
    + intros c0 H. apply in_app_or in H as [H | [<- | []]]; [now apply D|].
      split; [exact Ed|]. now exists todayAccount.
Qed.

Lemma todayModelStep_inv todayAccount previousAccount st todayModel :
  In todayAccount todayPortfolios -> inv st ->
  inv (todayModelStep today todayAccount previousAccount st todayModel).
Proof.
  intros I G. destruct st as [changes affected]. unfold todayModelStep.
  set (mc := compareModelHoldings _ _ _ _).
  destruct ((0 <? List.length (addedHoldings mc))%nat
            || (0 <? List.length (removedHoldings mc))%nat); [|exact G].
  apply push_inv; [exact G | exact I | reflexivity | reflexivity].
Qed.

Lemma previousModelStep_inv todayAccount st previousModel :
  In todayAccount todayPortfolios -> inv st ->
  inv (previousModelStep today todayAccount st previousModel).
Proof.
  intros I G. destruct st as [changes affected]. unfold previousModelStep.
  destruct (findModel _ _); [exact G|].
  apply push_inv; [exact G | exact I | reflexivity | reflexivity].
Qed.

Lemma accountStep_inv st todayAccount :
  In todayAccount todayPortfolios -> inv st ->
  inv (accountStep today previousPortfolios st todayAccount).
Proof.
  intros I G. unfold accountStep.
  set (pa := findAccount _ _).
  assert (G1 : inv (fold_left (todayModelStep today todayAccount pa)
                      (AccountPortfolio.models todayAccount) st)).
  { revert st G. induction (AccountPortfolio.models todayAccount) as [|m ms IH];
      intros st G; cbn [fold_left]; [exact G|].
    apply IH. now apply todayModelStep_inv. }
  destruct pa as [p|]; [|exact G1].
  revert G1. generalize (fold_left (todayModelStep today todayAccount (Some p))
                           (AccountPortfolio.models todayAccount) st).
  induction (AccountPortfolio.models p) as [|m ms IH]; intros st1 G1;
    cbn [fold_left]; [exact G1|].
  apply IH. now apply previousModelStep_inv.
Qed.

Lemma accounts_inv :
  forall accounts st,
    (forall a, In a accounts -> In a todayPortfolios) -> inv st ->
    inv (fold_left (accountStep today previousPortfolios) accounts st).
Proof.
  induction accounts as [|a accounts IH]; intros st S G; cbn [fold_left]; [exact G|].
  apply IH; [intros x Hx; apply S; now right|].
  apply accountStep_inv; [apply S; now left | exact G].
Qed.

Lemma start_inv : inv ([], []).
Proof.
  split; [constructor|]. split; [|intros c []].
  intros x. split; [intros [] | intros (c & [] & _)].
Qed.

End Summary.

Lemma compareChanges_total (localeCompare : string -> string -> Z) :
  (forall a b, (localeCompare a b <= 0)%Z \/ (localeCompare b a <= 0)%Z) ->
  forall a b : PortfolioChange,
    (compareChanges localeCompare a b <= 0)%Z \/ (compareChanges localeCompare b a <= 0)%Z.
Proof.
  intros T a b. unfold compareChanges.
  rewrite (String.eqb_sym (accountName b) (accountName a)).
  destruct (String.eqb (accountName a) (accountName b)); cbn [negb]; apply T.
Qed.

End AlertFacts.

(** X7.  The summary of an alert agrees with its changes: [totalChanges]
    counts them, [hasChanges] says whether there is one, and
    [affectedAccounts] lists, in ascending code unit order and each once,
    exactly the account names of the changes.  Every change carries the
    date of the alert and the name of one of today's accounts. *)
Theorem detectChanges_alert_summary
    (host : DateModel.Host)
    (getAccountPortfolios : string -> outcome (list AccountPortfolio.t))
    (now : string) (localeCompare : string -> string -> Z)
    (fuel : nat) (todayDate : option string) (log log' : list string)
    (alert : ChangeAlert.t) :
  detectChanges host getAccountPortfolios now localeCompare fuel todayDate log
    = (Returned alert, log') ->
  ChangeAlert.date alert = resolveToday now todayDate
  /\ ChangeAlert.totalChanges alert = List.length (ChangeAlert.changes alert)
  /\ (ChangeAlert.hasChanges alert = true <-> ChangeAlert.changes alert <> [])
  /\ Sorted (fun a b => String.compare a b = Lt) (ChangeAlert.affectedAccounts alert)
  /\ NoDup (ChangeAlert.affectedAccounts alert)
  /\ (forall x, In x (ChangeAlert.affectedAccounts alert) <->
        exists c, In c (ChangeAlert.changes alert) /\ accountName c = x)
  /\ (forall c, In c (ChangeAlert.changes alert) ->
        date c = ChangeAlert.date alert
        /\ exists todayPortfolios todayAccount,
             getAccountPortfolios (ChangeAlert.date alert) = Returned todayPortfolios
             /\ In todayAccount todayPortfolios
             /\ accountName c = AccountPortfolio.accountName todayAccount).
Proof.
  unfold detectChanges. set (today := resolveToday now todayDate).
  destruct (isTradingDay host today); cbn [negb].
  - unfold bind, lift.
    destruct (getPreviousTradingDay host fuel today) as [prev| |]; try discriminate.
    unfold fetchBoth.
    destruct (getAccountPortfolios today) as [tp| |] eqn:Et;
      destruct (getAccountPortfolios prev) as [pp| |] eqn:Ep; try discriminate.
    pose proof (AlertFacts.accounts_inv today tp pp tp ([], []) (fun a H => H)
                  (AlertFacts.start_inv today tp)) as G.
    destruct (fold_left (accountStep today pp) tp ([], [])) as [changes affected].
    destruct G as (N & A & D). cbn [fst snd] in *.
    unfold ret. intros H. injection H as <- _.
    cbn [ChangeAlert.date ChangeAlert.totalChanges ChangeAlert.changes
         ChangeAlert.hasChanges ChangeAlert.affectedAccounts].
    assert (N' : NoDup (JS.sortBy JS.defaultCompare affected)).
    { apply (Permutation_NoDup (l := affected)); [|exact N].
      symmetry. apply AlertFacts.sortBy_perm. }
    split; [reflexivity|]. split; [reflexivity|]. split; [|split; [|split; [|split]]].
    + destruct (JS.sortBy (compareChanges localeCompare) changes); simpl;
        split; intros X; solve [reflexivity | discriminate | now contradiction X].
    + apply AlertFacts.sorted_strict; [|exact N'].
      apply (AssemblerFacts.sortBy_sorted JS.defaultCompare AlertFacts.defaultCompare_total).
    + exact N'.
    + intros x. rewrite DetectFacts.In_sortBy, A. split; intros (c & H & X); exists c.
      * split; [now apply DetectFacts.In_sortBy | exact X].
      * split; [now apply DetectFacts.In_sortBy in H | exact X].
    + intros c H. apply DetectFacts.In_sortBy in H.
      destruct (D c H) as (Ed & ta & Ia & Ea). split; [exact Ed|].
      exists tp, ta. now repeat split.
  - unfold bind, lift. destruct (getNoChangeReason host fuel today); try discriminate.
    unfold ret. intros H. injection H as <- _.
    cbn [ChangeAlert.date ChangeAlert.totalChanges ChangeAlert.changes
         ChangeAlert.hasChanges ChangeAlert.affectedAccounts].
    split; [reflexivity|]. split; [reflexivity|].
    split; [split; [discriminate | intros X; now contradiction X]|].
    split; [constructor|]. split; [constructor|].
    split; [|intros c []].
    intros x. split; [intros [] | intros (c & [] & _)].
Qed.

Lemma detectChanges_alert_summary_witness :
  exists alert log',
    detectChanges Sample.utc Sample.twoDays "2024-12-16" Sample.collate 5 None [] = (Returned alert, log')
    /\ ChangeAlert.totalChanges alert = List.length (ChangeAlert.changes alert)
    /\ NoDup (ChangeAlert.affectedAccounts alert).
Proof.
  eexists. eexists. split; [vm_compute; reflexivity|].
  match goal with
  | |- ChangeAlert.totalChanges ?a = _ /\ _ =>
      eassert (E : detectChanges Sample.utc Sample.twoDays "2024-12-16" Sample.collate 5 None []
                   = (Returned a, _)) by (vm_compute; reflexivity)
  end.
  destruct (detectChanges_alert_summary _ _ _ _ _ _ _ _ _ E) as (_ & T & _ & _ & N & _).
  split; [exact T | exact N].
Defined.

(** X8.  The changes of an alert are in the order of their account names and,
    under one account name, of their model names, as the collation of
    the runtime compares them. *)
Theorem detectChanges_changes_sorted
    (host : DateModel.Host)
    (getAccountPortfolios : string -> outcome (list AccountPortfolio.t))
    (now : string) (localeCompare : string -> string -> Z)
    (fuel : nat) (todayDate : option string) (log log' : list string)
    (alert : ChangeAlert.t) :
  (forall a b, (localeCompare a b <= 0)%Z \/ (localeCompare b a <= 0)%Z) ->
  detectChanges host getAccountPortfolios now localeCompare fuel todayDate log
    = (Returned alert, log') ->
  Sorted (fun a b =>
            if String.eqb (accountName a) (accountName b)
            then (localeCompare (modelName a) (modelName b) <= 0)%Z
            else (localeCompare (accountName a) (accountName b) <= 0)%Z)
         (ChangeAlert.changes alert).
Proof.
  intros T. unfold detectChanges.
  destruct (isTradingDay host _); cbn [negb]; unfold bind, lift.
  - destruct (getPreviousTradingDay host fuel _) as [prev| |]; try discriminate.
    unfold fetchBoth.
    destruct (getAccountPortfolios _) as [tp| |];
      destruct (getAccountPortfolios prev) as [pp| |]; try discriminate.
    destruct (fold_left _ tp ([], [])) as [changes affected].
    unfold ret. intros H. injection H as <- _. cbn [ChangeAlert.changes].
    pose proof (AssemblerFacts.sortBy_sorted (compareChanges localeCompare)
                  (AlertFacts.compareChanges_total localeCompare T) changes) as S.
    induction S as [|x l S IH H]; constructor; [exact IH|].
    destruct H as [|y l H]; constructor.
    unfold compareChanges in H.
    now destruct (String.eqb (accountName x) (accountName y)).
  - destruct (getNoChangeReason host fuel _); try discriminate.
    unfold ret. intros H. injection H as <- _. constructor.
Qed.

Lemma detectChanges_changes_sorted_witness :
  (forall a b, (Sample.collate a b <= 0)%Z \/ (Sample.collate b a <= 0)%Z)
  /\ exists alert log',
       detectChanges Sample.utc Sample.twoDays "2024-12-16" Sample.collate 5 None []
       = (Returned alert, log')
       /\ Sorted (fun a b =>
                    if String.eqb (accountName a) (accountName b)
                    then (Sample.collate (modelName a) (modelName b) <= 0)%Z
                    else (Sample.collate (accountName a) (accountName b) <= 0)%Z)
                 (ChangeAlert.changes alert).
Proof.
  split; [exact AssemblerFacts.collate_total|].
  eexists. eexists. split; [vm_compute; reflexivity|].
  eapply (detectChanges_changes_sorted Sample.utc Sample.twoDays "2024-12-16" Sample.collate 5
            None [] _ _ AssemblerFacts.collate_total).
  vm_compute. reflexivity.
Defined.

(** X9.  On a host whose offset from UTC does not change within a week
    of the date, and on a date that [isTradingDay] accepts, [detectChanges] asks the account service for
    two days, today first and then the nearest earlier date that
    [isTradingDay] accepts, whatever the service answers; it returns an
    alert, with that date as its comparison date, when both answers
    arrive, and only then: a failure of either fetch is not swallowed. *)
Theorem detectChanges_fetches_today_and_previous
    (host : Host) (offset : Z)
    (getAccountPortfolios : string -> outcome (list AccountPortfolio.t))
    (now : string) (localeCompare : string -> string -> Z)
    (fuel : nat) (d : Z) (log : list string) :
  steadyAround host offset d 7 -> (- msPerDay < offset < msPerDay)%Z ->
  (DayFromYear 1 <= d < DayFromYear 9999)%Z ->
  isTradingDay host (isoOfDay d) = true -> (5 <= fuel)%nat ->
  exists k, (1 <= k <= 5)%Z
    /\ isTradingDay host (isoOfDay (d - k)) = true
    /\ (forall j, (1 <= j < k)%Z -> isTradingDay host (isoOfDay (d - j)) = false)
    /\ snd (detectChanges host getAccountPortfolios now localeCompare fuel
              (Some (isoOfDay d)) log)
       = (log ++ [isoOfDay d; isoOfDay (d - k)])%list
    /\ (forall todayPortfolios previousPortfolios,
          getAccountPortfolios (isoOfDay d) = Returned todayPortfolios ->
          getAccountPortfolios (isoOfDay (d - k)) = Returned previousPortfolios ->
          exists alert,
            fst (detectChanges host getAccountPortfolios now localeCompare fuel
                   (Some (isoOfDay d)) log) = Returned alert
            /\ ChangeAlert.date alert = isoOfDay d
            /\ ChangeAlert.comparisonDate alert = Some (isoOfDay (d - k)))
    /\ (forall alert,
          fst (detectChanges host getAccountPortfolios now localeCompare fuel
                 (Some (isoOfDay d)) log) = Returned alert ->
          exists todayPortfolios previousPortfolios,
            getAccountPortfolios (isoOfDay d) = Returned todayPortfolios
            /\ getAccountPortfolios (isoOfDay (d - k)) = Returned previousPortfolios).
Proof.
  intros Fx Sm Hd T Hf.
  destruct (previous_nearest host offset d fuel Fx Sm Hd Hf) as (k & Hk & L & Tk & B).
  exists k. split; [exact Hk|]. split; [exact Tk|]. split; [exact B|].
  pose proof (resolveToday_iso now d (fourDigitYear_in d Hd)) as R.
  unfold detectChanges. rewrite R, T. cbn [negb].
  unfold bind, lift. rewrite L. unfold fetchBoth.
  destruct (getAccountPortfolios (isoOfDay d)) as [tp| |];
    destruct (getAccountPortfolios (isoOfDay (d - k))) as [pp| |]; cbn [fst snd];
    try (split; [reflexivity|]; split; [intros ? ? ? ?; discriminate|];
         intros ? ?; discriminate).
  destruct (fold_left _ tp _) as [changes affected]. unfold ret. cbn [fst snd].
  split; [reflexivity|]. split.
  - intros ? ? _ _. eexists. split; [reflexivity|]. split; reflexivity.
  - intros ? _. now exists tp, pp.
Qed.

Lemma detectChanges_fetches_today_and_previous_witness :
  steadyAround Sample.utc 0 20059 7 /\ (- msPerDay < 0 < msPerDay)%Z
  /\ (DayFromYear 1 <= 20059 < DayFromYear 9999)%Z
  /\ isTradingDay Sample.utc (isoOfDay 20059) = true /\ (5 <= 5)%nat
  /\ exists k, (1 <= k <= 5)%Z
       /\ snd (detectChanges Sample.utc Sample.twoDays "2024-12-16" Sample.collate 5
                 (Some (isoOfDay 20059)) [])
          = [isoOfDay 20059; isoOfDay (20059 - k)].
Proof.
  assert (H : (DayFromYear 1 <= 20059 < DayFromYear 9999)%Z).
  { split; vm_compute; [discriminate | reflexivity]. }
  assert (T : isTradingDay Sample.utc (isoOfDay 20059) = true) by (vm_compute; reflexivity).
  assert (F : steadyAround Sample.utc 0 20059 7) by apply fixedHost_steadyAround.
  assert (Sm : (- msPerDay < 0 < msPerDay)%Z) by (split; reflexivity).
  split; [exact F|]. split; [exact Sm|].
  split; [exact H|]. split; [exact T|]. split; [exact (le_n 5)|].
  destruct (detectChanges_fetches_today_and_previous Sample.utc 0 Sample.twoDays "2024-12-16"
              Sample.collate 5 20059 [] F Sm H T (le_n 5)) as (k & Hk & _ & _ & S & _).
  exists k. split; [exact Hk | exact S].
Defined.

(** ** Portfolio assembler: accounts and their models *)

Module GroupFacts.

Import AccountPortfolioService.

Lemma pushTo_keys (g : groups) (k : string) (m : ModelData) :
  map fst (pushTo g k m)
  = if JS.arrIncludes (map fst g) k then map fst g else (map fst g ++ [k])%list.
Proof.
  induction g as [|[k0 ms] g IH]; [reflexivity|].
  cbn [pushTo map fst]. unfold JS.arrIncludes. cbn [existsb].
  fold (JS.arrIncludes (map fst g) k). rewrite (String.eqb_sym k k0).
  destruct (String.eqb k0 k); cbn [orb map fst]; [reflexivity|].
  rewrite IH. now destruct (JS.arrIncludes (map fst g) k).
Qed.

Lemma pushTo_NoDup (g : groups) (k : string) (m : ModelData) :
  NoDup (map fst g) -> NoDup (map fst (pushTo g k m)).
Proof.
  intros N. rewrite pushTo_keys.
  destruct (JS.arrIncludes (map fst g) k) eqn:E; [exact N|].
  apply LookupFacts.arrIncludes_false in E.
  apply NoDup_app; [exact N | repeat constructor; intros [] |].
  intros x H [<- | []]. contradiction.
Qed.

Lemma pushTo_In (g : groups) (k : string) (m : ModelData) (k' : string)
    (ms' : list ModelData) :
  In (k', ms') (pushTo g k m) ->
  (In (k', ms') g)
  \/ (k' = k /\ ms' = [m])
  \/ (k' = k /\ exists ms, In (k, ms) g /\ ms' = (ms ++ [m])%list).
Proof.
  induction g as [|[k0 ms] g IH]; cbn [pushTo].
  - intros [[= <- <-] | []]. right. left. now split.
  - destruct (String.eqb_spec k0 k) as [->|N].
    + intros [[= <- <-] | H].
      * right. right. split; [reflexivity|]. exists ms. split; [now left | reflexivity].
      * left. now right.
    + intros [H | H].
      * left. now left.
      * destruct (IH H) as [X | [X | (E & ms0 & X & Y)]].
        -- left. now right.
        -- right. now left.
        -- right. right. split; [exact E|]. exists ms0. split; [now right | exact Y].
Qed.

Lemma pushTo_holds_new (g : groups) (k : string) (m : ModelData) :
  holds (pushTo g k m) k m.
Proof.
  induction g as [|[k0 ms] g IH]; cbn [pushTo].
  - exists [m]. split; now left.
  - destruct (String.eqb_spec k0 k) as [->|N].
    + exists (ms ++ [m])%list. split; [now left|]. apply in_or_app. right. now left.
    + destruct IH as (ms0 & I & J). exists ms0. split; [now right | exact J].
Qed.

Lemma pushTo_holds_old (g : groups) (k : string) (m : ModelData) (k' : string)
    (m' : ModelData) :
  holds g k' m' -> holds (pushTo g k m) k' m'.
Proof.
  intros (ms' & I & J). induction g as [|[k0 ms] g IH]; [contradiction|].
  cbn [pushTo]. destruct (String.eqb_spec k0 k) as [->|N].
  - destruct I as [[= -> ->] | I].
    + exists (ms' ++ [m])%list. split; [now left|]. apply in_or_app. now left.
    + exists ms'. split; [now right | exact J].
  - destruct I as [[= -> ->] | I].
    + exists ms'. split; [now left | exact J].
    + destruct (IH I) as (ms0 & I0 & J0). exists ms0. split; [now right | exact J0].
Qed.

Section Grouping.

Variable mappings : list Mapping.

Lemma assigned_more (data data' : list Holding) (k : string) (m : ModelData) :
  (forall h, In h data -> In h data') -> assigned mappings data k m -> assigned mappings data' k m.
Proof.
  intros S (h & mp & Ih & R). exists h, mp. split; [now apply S | exact R].
Qed.

(** The inner loop over the matching mappings of one holding. *)
Lemma inner_loop (data : list Holding) (holding : Holding) :
  In holding data ->
  forall (ms : list Mapping) (g : groups),
    (forall mp, In mp ms ->
       In mp mappings /\ modelsMatch (h_name holding) (model mp) = true) ->
    sound mappings data g ->
    match fold_left
            (fun acc mapping =>
               match acc with
               | Returned g => addToGroup g (account mapping) (toModelData holding)
               | other => other
               end) ms (Returned g) with
    | Returned g' =>
        sound mappings data g'
        /\ (forall k m, holds g k m -> holds g' k m)
        /\ (forall mp, In mp ms -> holds g' (account mp) (toModelData holding))
        /\ Forall (fun mp => JS.arrIncludes objectPrototypeKeys (account mp) = false) ms
    | Threw =>
        exists mp, In mp ms /\ JS.arrIncludes objectPrototypeKeys (account mp) = true
    | OutOfFuel => False
    end.
Proof.
  intros Ih. induction ms as [|mp ms IH]; intros g M S; cbn [fold_left].
  - split; [exact S|]. split; [auto|]. split; [intros mp []|constructor].
  - unfold addToGroup at 2.
    destruct (JS.arrIncludes objectPrototypeKeys (account mp)) eqn:E.
    + assert (T : forall l, fold_left
                (fun acc mapping =>
                   match acc with
                   | Returned g => addToGroup g (account mapping) (toModelData holding)
                   | other => other
                   end) l Threw = Threw).
      { induction l; [reflexivity | assumption]. }
      rewrite T. exists mp. split; [now left | exact E].
    + assert (S' : sound mappings data (pushTo g (account mp) (toModelData holding))).
      { destruct S as [N C]. split; [now apply pushTo_NoDup|].
        intros k ms0 H. destruct (M mp (or_introl eq_refl)) as [Im Mm].
        apply pushTo_In in H as [H | [[-> ->] | (-> & ms1 & H & ->)]].
        - now apply C.
        - split; [discriminate|]. split; [exact E|].
          intros m [<- | []]. exists holding, mp. now repeat split.
        - destruct (C _ _ H) as (_ & P & A). split; [now destruct ms1|].
          split; [exact P|]. intros m Hm. apply in_app_or in Hm as [Hm | [<- | []]].
          + now apply A.
          + exists holding, mp. now repeat split. }
      specialize (IH (pushTo g (account mp) (toModelData holding))
                    (fun x Hx => M x (or_intror Hx)) S').
      destruct (fold_left _ ms _) as [g'| |]; [| |exact IH].
      * destruct IH as (S1 & H1 & H2 & F). split; [exact S1|]. split; [|split].
        -- intros k m H. apply H1. now apply pushTo_holds_old.
        -- intros x [<- | Hx]; [|now apply H2]. apply H1, pushTo_holds_new.
        -- now constructor.
      * destruct IH as (x & Hx & Ex). exists x. split; [now right | exact Ex].
Qed.

(** The outer loop over the holdings. *)
Lemma outer_loop :
  forall (data seen : list Holding) (g : groups),
    sound mappings seen g ->
    (forall h mp, In h seen -> In mp mappings ->
       modelsMatch (h_name h) (model mp) = true -> holds g (account mp) (toModelData h)) ->
    match fold_left (groupHolding mappings) data (Returned g) with
    | Returned g' =>
        sound mappings (seen ++ data) g'
        /\ (forall h mp, In h (seen ++ data) -> In mp mappings ->
              modelsMatch (h_name h) (model mp) = true ->
              holds g' (account mp) (toModelData h))
    | Threw =>
        exists h mp, In h data /\ In mp mappings
          /\ modelsMatch (h_name h) (model mp) = true
          /\ JS.arrIncludes objectPrototypeKeys (account mp) = true
    | OutOfFuel => False
    end.
Proof.
  induction data as [|h data IH]; intros seen g S C; cbn [fold_left].
  - rewrite app_nil_r. now split.
  - unfold groupHolding at 2.
    assert (S1 : sound mappings (seen ++ [h]) g).
    { destruct S as [N P]. split; [exact N|]. intros k ms H.
      destruct (P k ms H) as (X & Y & Z). split; [exact X|]. split; [exact Y|].
      intros m Hm. apply (assigned_more seen); [|now apply Z].
      intros x Hx. apply in_or_app. now left. }
    pose proof (inner_loop (seen ++ [h]) h
                  ltac:(apply in_or_app; right; now left)
                  (filter (fun m => modelsMatch (h_name h) (model m)) mappings) g
                  (fun mp Hmp => proj1 (filter_In _ _ _) Hmp) S1) as I.
    destruct (fold_left _ (filter _ mappings) (Returned g)) as [g1| |].
    + destruct I as (S2 & H1 & H2 & _).
      assert (C2 : forall x mp, In x (seen ++ [h]) -> In mp mappings ->
                     modelsMatch (h_name x) (model mp) = true ->
                     holds g1 (account mp) (toModelData x)).
      { intros x mp Hx Hmp Mx. apply in_app_or in Hx as [Hx | [<- | []]].
        - apply H1. now apply C.
        - apply H2. apply filter_In. now split. }
      specialize (IH (seen ++ [h])%list g1 S2 C2).
      rewrite <- app_assoc in IH. cbn [app] in IH.
      destruct (fold_left (groupHolding mappings) data (Returned g1)) as [g'| |];
        [exact IH | | exact IH].
      destruct IH as (x & mp & Hx & R). exists x, mp. split; [now right | exact R].
    + assert (T : forall l, fold_left (groupHolding mappings) l Threw = Threw).
      { induction l as [|x l IHl]; [reflexivity|]. cbn [fold_left].
        unfold groupHolding at 2.
        assert (T' : forall l', fold_left
                (fun acc mapping =>
                   match acc with
                   | Returned g => addToGroup g (account mapping) (toModelData x)
                   | other => other
                   end) l' Threw = Threw).
        { induction l'; [reflexivity | assumption]. }
        now rewrite T'. }
      rewrite T. destruct I as (mp & Hmp & E). apply filter_In in Hmp as [Hm Mm].
      exists h, mp. split; [now left|]. now repeat split.
    + contradiction.
Qed.

End Grouping.

Lemma filter_partition_perm {A : Type} (f : A -> bool) (l : list A) :
  Permutation (filter f l ++ filter (fun x => negb (f x)) l) l.
Proof.
  induction l as [|x l IH]; [constructor|]. cbn [filter].
  destruct (f x); cbn [negb app].
  - now constructor.
  - symmetry. apply Permutation_cons_app. symmetry. exact IH.
Qed.

Lemma objectEntries_perm (g : groups) : Permutation (objectEntries g) g.
Proof.
  unfold objectEntries. rewrite AlertFacts.sortBy_perm.
  apply (filter_partition_perm (fun e => isArrayIndex (fst e))).
Qed.

End GroupFacts.

Import AccountPortfolioService.

(** X10.  The result of [getAccountPortfolios] has one portfolio for each
    account that receives a model, under pairwise distinct names.  Every
    model of a portfolio is the model of a holding, parsed from the day's
    emails, whose name matches a mapping to this account; and every such
    holding has its model in the portfolio of every account that a
    matching mapping names.  Each portfolio carries the date asked for
    and, as its total, the sum of the final equities of its models. *)
Theorem getAccountPortfolios_groups_by_mapping
    (mappings : list Mapping)
    (getPortfolioEmails : string -> string -> outcome (list Email))
    (parseFilteredPortfolioEmail :
       string -> string -> string -> list string -> list PortfolioData.t)
    (now : string) (localeCompare : string -> string -> Z)
    (dateStr : option string) (email : Email) (emails : list Email)
    (result : list AccountPortfolio.t) :
  let date := match dateStr with Some d => JS.orElse d now | None => now end in
  let data :=
    flat_map
      (fun email =>
         flat_map PortfolioData.holdings
           (parseFilteredPortfolioEmail (htmlBody email) (subject email)
              (emailDate email) (map model mappings)))
      (email :: emails) in
  getPortfolioEmails date date = Returned (email :: emails) ->
  getAccountPortfolios (Returned mappings) getPortfolioEmails
    parseFilteredPortfolioEmail now localeCompare dateStr = Returned result ->
  NoDup (map AccountPortfolio.accountName result)
  /\ (forall p, In p result ->
        AccountPortfolio.date p = date
        /\ AccountPortfolio.models p <> []
        /\ AccountPortfolio.totalValue p
           = fold_left (fun sum m => Num.add sum (finalEquity (performance m)))
               (AccountPortfolio.models p) Num.zero
        /\ forall m, In m (AccountPortfolio.models p) ->
             exists holding mapping,
               In holding data /\ In mapping mappings
               /\ m = toModelData holding
               /\ account mapping = AccountPortfolio.accountName p
               /\ modelsMatch (h_name holding) (model mapping) = true)
  /\ (forall holding mapping,
        In holding data -> In mapping mappings ->
        modelsMatch (h_name holding) (model mapping) = true ->
        exists p, In p result
          /\ AccountPortfolio.accountName p = account mapping
          /\ In (toModelData holding) (AccountPortfolio.models p)).
Proof.
  intros date data Ee. unfold getAccountPortfolios. fold date. rewrite Ee.
  change (flat_map
            (fun email0 =>
               flat_map PortfolioData.holdings
                 (parseFilteredPortfolioEmail (htmlBody email0) (subject email0)
                    (emailDate email0) (map model mappings)))
            (email :: emails)) with data.
  clearbody data.
  assert (S0 : sound mappings [] []).
  { split; [constructor | intros k ms []]. }
  assert (C0 : forall h mp, In h [] -> In mp mappings ->
                 modelsMatch (h_name h) (model mp) = true ->
                 holds [] (account mp) (toModelData h)).
  { intros h mp []. }
  pose proof (GroupFacts.outer_loop mappings data [] [] S0 C0) as L.
  match type of L with
  | match ?a with _ => _ end =>
      match goal with
      | |- match ?b with _ => _ end = _ -> _ => change b with a
      end
  end.
  revert L.
  match goal with
  | |- match ?a with _ => _ end -> _ => destruct a as [g| |]
  end; intros L; try discriminate.
  cbn [app] in L. unfold sound in L.
  destruct L as ((N & S) & C). intros [= <-].
  pose proof (GroupFacts.objectEntries_perm g) as P.
  split; [|split].
  - apply (Permutation_NoDup (l := map fst g)); [|exact N]. symmetry.
    etransitivity; [apply Permutation_map, AlertFacts.sortBy_perm|].
    rewrite map_map.
    rewrite (map_ext _ fst); [apply Permutation_map, P|].
    intros [k ms]. reflexivity.
  - intros p Hp. apply DetectFacts.In_sortBy in Hp.
    apply in_map_iff in Hp as ([k ms] & <- & Hk).
    apply (Permutation_in _ P) in Hk. destruct (S k ms Hk) as (X & _ & Z).
    cbn [toAccountPortfolio AccountPortfolio.date AccountPortfolio.models
         AccountPortfolio.totalValue AccountPortfolio.accountName].
    split; [reflexivity|]. split; [exact X|]. split; [reflexivity|]. exact Z.
  - intros h mp Ih Im M. destruct (C h mp Ih Im M) as (ms & I & J).
    exists (toAccountPortfolio date (account mp, ms)). split; [|now split].
    apply DetectFacts.In_sortBy. apply in_map.
    apply (Permutation_in _ (Permutation_sym P)). exact I.
Qed.

Lemma getAccountPortfolios_groups_by_mapping_witness :
  Sample.oneEmail "2024-12-16" "2024-12-16"
  = Returned [ {| subject := "Daily performance"; emailDate := "2024-12-16";
                  htmlBody := "<table></table>" |} ]
  /\ exists result,
       getAccountPortfolios (Returned Sample.mappings) Sample.oneEmail
         Sample.parsedTables "2024-12-16" Sample.collate None = Returned result
       /\ NoDup (map AccountPortfolio.accountName result).
Proof.
  assert (E : Sample.oneEmail "2024-12-16" "2024-12-16"
              = Returned [ {| subject := "Daily performance"; emailDate := "2024-12-16";
                              htmlBody := "<table></table>" |} ]) by reflexivity.
  split; [exact E|].
  eexists. split; [vm_compute; reflexivity|].
  eapply (proj1 (getAccountPortfolios_groups_by_mapping Sample.mappings Sample.oneEmail
                   Sample.parsedTables "2024-12-16" Sample.collate None _ _ _ E _)).
  Unshelve. vm_compute. reflexivity.
Defined.

(** X11.  When the mappings and the emails arrive, [getAccountPortfolios]
    throws in one case only: a holding matches a mapping whose account name
    is a property that every object inherits, such as [constructor] or
    [toString]; the lookup in [accountGroups] then finds the inherited
    value, no array is created, and the [push] fails. *)
Theorem getAccountPortfolios_throws_on_inherited_name
    (mappings : list Mapping)
    (getPortfolioEmails : string -> string -> outcome (list Email))
    (parseFilteredPortfolioEmail :
       string -> string -> string -> list string -> list PortfolioData.t)
    (now : string) (localeCompare : string -> string -> Z)
    (dateStr : option string) (email : Email) (emails : list Email) :
  let date := match dateStr with Some d => JS.orElse d now | None => now end in
  let data :=
    flat_map
      (fun email =>
         flat_map PortfolioData.holdings
           (parseFilteredPortfolioEmail (htmlBody email) (subject email)
              (emailDate email) (map model mappings)))
      (email :: emails) in
  getPortfolioEmails date date = Returned (email :: emails) ->
  (getAccountPortfolios (Returned mappings) getPortfolioEmails
     parseFilteredPortfolioEmail now localeCompare dateStr = Threw
   <-> exists holding mapping,
         In holding data /\ In mapping mappings
         /\ modelsMatch (h_name holding) (model mapping) = true
         /\ JS.arrIncludes objectPrototypeKeys (account mapping) = true)
  /\ (getAccountPortfolios (Returned mappings) getPortfolioEmails
        parseFilteredPortfolioEmail now localeCompare dateStr = Threw
      \/ exists result,
           getAccountPortfolios (Returned mappings) getPortfolioEmails
             parseFilteredPortfolioEmail now localeCompare dateStr = Returned result).
Proof.
  intros date data Ee. unfold getAccountPortfolios. fold date. rewrite Ee.
  change (flat_map
            (fun email0 =>
               flat_map PortfolioData.holdings
                 (parseFilteredPortfolioEmail (htmlBody email0) (subject email0)
                    (emailDate email0) (map model mappings)))
            (email :: emails)) with data.
  clearbody data.
  assert (S0 : sound mappings [] []).
  { split; [constructor | intros k ms []]. }
  assert (C0 : forall h mp, In h [] -> In mp mappings ->
                 modelsMatch (h_name h) (model mp) = true ->
                 holds [] (account mp) (toModelData h)).
  { intros h mp []. }
  pose proof (GroupFacts.outer_loop mappings data [] [] S0 C0) as L.
  match type of L with
  | match ?a with _ => _ end =>
      match goal with
      | |- context [match ?b with Returned _ => _ | Threw => _ | OutOfFuel => _ end] =>
          change b with a
      end
  end.
  revert L.
  match goal with
  | |- match ?a with _ => _ end -> _ => destruct a as [g| |]
  end; intros L.
  - cbn [app] in L. unfold sound in L. destruct L as ((N & S) & C).
    split; [|right; eexists; reflexivity].
    split; [discriminate|].
    intros (h & mp & Ih & Im & M & E). exfalso.
    destruct (C h mp Ih Im M) as (ms & I & _).
    destruct (S _ _ I) as (_ & X & _). congruence.
  - split; [|now left]. split; [intros _; exact L | reflexivity].
  - contradiction.
Qed.

Lemma getAccountPortfolios_throws_on_inherited_name_witness :
  let mappings := [ {| model := "Alpha Growth"; account := "constructor" |} ] in
  Sample.oneEmail "2024-12-16" "2024-12-16"
  = Returned [ {| subject := "Daily performance"; emailDate := "2024-12-16";
                  htmlBody := "<table></table>" |} ]
  /\ getAccountPortfolios (Returned mappings) Sample.oneEmail
       Sample.parsedTables "2024-12-16" Sample.collate None = Threw.
Proof.
  intros mappings.
  assert (E : Sample.oneEmail "2024-12-16" "2024-12-16"
              = Returned [ {| subject := "Daily performance"; emailDate := "2024-12-16";
                              htmlBody := "<table></table>" |} ]) by reflexivity.
  split; [exact E|].
  apply (proj1 (getAccountPortfolios_throws_on_inherited_name mappings Sample.oneEmail
                  Sample.parsedTables "2024-12-16" Sample.collate None _ _ E)).
  exists (Sample.holdingOf "2. Alpha Growth" (Num.ofZ 1000)).
  exists {| model := "Alpha Growth"; account := "constructor" |}.
  split; [right; now left|]. split; [now left|]. split; reflexivity.
Defined.

(** X12.  [getUniqueAccounts] returns the account names of the mappings, each
    once, in ascending code unit order. *)
Theorem getUniqueAccounts_sorted_distinct (mappings : list Mapping) :
  exists accounts,
    getUniqueAccounts (Returned mappings) = Returned accounts
    /\ Sorted (fun a b => String.compare a b = Lt) accounts
    /\ (forall x, In x accounts <-> exists m, In m mappings /\ account m = x).
Proof.
  eexists. split; [reflexivity|]. split.
  - apply AlertFacts.sorted_strict.
    + apply (AssemblerFacts.sortBy_sorted JS.defaultCompare AlertFacts.defaultCompare_total).
    + apply (Permutation_NoDup (l := JS.uniq (map account mappings)));
        [symmetry; apply AlertFacts.sortBy_perm | apply ReportFacts.NoDup_uniq].
  - intros x. rewrite DetectFacts.In_sortBy, LookupFacts.In_uniq, in_map_iff.
    split; intros (m & A & B); exists m; now split.
Qed.

(** ** Cache *)

Module CacheFacts.

Import CacheService.

Section Store.

Context {T : Type}.

Implicit Types (m : store T) (e : CacheEntry T).

Lemma mapGet_mapSet_same m key e : mapGet (mapSet m key e) key = Some e.
Proof.
  induction m as [|[k e0] m IH]; cbn [mapSet mapGet].
  - now rewrite String.eqb_refl.
  - destruct (String.eqb k key) eqn:E; cbn [mapGet]; rewrite E; [reflexivity | exact IH].
Qed.

Lemma mapGet_mapSet_other m key key' e :
  key <> key' -> mapGet (mapSet m key e) key' = mapGet m key'.
Proof.
  intros N. induction m as [|[k e0] m IH]; cbn [mapSet mapGet].
  - destruct (String.eqb_spec key key'); [contradiction | reflexivity].
  - destruct (String.eqb_spec k key) as [->|Nk]; cbn [mapGet].
    + destruct (String.eqb_spec key key'); [contradiction | reflexivity].
    + now rewrite IH.
Qed.

Lemma mapGet_mapDelete_same m key : mapGet (mapDelete m key) key = None.
Proof.
  induction m as [|[k e0] m IH]; [reflexivity|].
  unfold mapDelete in *. cbn [filter fst].
  destruct (String.eqb k key) eqn:E; cbn [negb mapGet]; [exact IH|].
  now rewrite E.
Qed.

Lemma mapGet_mapDelete_other m key key' :
  key <> key' -> mapGet (mapDelete m key) key' = mapGet m key'.
Proof.
  intros N. induction m as [|[k e0] m IH]; [reflexivity|].
  unfold mapDelete in *. cbn [filter fst].
  destruct (String.eqb_spec k key) as [->|Nk]; cbn [negb mapGet].
  - rewrite IH. destruct (String.eqb_spec key key'); [contradiction | reflexivity].
  - now rewrite IH.
Qed.

Lemma keys_mapDelete m key : ~ In key (map fst (mapDelete m key)).
Proof.
  unfold mapDelete. rewrite in_map_iff. intros ([k e] & <- & H).
  apply filter_In in H as [_ H]. cbn [fst] in H. now rewrite String.eqb_refl in H.
Qed.

(** What [get] and [has] answer, from the entry of the key. *)
Lemma get_fst m now key :
  fst (get m now key)
  = match mapGet m key with
    | Some e => if (expiresAt e <? now)%Z then None else Some (data e)
    | None => None
    end.
Proof.
  unfold get. destruct (mapGet m key) as [e|]; [|reflexivity].
  now destruct (expiresAt e <? now)%Z.
Qed.

End Store.

Lemma family_keys_differ (d d' : string) :
  "combined-accounts-" ++ d <> "model-watch-list-" ++ d'
  /\ "combined-accounts-" ++ d <> "email-data-" ++ d'
  /\ "model-watch-list-" ++ d <> "email-data-" ++ d'.
Proof. repeat split; discriminate. Qed.

End CacheFacts.

(** X13.  A value stored under a key is what [get] returns for this key until
    the time to live has passed, counted from the second reading of the
    clock in [set], and [null] afterwards; a time to live left out or
    given as 0 is thirty minutes.  [has] answers true exactly while [get]
    returns the value. *)
Theorem cache_set_then_get {T : Type} (m : CacheService.store T)
    (t t' now : Z) (key : string) (d : T) (ttl : option Z) :
  let cacheTTL :=
    match ttl with
    | Some n => if (n =? 0)%Z then 1800000%Z else n
    | None => 1800000%Z
    end in
  let m' := CacheService.set m t t' key d ttl in
  ((now <= t' + cacheTTL)%Z -> CacheService.get m' now key = (Some d, m'))
  /\ ((t' + cacheTTL < now)%Z ->
      CacheService.get m' now key = (None, CacheService.clear m' key))
  /\ (CacheService.has m' now key = true <-> (now <= t' + cacheTTL)%Z)
  /\ (CacheService.has m' now key = true <->
      fst (CacheService.get m' now key) = Some d).
Proof.
  intros cacheTTL m'.
  assert (G : CacheService.mapGet m' key
              = Some {| CacheService.data := d; CacheService.timestamp := t;
                        CacheService.expiresAt := (t' + cacheTTL)%Z |}).
  { unfold m', CacheService.set. apply CacheFacts.mapGet_mapSet_same. }
  unfold CacheService.get, CacheService.has. rewrite G.
  cbn [CacheService.expiresAt CacheService.data].
  destruct (Z.ltb_spec (t' + cacheTTL) now) as [L|L];
    destruct (Z.leb_spec now (t' + cacheTTL)) as [L'|L']; try lia.
  - split; [intros; lia|]. split; [reflexivity|]. cbn [fst].
    split; split; intros; try lia; discriminate.
  - split; [reflexivity|]. split; [intros; lia|]. cbn [fst]. split; split; auto.
Qed.

Lemma cache_set_then_get_witness :
  (1000 <= 500 + 1800000)%Z
  /\ CacheService.get (CacheService.set [] 400 500 "email-data-2024-12-16" true None)
       1000 "email-data-2024-12-16"
     = (Some true, CacheService.set [] 400 500 "email-data-2024-12-16" true None).
Proof.
  assert (H : (1000 <= 500 + 1800000)%Z) by lia.
  split; [exact H|].
  exact (proj1 (cache_set_then_get [] 400 500 1000 "email-data-2024-12-16" true None) H).
Defined.

(** X14.  Reading an entry after its expiry deletes it: from then on the key is
    absent, whatever the clock shows later, while the entries of other
    keys stay as they were; reading an entry before its expiry changes
    nothing. *)
Theorem cache_expired_entry_is_deleted {T : Type} (m : CacheService.store T)
    (now : Z) (key : string) (entry : CacheService.CacheEntry T) :
  CacheService.mapGet m key = Some entry ->
  ((CacheService.expiresAt entry < now)%Z ->
   let m' := snd (CacheService.get m now key) in
   fst (CacheService.get m now key) = None
   /\ (forall later, CacheService.get m' later key = (None, m'))
   /\ (forall later, CacheService.has m' later key = false)
   /\ ~ In key (snd (CacheService.getStats m'))
   /\ (forall key', key' <> key ->
         CacheService.mapGet m' key' = CacheService.mapGet m key'))
  /\ ((now <= CacheService.expiresAt entry)%Z ->
      CacheService.get m now key = (Some (CacheService.data entry), m)).
Proof.
  intros G. split.
  - intros L m'.
    assert (Eg : CacheService.get m now key = (None, CacheService.mapDelete m key)).
    { unfold CacheService.get. rewrite G.
      destruct (Z.ltb_spec (CacheService.expiresAt entry) now); [reflexivity | lia]. }
    unfold m'. rewrite Eg.
    cbn [fst snd]. split; [reflexivity|]. split; [|split; [|split]].
    + intros later. unfold CacheService.get.
      now rewrite CacheFacts.mapGet_mapDelete_same.
    + intros later. unfold CacheService.has.
      now rewrite CacheFacts.mapGet_mapDelete_same.
    + apply CacheFacts.keys_mapDelete.
    + intros key' N. apply CacheFacts.mapGet_mapDelete_other. congruence.
  - intros L. unfold CacheService.get. rewrite G.
    destruct (Z.ltb_spec (CacheService.expiresAt entry) now); [lia | reflexivity].
Qed.

Lemma cache_expired_entry_is_deleted_witness :
  let m := CacheService.set [] 400 500 "email-data-2024-12-16" true (Some 100%Z) in
  let entry := {| CacheService.data := true; CacheService.timestamp := 400%Z;
                  CacheService.expiresAt := 600%Z |} in
  CacheService.mapGet m "email-data-2024-12-16" = Some entry
  /\ (CacheService.expiresAt entry < 700)%Z
  /\ fst (CacheService.get m 700 "email-data-2024-12-16") = None.
Proof.
  intros m entry.
  assert (G : CacheService.mapGet m "email-data-2024-12-16" = Some entry) by reflexivity.
  assert (L : (CacheService.expiresAt entry < 700)%Z) by reflexivity.
  split; [exact G|]. split; [exact L|].
  exact (proj1 (proj1 (cache_expired_entry_is_deleted m 700 "email-data-2024-12-16"
                         entry G) L)).
Defined.

(** X15.  Storing or clearing one key leaves what [get] and [has] answer for
    every other key as it was; the keys of combined accounts, of watch
    lists and of the email flag never coincide, whatever the dates. *)
Theorem cache_keys_independent {T : Type} (m : CacheService.store T)
    (t t' now : Z) (key key' : string) (d : T) (ttl : option Z) :
  key <> key' ->
  fst (CacheService.get (CacheService.set m t t' key d ttl) now key')
  = fst (CacheService.get m now key')
  /\ CacheService.has (CacheService.set m t t' key d ttl) now key'
     = CacheService.has m now key'
  /\ fst (CacheService.get (CacheService.clear m key) now key')
     = fst (CacheService.get m now key')
  /\ fst (CacheService.get (snd (CacheService.get m t key)) now key')
     = fst (CacheService.get m now key')
  /\ (forall date date',
        fst (CacheService.getCombinedAccounts
               (CacheService.setModelWatchList m t t' date' d) now date)
        = fst (CacheService.getCombinedAccounts m now date)
        /\ fst (CacheService.getCombinedAccounts
                  (CacheService.setEmailDataFetched m t t' date' d) now date)
           = fst (CacheService.getCombinedAccounts m now date)
        /\ fst (CacheService.getModelWatchList
                  (CacheService.setCombinedAccounts m t t' date' d) now date)
           = fst (CacheService.getModelWatchList m now date)).
Proof.
  intros N.
  assert (S : forall k k' x l, k <> k' ->
            fst (CacheService.get (CacheService.set m t t' k x l) now k')
            = fst (CacheService.get m now k')).
  { intros k k' x l Nk. rewrite !CacheFacts.get_fst. unfold CacheService.set.
    now rewrite CacheFacts.mapGet_mapSet_other. }
  split; [now apply S|]. split; [|split; [|split]].
  - unfold CacheService.has, CacheService.set.
    now rewrite CacheFacts.mapGet_mapSet_other.
  - rewrite !CacheFacts.get_fst. unfold CacheService.clear.
    now rewrite CacheFacts.mapGet_mapDelete_other.
  - rewrite !CacheFacts.get_fst. unfold CacheService.get at 1.
    destruct (CacheService.mapGet m key) as [e|]; [|reflexivity].
    destruct (CacheService.expiresAt e <? t)%Z; cbn [snd]; [|reflexivity].
    now rewrite CacheFacts.mapGet_mapDelete_other.
  - intros date date'.
    destruct (CacheFacts.family_keys_differ date date') as (A & B & C).
    destruct (CacheFacts.family_keys_differ date' date) as (A' & B' & C').
    unfold CacheService.getCombinedAccounts, CacheService.setModelWatchList,
      CacheService.setEmailDataFetched, CacheService.getModelWatchList,
      CacheService.setCombinedAccounts.
    split; [apply S; congruence|]. split; apply S; congruence.
Qed.

Lemma cache_keys_independent_witness :
  "combined-accounts-2024-12-16" <> "email-data-2024-12-16"
  /\ fst (CacheService.get
            (CacheService.set [] 400 500 "combined-accounts-2024-12-16" true None)
            1000 "email-data-2024-12-16")
     = fst (CacheService.get [] 1000 "email-data-2024-12-16").
Proof.
  assert (N : "combined-accounts-2024-12-16" <> "email-data-2024-12-16") by discriminate.
  split; [exact N|].
  exact (proj1 (cache_keys_independent [] 400 500 1000 "combined-accounts-2024-12-16"
                  "email-data-2024-12-16" true None N)).
Defined.

(** ** Combined accounts *)

Module CombinedFacts.

Import CombinedAccountService CombinedAccounts StringFacts ReportFacts.

Lemma accountsOf_app (k : string) (l1 l2 : list AccountPortfolio.t) :
  accountsOf k (l1 ++ l2) = (accountsOf k l1 ++ accountsOf k l2)%list.
Proof. apply filter_app. Qed.

Lemma accountsOf_In (k : string) (l : list AccountPortfolio.t) :
  In k (map baseOf l) -> accountsOf k l <> [].
Proof.
  intros H. apply in_map_iff in H as (a & E & I).
  assert (X : In a (accountsOf k l)).
  { apply filter_In. split; [exact I|]. apply String.eqb_eq. exact E. }
  intros Z. rewrite Z in X. contradiction.
Qed.

Lemma combinedOf_other (seen : list AccountPortfolio.t) (a : AccountPortfolio.t)
    (k : string) :
  k <> baseOf a -> combinedOf (seen ++ [a]) k = combinedOf seen k.
Proof.
  intros N. unfold combinedOf. rewrite accountsOf_app.
  assert (E : accountsOf k [a] = []).
  { unfold accountsOf. cbn [filter]. fold (baseOf a).
    destruct (String.eqb_spec (baseOf a) k); [congruence | reflexivity]. }
  now rewrite E, app_nil_r.
Qed.

Lemma combinedOf_same (seen : list AccountPortfolio.t) (a : AccountPortfolio.t) :
  accountsOf (baseOf a) seen <> [] ->
  combinedOf (seen ++ [a]) (baseOf a)
  = {| CombinedAccountPortfolio.baseAccountName := baseOf a;
       CombinedAccountPortfolio.currencies :=
         (CombinedAccountPortfolio.currencies (combinedOf seen (baseOf a))
          ++ [currencyPortfolioOf a])%list;
       CombinedAccountPortfolio.totalValueAllCurrencies :=
         Num.add (CombinedAccountPortfolio.totalValueAllCurrencies
                    (combinedOf seen (baseOf a)))
                 (AccountPortfolio.totalValue a);
       CombinedAccountPortfolio.date :=
         CombinedAccountPortfolio.date (combinedOf seen (baseOf a));
       CombinedAccountPortfolio.changes := None |}.
Proof.
  intros N. unfold combinedOf.
  cbn [CombinedAccountPortfolio.currencies CombinedAccountPortfolio.date
       CombinedAccountPortfolio.totalValueAllCurrencies].
  rewrite accountsOf_app.
  assert (E : accountsOf (baseOf a) [a] = [a]).
  { unfold accountsOf. cbn [filter]. fold (baseOf a). now rewrite String.eqb_refl. }
  rewrite E, map_app, fold_left_app. cbn [map fold_left].
  destruct (accountsOf (baseOf a) seen); [contradiction | reflexivity].
Qed.

Lemma combinedOf_first (seen : list AccountPortfolio.t) (a : AccountPortfolio.t) :
  accountsOf (baseOf a) seen = [] ->
  combinedOf (seen ++ [a]) (baseOf a)
  = {| CombinedAccountPortfolio.baseAccountName := baseOf a;
       CombinedAccountPortfolio.currencies := [currencyPortfolioOf a];
       CombinedAccountPortfolio.totalValueAllCurrencies :=
         Num.add Num.zero (AccountPortfolio.totalValue a);
       CombinedAccountPortfolio.date := AccountPortfolio.date a;
       CombinedAccountPortfolio.changes := None |}.
Proof.
  intros Z. unfold combinedOf. rewrite accountsOf_app, Z.
  assert (E : accountsOf (baseOf a) [a] = [a]).
  { unfold accountsOf. cbn [filter]. fold (baseOf a). now rewrite String.eqb_refl. }
  rewrite E. reflexivity.
Qed.

(** Pushing the currency portfolio of [a] onto entries built from [seen]. *)
Lemma pushCurrency_build (seen : list AccountPortfolio.t) (a : AccountPortfolio.t) :
  forall ks,
    NoDup ks -> (forall k, In k ks -> In k (map baseOf seen)) ->
    pushCurrency (map (fun k => (k, combinedOf seen k)) ks) (baseOf a)
      (currencyPortfolioOf a)
    = map (fun k => (k, combinedOf (seen ++ [a]) k)) ks.
Proof.
  induction ks as [|k ks IH]; intros N S; [reflexivity|].
  cbn [map pushCurrency]. inversion N as [|? ? Nk N']; subst.
  destruct (String.eqb_spec k (baseOf a)) as [->|D].
  - f_equal.
    + f_equal. rewrite combinedOf_same; [reflexivity|].
      apply accountsOf_In, S. now left.
    + apply map_ext_in. intros k Hk. f_equal. symmetry. apply combinedOf_other.
      intros ->. contradiction.
  - f_equal.
    + f_equal. symmetry. now apply combinedOf_other.
    + apply IH; [exact N'|]. intros x Hx. apply S. now right.
Qed.

Lemma pushCurrency_app (m1 m2 : groupedMap) (key : string) (cp : CurrencyPortfolio.t) :
  ~ In key (map fst m1) ->
  pushCurrency (m1 ++ m2)%list key cp = (m1 ++ pushCurrency m2 key cp)%list.
Proof.
  induction m1 as [|[k c] m1 IH]; intros N; [reflexivity|].
  cbn [app pushCurrency]. destruct (String.eqb_spec k key) as [->|D].
  - exfalso. apply N. now left.
  - f_equal. apply IH. intros H. apply N. now right.
Qed.

Lemma groupStep_build (seen : list AccountPortfolio.t) (a : AccountPortfolio.t) :
  groupStep (build seen) a = build (seen ++ [a]).
Proof.
  unfold groupStep, build. fold (baseOf a).
  change {| CurrencyPortfolio.currency :=
              extractCurrency (AccountPortfolio.accountName a);
            CurrencyPortfolio.models := AccountPortfolio.models a;
            CurrencyPortfolio.totalValue := AccountPortfolio.totalValue a |}
    with (currencyPortfolioOf a).
  rewrite map_app. cbn [map]. rewrite uniq_snoc.
  unfold mapHas. rewrite map_map. cbn [fst]. rewrite map_id, arrIncludes_uniq.
  destruct (JS.arrIncludes (map baseOf seen) (baseOf a)) eqn:E; cbn [negb].
  - apply pushCurrency_build; [apply NoDup_uniq|].
    intros k Hk. exact (proj1 (LookupFacts.In_uniq k _) Hk).
  - apply LookupFacts.arrIncludes_false in E.
    rewrite pushCurrency_app.
    + rewrite map_app. cbn [map pushCurrency]. rewrite String.eqb_refl. f_equal.
      * apply map_ext_in. intros k Hk. f_equal. symmetry. apply combinedOf_other.
        intros ->. apply E. exact (proj1 (LookupFacts.In_uniq _ _) Hk).
      * f_equal. f_equal. rewrite combinedOf_first; [reflexivity|].
        destruct (accountsOf (baseOf a) seen) as [|x l] eqn:Z; [reflexivity|].
        exfalso. apply E. assert (X : In x (accountsOf (baseOf a) seen)) by (rewrite Z; now left).
        apply filter_In in X as [X1 X2]. apply String.eqb_eq in X2.
        apply in_map_iff. now exists x.
    + rewrite map_map. cbn [fst]. rewrite map_id. now rewrite LookupFacts.In_uniq.
Qed.

Lemma fold_groupStep_build (accounts seen : list AccountPortfolio.t) :
  fold_left groupStep accounts (build seen) = build (seen ++ accounts).
Proof.
  revert seen. induction accounts as [|a accounts IH]; intros seen; cbn [fold_left].
  - now rewrite app_nil_r.
  - rewrite groupStep_build, IH, <- app_assoc. reflexivity.
Qed.

(** The grouping, said at once. *)
Lemma groupAccountsByCurrency_build (accounts : list AccountPortfolio.t) :
  groupAccountsByCurrency accounts
  = map (combinedOf accounts) (JS.uniq (map baseOf accounts)).
Proof.
  unfold groupAccountsByCurrency.
  change (@nil (string * CombinedAccountPortfolio.t)) with (build []).
  rewrite fold_groupStep_build. cbn [app]. unfold build. rewrite map_map.
  reflexivity.
Qed.

End CombinedFacts.

(** X16.  [groupAccountsByCurrency] makes one combined account for each base
    name, in the order in which the base names first occur and under
    pairwise distinct names.  The combined account of a base name holds
    one currency portfolio for each account with this base name, in the
    order of the accounts, each with the currency read from the account
    name and the models and the total of the account; its total is the
    sum of their totals and its date the date of the first of them. *)
Theorem groupAccountsByCurrency_groups (accounts : list AccountPortfolio.t) :
  let base a :=
    CombinedAccountService.extractBaseAccountName (AccountPortfolio.accountName a) in
  let result := CombinedAccounts.groupAccountsByCurrency accounts in
  map CombinedAccountPortfolio.baseAccountName result = JS.uniq (map base accounts)
  /\ NoDup (map CombinedAccountPortfolio.baseAccountName result)
  /\ (forall c, In c result ->
        let members :=
          filter (fun a => String.eqb (base a) (CombinedAccountPortfolio.baseAccountName c))
                 accounts in
        members <> []
        /\ CombinedAccountPortfolio.currencies c
           = map CombinedAccounts.currencyPortfolioOf members
        /\ CombinedAccountPortfolio.totalValueAllCurrencies c
           = fold_left (fun sum a => Num.add sum (AccountPortfolio.totalValue a))
               members Num.zero
        /\ CombinedAccountPortfolio.date c
           = match members with
             | first :: _ => AccountPortfolio.date first
             | [] => EmptyString
             end
        /\ CombinedAccountPortfolio.changes c = None)
  /\ (forall a, In a accounts ->
        exists c, In c result
          /\ CombinedAccountPortfolio.baseAccountName c = base a
          /\ In (CombinedAccounts.currencyPortfolioOf a)
                (CombinedAccountPortfolio.currencies c)).
Proof.
  intros base result. unfold result.
  rewrite CombinedFacts.groupAccountsByCurrency_build.
  change (fun a => CombinedAccountService.extractBaseAccountName
                     (AccountPortfolio.accountName a)) with CombinedAccounts.baseOf in *.
  assert (K : map CombinedAccountPortfolio.baseAccountName
                (map (CombinedAccounts.combinedOf accounts)
                   (JS.uniq (map CombinedAccounts.baseOf accounts)))
              = JS.uniq (map CombinedAccounts.baseOf accounts)).
  { rewrite map_map. cbn [CombinedAccounts.combinedOf
                            CombinedAccountPortfolio.baseAccountName]. apply map_id. }
  split; [exact K|]. split; [rewrite K; apply ReportFacts.NoDup_uniq|]. split.
  - intros c Hc. apply in_map_iff in Hc as (k & <- & Hk).
    pose proof (proj1 (LookupFacts.In_uniq _ _) Hk) as Hk'.
    cbn [CombinedAccounts.combinedOf CombinedAccountPortfolio.baseAccountName
         CombinedAccountPortfolio.currencies CombinedAccountPortfolio.date
         CombinedAccountPortfolio.totalValueAllCurrencies
         CombinedAccountPortfolio.changes].
    split; [exact (CombinedFacts.accountsOf_In k accounts Hk')|]. now repeat split.
  - intros a Ha. exists (CombinedAccounts.combinedOf accounts (base a)).
    split; [|split; [reflexivity|]].
    + apply in_map. apply LookupFacts.In_uniq. now apply in_map.
    + cbn [CombinedAccounts.combinedOf CombinedAccountPortfolio.currencies].
      apply in_map. apply filter_In. split; [exact Ha | apply String.eqb_refl].
Qed.

(** An account named without a currency and the account of the same name
    with [$USD] fall into one combined account, which then has two
    portfolios in USD. *)
Example groupAccountsByCurrency_default_currency :
  map (fun c => (CombinedAccountPortfolio.baseAccountName c,
                 map CurrencyPortfolio.currency (CombinedAccountPortfolio.currencies c)))
      (CombinedAccounts.groupAccountsByCurrency
         [ Sample.accountOf "Glen RRSP" "2024-12-16" [];
           Sample.accountOf "Anne TFSA $CAD" "2024-12-16" [];
           Sample.accountOf "Glen RRSP $USD" "2024-12-16" [] ])
  = [ ("Glen RRSP", ["USD"; "USD"]); ("Anne TFSA", ["CAD"]) ].
Proof. vm_compute. reflexivity. Qed.

(** X17.  [addChangeDataToCombinedAccounts] keeps the combined accounts as they
    are and gives each of them its changes: the added and the removed
    holdings of all changes whose account has the base name of the
    combined account, each holding once; [hasChanges] is true exactly when
    one of the two lists is not empty. *)
Theorem addChangeDataToCombinedAccounts_merges_by_base_name
    (combinedAccounts : list CombinedAccountPortfolio.t)
    (changes : list PortfolioChange) (date : string) :
  let result :=
    CombinedAccounts.addChangeDataToCombinedAccounts combinedAccounts changes date in
  map CombinedAccountPortfolio.baseAccountName result
  = map CombinedAccountPortfolio.baseAccountName combinedAccounts
  /\ map CombinedAccountPortfolio.currencies result
     = map CombinedAccountPortfolio.currencies combinedAccounts
  /\ map CombinedAccountPortfolio.totalValueAllCurrencies result
     = map CombinedAccountPortfolio.totalValueAllCurrencies combinedAccounts
  /\ map CombinedAccountPortfolio.date result
     = map CombinedAccountPortfolio.date combinedAccounts
  /\ forall c, In c result ->
       exists ch,
         CombinedAccountPortfolio.changes c = Some ch
         /\ NoDup (AccountChanges.addedHoldings ch)
         /\ NoDup (AccountChanges.removedHoldings ch)
         /\ (forall h, In h (AccountChanges.addedHoldings ch) <->
               exists change,
                 In change changes
                 /\ CombinedAccountService.extractBaseAccountName (accountName change)
                    = CombinedAccountPortfolio.baseAccountName c
                 /\ In h (addedHoldings change))
         /\ (forall h, In h (AccountChanges.removedHoldings ch) <->
               exists change,
                 In change changes
                 /\ CombinedAccountService.extractBaseAccountName (accountName change)
                    = CombinedAccountPortfolio.baseAccountName c
                 /\ In h (removedHoldings change))
         /\ (AccountChanges.hasChanges ch = true <->
             AccountChanges.addedHoldings ch <> []
             \/ AccountChanges.removedHoldings ch <> []).
Proof.
  intros result. unfold result, CombinedAccounts.addChangeDataToCombinedAccounts.
  assert (F : forall (A : Type) (f : CombinedAccountPortfolio.t -> A)
                (g : CombinedAccountPortfolio.t -> CombinedAccountPortfolio.t),
            (forall c, f (g c) = f c) ->
            map f (map g combinedAccounts) = map f combinedAccounts).
  { intros A f g H. rewrite map_map. now apply map_ext. }
  split; [apply F; intros c; now destruct (_ <? _)%nat|].
  split; [apply F; intros c; now destruct (_ <? _)%nat|].
  split; [apply F; intros c; now destruct (_ <? _)%nat|].
  split; [apply F; intros c; now destruct (_ <? _)%nat|].
  intros c Hc. apply in_map_iff in Hc as (c0 & <- & _).
  assert (M : forall (sel : PortfolioChange -> list string) h,
            In h (flat_map sel (CombinedAccounts.changesOf changes c0)) <->
            exists change,
              In change changes
              /\ CombinedAccountService.extractBaseAccountName (accountName change)
                 = CombinedAccountPortfolio.baseAccountName c0
              /\ In h (sel change)).
  { intros sel h. rewrite in_flat_map. unfold CombinedAccounts.changesOf.
    split; intros (x & Hx & Hh); exists x.
    - apply filter_In in Hx as [I E]. apply String.eqb_eq in E. now repeat split.
    - destruct Hh as [E Hh]. split; [|exact Hh]. apply filter_In.
      split; [exact Hx | now apply String.eqb_eq]. }
  assert (U : forall l : list string, JS.uniq l <> [] <-> l <> []).
  { intros [|x l]; simpl; split; congruence. }
  assert (Z : forall l : list string, (0 <? List.length l)%nat = true <-> l <> []).
  { intros [|x l]; simpl; split; intros X;
      solve [reflexivity | discriminate | now contradiction X]. }
  destruct (0 <? List.length (CombinedAccounts.changesOf changes c0))%nat eqn:E.
  - eexists. split; [reflexivity|].
    cbn [AccountChanges.addedHoldings AccountChanges.removedHoldings
         AccountChanges.hasChanges CombinedAccounts.withChanges
         CombinedAccountPortfolio.baseAccountName].
    split; [apply ReportFacts.NoDup_uniq|]. split; [apply ReportFacts.NoDup_uniq|].
    split; [intros h; rewrite LookupFacts.In_uniq; apply M|].
    split; [intros h; rewrite LookupFacts.In_uniq; apply M|].
    rewrite Bool.orb_true_iff, !Z, !U. reflexivity.
  - eexists. split; [reflexivity|].
    cbn [AccountChanges.addedHoldings AccountChanges.removedHoldings
         AccountChanges.hasChanges CombinedAccounts.withChanges
         CombinedAccountPortfolio.baseAccountName].
    assert (N : CombinedAccounts.changesOf changes c0 = []).
    { destruct (CombinedAccounts.changesOf changes c0); [reflexivity | discriminate]. }
    split; [constructor|]. split; [constructor|].
    split; [|split].
    + intros h. rewrite <- (M addedHoldings), N. reflexivity.
    + intros h. rewrite <- (M removedHoldings), N. reflexivity.
    + split; [discriminate | intros [X | X]; now contradiction X].
Qed.

(** The changes of the account in US dollars and of the account in
    Canadian dollars are merged under their common base name, and a
    change with two empty lists does not raise [hasChanges]. *)
Example addChangeData_merges_currencies :
  let accounts :=
    CombinedAccounts.groupAccountsByCurrency
      [ Sample.accountOf "Glen RRSP $USD" "2024-12-16" [];
        Sample.accountOf "Glen RRSP $CAD" "2024-12-16" [];
        Sample.accountOf "Anne TFSA $CAD" "2024-12-16" [] ] in
  let changes :=
    [ {| modelName := "Growth"; accountName := "Glen RRSP $USD";
         addedHoldings := ["NVDA (22%)"]; removedHoldings := []; date := "2024-12-16" |};
      {| modelName := "Income"; accountName := "Glen RRSP $CAD";
         addedHoldings := ["NVDA (22%)"; "PXT.TO (18%)"]; removedHoldings := [];
         date := "2024-12-16" |};
      {| modelName := "Cash Reserve"; accountName := "Anne TFSA $CAD";
         addedHoldings := []; removedHoldings := []; date := "2024-12-16" |} ] in
  map (fun c => (CombinedAccountPortfolio.baseAccountName c,
                 CombinedAccountPortfolio.changes c))
      (CombinedAccounts.addChangeDataToCombinedAccounts accounts changes "2024-12-16")
  = [ ("Glen RRSP",
       Some {| AccountChanges.addedHoldings := ["NVDA (22%)"; "PXT.TO (18%)"];
               AccountChanges.removedHoldings := [];
               AccountChanges.hasChanges := true |});
      ("Anne TFSA",
       Some {| AccountChanges.addedHoldings := [];
               AccountChanges.removedHoldings := [];
               AccountChanges.hasChanges := false |}) ].
Proof. vm_compute. reflexivity. Qed.

Module CombinedServiceFacts.

Import CombinedAccounts.

Lemma resolveToday_again (now : string) (dateStr : option string) :
  resolveToday now (Some (resolveToday now dateStr)) = resolveToday now dateStr.
Proof.
  unfold resolveToday, JS.orElse.
  destruct dateStr as [d|]; [destruct d as [|c d]|]; cbn [JS.truthy];
    destruct now as [|c' n]; reflexivity.
Qed.

(** What the detector does on a closed day, and what it logs on a
    trading day. *)
Lemma detectChanges_closed_day
    (host : DateModel.Host)
    (getAccountPortfolios : string -> outcome (list AccountPortfolio.t))
    (now : string) (localeCompare : string -> string -> Z)
    (fuel : nat) (todayDate : option string) (log : list string) :
  isTradingDay host (resolveToday now todayDate) = false ->
  exists alert,
    detectChanges host getAccountPortfolios now localeCompare fuel todayDate log
    = (Returned alert, log)
    /\ ChangeAlert.changes alert = [].
Proof.
  intros H. unfold detectChanges, getNoChangeReason. rewrite H. cbn [negb].
  destruct (isWeekend _); eexists; split; reflexivity.
Qed.

Lemma detectChanges_trading_day_log
    (host : DateModel.Host) (offset : Z)
    (getAccountPortfolios : string -> outcome (list AccountPortfolio.t))
    (now : string) (localeCompare : string -> string -> Z)
    (fuel : nat) (todayDate : option string) (d : Z) (log : list string) :
  steadyAround host offset d 7 -> (- msPerDay < offset < msPerDay)%Z ->
  resolveToday now todayDate = isoOfDay d ->
  (DayFromYear 1 <= d < DayFromYear 9999)%Z ->
  isTradingDay host (isoOfDay d) = true -> (5 <= fuel)%nat ->
  exists k, (1 <= k <= 5)%Z
    /\ isTradingDay host (isoOfDay (d - k)) = true
    /\ (forall j, (1 <= j < k)%Z -> isTradingDay host (isoOfDay (d - j)) = false)
    /\ snd (detectChanges host getAccountPortfolios now localeCompare fuel todayDate log)
       = (log ++ [isoOfDay d; isoOfDay (d - k)])%list.
Proof.
  intros Fx Sm R Hd T Hf.
  destruct (previous_nearest host offset d fuel Fx Sm Hd Hf) as (k & Hk & L & Tk & B).
  exists k. split; [exact Hk|]. split; [exact Tk|]. split; [exact B|].
  unfold detectChanges. rewrite R, T. cbn [negb].
  unfold bind, lift. rewrite L. unfold fetchBoth.
  destruct (getAccountPortfolios (isoOfDay d)) as [tp| |];
    destruct (getAccountPortfolios (isoOfDay (d - k))) as [pp| |]; try reflexivity.
  destruct (fold_left _ tp _) as [changes affected]. reflexivity.
Qed.

Lemma compareCombined_total (localeCompare : string -> string -> Z) :
  (forall a b, (localeCompare a b <= 0)%Z \/ (localeCompare b a <= 0)%Z) ->
  forall a b, (compareCombined localeCompare a b <= 0)%Z
              \/ (compareCombined localeCompare b a <= 0)%Z.
Proof. intros T a b. apply T. Qed.

Lemma setCombinedAccounts_entry {T : Type} (c : CacheService.store T)
    (t t' : Z) (date : string) (d : T) :
  CacheService.mapGet (CacheService.setCombinedAccounts c t t' date d)
    ("combined-accounts-" ++ date)
  = Some {| CacheService.data := d; CacheService.timestamp := t;
            CacheService.expiresAt := (t' + 3600000)%Z |}.
Proof.
  unfold CacheService.setCombinedAccounts, CacheService.set.
  apply CacheFacts.mapGet_mapSet_same.
Qed.

Lemma addChangeData_names (l : list CombinedAccountPortfolio.t)
    (changes : list PortfolioChange) (date : string) :
  map CombinedAccountPortfolio.baseAccountName
      (addChangeDataToCombinedAccounts l changes date)
  = map CombinedAccountPortfolio.baseAccountName l.
Proof.
  unfold addChangeDataToCombinedAccounts. rewrite map_map. apply map_ext.
  intros c. now destruct (_ <? _)%nat.
Qed.

Lemma addChangeData_no_changes (l : list CombinedAccountPortfolio.t) (date : string) :
  forall c, In c (addChangeDataToCombinedAccounts l [] date) ->
    CombinedAccountPortfolio.changes c
    = Some {| AccountChanges.addedHoldings := [];
              AccountChanges.removedHoldings := [];
              AccountChanges.hasChanges := false |}.
Proof.
  intros c H. unfold addChangeDataToCombinedAccounts in H.
  apply in_map_iff in H as (c0 & <- & _). reflexivity.
Qed.

Lemma sortBy_names (localeCompare : string -> string -> Z)
    (l : list CombinedAccountPortfolio.t) :
  map CombinedAccountPortfolio.baseAccountName
      (JS.sortBy (compareCombined localeCompare) l)
  = JS.sortBy localeCompare (map CombinedAccountPortfolio.baseAccountName l).
Proof.
  induction l as [|x l IH]; [reflexivity|].
  unfold JS.sortBy in *. cbn [fold_right map]. rewrite <- IH.
  generalize (fold_right (JS.insertBy (compareCombined localeCompare)) [] l).
  induction l0 as [|y l0 IH0]; [reflexivity|]. cbn [JS.insertBy map].
  unfold compareCombined at 1.
  destruct (localeCompare _ _ <=? 0)%Z; cbn [map]; [reflexivity|].
  now rewrite IH0.
Qed.

Lemma combined_names (localeCompare : string -> string -> Z)
    (accountPortfolios : list AccountPortfolio.t) (changes : list PortfolioChange)
    (date : string) :
  map CombinedAccountPortfolio.baseAccountName
      (JS.sortBy (compareCombined localeCompare)
         (addChangeDataToCombinedAccounts (groupAccountsByCurrency accountPortfolios)
            changes date))
  = JS.sortBy localeCompare (JS.uniq (map baseOf accountPortfolios)).
Proof.
  rewrite sortBy_names, addChangeData_names.
  rewrite CombinedFacts.groupAccountsByCurrency_build, map_map.
  cbn [combinedOf CombinedAccountPortfolio.baseAccountName].
  now rewrite map_id.
Qed.

(** A live entry is returned as it is. *)
Lemma getCombinedAccountPortfolios_hit
    (host : DateModel.Host)
    (getAccountPortfolios : string -> outcome (list AccountPortfolio.t))
    (now : string) (localeCompare : string -> string -> Z)
    (fuel : nat) (atGet atSet atSet' : Z) (dateStr : option string)
    (cache : CacheService.store (list CombinedAccountPortfolio.t))
    (entry : CacheService.CacheEntry (list CombinedAccountPortfolio.t))
    (log : list string) :
  CacheService.mapGet cache ("combined-accounts-" ++ resolveToday now dateStr)
  = Some entry ->
  (atGet <= CacheService.expiresAt entry)%Z ->
  getCombinedAccountPortfolios host getAccountPortfolios now localeCompare
    fuel (atGet, atSet, atSet') dateStr (cache, log)
  = (Returned (CacheService.data entry), (cache, log)).
Proof.
  intros G L. unfold getCombinedAccountPortfolios.
  unfold CacheService.getCombinedAccounts, CacheService.get. rewrite G.
  destruct (Z.ltb_spec (CacheService.expiresAt entry) atGet); [lia | reflexivity].
Qed.

End CombinedServiceFacts.

(** X18.  A successful call of [getCombinedAccountPortfolios] leaves its result
    in the cache under the key of the date; when the result was not taken
    from the cache it expires one hour after the second reading of the
    clock at the store.  Until the expiry every further call for the same
    date returns this very result, calls no service and leaves the cache
    as it is. *)
Theorem getCombinedAccountPortfolios_caches_result
    (host : DateModel.Host)
    (getAccountPortfolios : string -> outcome (list AccountPortfolio.t))
    (now : string) (localeCompare : string -> string -> Z)
    (fuel : nat) (atGet atSet atSet' : Z) (dateStr : option string)
    (cache cache' : CacheService.store (list CombinedAccountPortfolio.t))
    (log log' : list string) (result : list CombinedAccountPortfolio.t) :
  CombinedAccounts.getCombinedAccountPortfolios host getAccountPortfolios now localeCompare
    fuel (atGet, atSet, atSet') dateStr (cache, log)
  = (Returned result, (cache', log')) ->
  exists entry,
    CacheService.mapGet cache' ("combined-accounts-" ++ resolveToday now dateStr)
    = Some entry
    /\ CacheService.data entry = result
    /\ (fst (CacheService.getCombinedAccounts cache atGet (resolveToday now dateStr))
        = None ->
        CacheService.timestamp entry = atSet
        /\ CacheService.expiresAt entry = (atSet' + 3600000)%Z)
    /\ (forall cached,
          fst (CacheService.getCombinedAccounts cache atGet (resolveToday now dateStr))
          = Some cached ->
          cached = result /\ cache' = cache /\ log' = log)
    /\ (forall fuel2 atGet2 atSet2 atSet2' log2,
          (atGet2 <= CacheService.expiresAt entry)%Z ->
          CombinedAccounts.getCombinedAccountPortfolios host getAccountPortfolios now
            localeCompare fuel2 (atGet2, atSet2, atSet2') dateStr (cache', log2)
          = (Returned result, (cache', log2))).
Proof.
  assert (Hit : forall c e,
            CacheService.mapGet c ("combined-accounts-" ++ resolveToday now dateStr)
            = Some e ->
            forall fuel2 atGet2 atSet2 atSet2' log2,
              (atGet2 <= CacheService.expiresAt e)%Z ->
              CombinedAccounts.getCombinedAccountPortfolios host getAccountPortfolios now
                localeCompare fuel2 (atGet2, atSet2, atSet2') dateStr (c, log2)
              = (Returned (CacheService.data e), (c, log2))).
  { intros c e G fuel2 atGet2 atSet2 atSet2' log2 L.
    now apply CombinedServiceFacts.getCombinedAccountPortfolios_hit. }
  unfold CombinedAccounts.getCombinedAccountPortfolios at 1.
  set (date := resolveToday now dateStr) in *.
  unfold CacheService.getCombinedAccounts, CacheService.get.
  destruct (CacheService.mapGet cache ("combined-accounts-" ++ date)) as [e|] eqn:G.
  - destruct (Z.ltb_spec (CacheService.expiresAt e) atGet) as [L|L].
    + (* expired: deleted, then computed and stored *)
      cbn [fst].
      destruct (getAccountPortfolios date) as [aps| |]; try discriminate.
      destruct (detectChanges _ _ _ _ _ _) as [[alert| |] lg]; try discriminate.
      intros [= <- <- <-].
      eexists. split; [apply CombinedServiceFacts.setCombinedAccounts_entry|].
      cbn [CacheService.data CacheService.timestamp CacheService.expiresAt].
      split; [reflexivity|]. split; [intros _; split; reflexivity|].
      split; [intros cached X; discriminate X|].
      intros fuel2 atGet2 atSet2 atSet2' log2 L2.
      apply (Hit _ _ (CombinedServiceFacts.setCombinedAccounts_entry _ _ _ _ _)
               fuel2 atGet2 atSet2 atSet2' log2 L2).
    + (* a live entry *)
      cbn [fst]. intros [= <- <- <-]. exists e. split; [exact G|].
      split; [reflexivity|]. split; [intros X; discriminate X|].
      split; [intros cached [= <-]; now repeat split|].
      intros fuel2 atGet2 atSet2 atSet2' log2 L2.
      apply (Hit _ _ G fuel2 atGet2 atSet2 atSet2' log2 L2).
  - cbn [fst].
    destruct (getAccountPortfolios date) as [aps| |]; try discriminate.
    destruct (detectChanges _ _ _ _ _ _) as [[alert| |] lg]; try discriminate.
    intros [= <- <- <-].
    eexists. split; [apply CombinedServiceFacts.setCombinedAccounts_entry|].
    cbn [CacheService.data CacheService.timestamp CacheService.expiresAt].
    split; [reflexivity|]. split; [intros _; split; reflexivity|].
    split; [intros cached X; discriminate X|].
    intros fuel2 atGet2 atSet2 atSet2' log2 L2.
    apply (Hit _ _ (CombinedServiceFacts.setCombinedAccounts_entry _ _ _ _ _)
             fuel2 atGet2 atSet2 atSet2' log2 L2).
Qed.

Lemma getCombinedAccountPortfolios_caches_result_witness :
  exists result cache' log',
    CombinedAccounts.getCombinedAccountPortfolios Sample.utc Sample.twoDays "2024-12-16"
      Sample.collate 5 (0, 10, 20)%Z None ([], [])
    = (Returned result, (cache', log'))
    /\ exists entry,
         CacheService.mapGet cache' ("combined-accounts-" ++ resolveToday "2024-12-16" None)
         = Some entry
         /\ CacheService.data entry = result.
Proof.
  eexists. eexists. eexists. split; [vm_compute; reflexivity|].
  match goal with
  | |- exists entry, CacheService.mapGet ?c _ = _ /\ CacheService.data entry = ?r =>
      eassert (E : CombinedAccounts.getCombinedAccountPortfolios Sample.utc Sample.twoDays
                     "2024-12-16" Sample.collate 5 (0, 10, 20)%Z None ([], [])
                   = (Returned r, (c, _))) by (vm_compute; reflexivity)
  end.
  destruct (getCombinedAccountPortfolios_caches_result _ _ _ _ _ _ _ _ _ _ _ _ _ _ E)
    as (entry & G & D & _).
  exists entry. split; [exact G | exact D].
Defined.

(** X19.  When the cache has nothing for the date and the account service
    answers, a result of [getCombinedAccountPortfolios] has the base names
    of the accounts, each once, in the order of the collation, and every
    combined account has its changes.  On a date that [isTradingDay]
    refuses the account service is asked for the day once, and every
    combined account gets empty changes with [hasChanges] false.  On a
    date that it accepts, on a host whose offset from UTC does not change
    within a week of the date, the detector asks again, so that the day
    is fetched twice and the nearest earlier date that [isTradingDay]
    accepts once. *)
Theorem getCombinedAccountPortfolios_fetches
    (host : DateModel.Host)
    (getAccountPortfolios : string -> outcome (list AccountPortfolio.t))
    (now : string) (localeCompare : string -> string -> Z)
    (fuel : nat) (atGet atSet atSet' : Z) (dateStr : option string)
    (cache : CacheService.store (list CombinedAccountPortfolio.t))
    (log : list string) (accountPortfolios : list AccountPortfolio.t) :
  let date := resolveToday now dateStr in
  let call :=
    CombinedAccounts.getCombinedAccountPortfolios host getAccountPortfolios now
      localeCompare fuel (atGet, atSet, atSet') dateStr (cache, log) in
  fst (CacheService.getCombinedAccounts cache atGet date) = None ->
  getAccountPortfolios date = Returned accountPortfolios ->
  (forall result,
     fst call = Returned result ->
     map CombinedAccountPortfolio.baseAccountName result
     = JS.sortBy localeCompare
         (JS.uniq (map CombinedAccounts.baseOf accountPortfolios))
     /\ forall c, In c result -> CombinedAccountPortfolio.changes c <> None)
  /\ (isTradingDay host date = false ->
   exists result,
     fst call = Returned result
     /\ snd (snd call) = (log ++ [date])%list
     /\ forall c, In c result ->
          CombinedAccountPortfolio.changes c
          = Some {| AccountChanges.addedHoldings := [];
                    AccountChanges.removedHoldings := [];
                    AccountChanges.hasChanges := false |})
  /\ (forall offset d,
        steadyAround host offset d 7 -> (- msPerDay < offset < msPerDay)%Z ->
        date = isoOfDay d ->
        (DayFromYear 1 <= d < DayFromYear 9999)%Z ->
        isTradingDay host (isoOfDay d) = true -> (5 <= fuel)%nat ->
        exists k, (1 <= k <= 5)%Z
          /\ isTradingDay host (isoOfDay (d - k)) = true
          /\ (forall j, (1 <= j < k)%Z -> isTradingDay host (isoOfDay (d - j)) = false)
          /\ snd (snd call) = (log ++ [date; date; isoOfDay (d - k)])%list).
Proof.
  intros date call M A. unfold call, CombinedAccounts.getCombinedAccountPortfolios.
  fold date.
  destruct (CacheService.getCombinedAccounts cache atGet date) as [[cached|] cache1];
    [discriminate M|]. rewrite A. split; [|split].
  - intros result.
    destruct (detectChanges _ _ _ _ _ _) as [[alert| |] lg]; cbn [fst];
      try discriminate.
    intros [= <-]. split; [apply CombinedServiceFacts.combined_names|].
    intros c Hc. apply DetectFacts.In_sortBy in Hc.
    unfold CombinedAccounts.addChangeDataToCombinedAccounts in Hc.
    apply in_map_iff in Hc as (c0 & <- & _).
    destruct (_ <? _)%nat; discriminate.
  - intros Closed.
    destruct (CombinedServiceFacts.detectChanges_closed_day host getAccountPortfolios now
                localeCompare fuel (Some date) (log ++ [date])%list) as (alert & E & Ch).
    { unfold date. now rewrite CombinedServiceFacts.resolveToday_again. }
    rewrite E, Ch. eexists. split; [reflexivity|]. split; [reflexivity|].
    intros c Hc. apply DetectFacts.In_sortBy in Hc.
    now apply CombinedServiceFacts.addChangeData_no_changes in Hc.
  - intros offset d Fx Sm Ed Hd T Hf.
    destruct (CombinedServiceFacts.detectChanges_trading_day_log host offset
                getAccountPortfolios now
                localeCompare fuel (Some date) d (log ++ [date])%list) as (k & Hk & Tk & B & S);
      try assumption.
    { unfold date. rewrite CombinedServiceFacts.resolveToday_again. exact Ed. }
    exists k. split; [exact Hk|]. split; [exact Tk|]. split; [exact B|].
    destruct (detectChanges _ _ _ _ _ _) as [[alert| |] lg]; cbn [snd] in *;
      rewrite S, <- app_assoc, Ed; reflexivity.
Qed.

Lemma getCombinedAccountPortfolios_fetches_witness :
  fst (CacheService.getCombinedAccounts
         (@nil (string * CacheService.CacheEntry (list CombinedAccountPortfolio.t)))
         0 (resolveToday "2024-12-14" None)) = None
  /\ Sample.twoDays (resolveToday "2024-12-14" None)
     = Returned [Sample.accountOf "Glen RRSP $USD" "2024-12-14"
                   [Sample.modelOf "Growth" ["NVDA (21%)"]; Sample.modelOf "Cash Reserve" []]]
  /\ isTradingDay Sample.utc (resolveToday "2024-12-14" None) = false
  /\ exists result,
       fst (CombinedAccounts.getCombinedAccountPortfolios Sample.utc Sample.twoDays "2024-12-14"
              Sample.collate 5 (0, 10, 20)%Z None ([], [])) = Returned result
       /\ snd (snd (CombinedAccounts.getCombinedAccountPortfolios Sample.utc Sample.twoDays
                      "2024-12-14" Sample.collate 5 (0, 10, 20)%Z None ([], [])))
          = ([] ++ [resolveToday "2024-12-14" None])%list.
Proof.
  assert (M : fst (CacheService.getCombinedAccounts
                     (@nil (string * CacheService.CacheEntry
                                        (list CombinedAccountPortfolio.t)))
                     0 (resolveToday "2024-12-14" None)) = None) by reflexivity.
  assert (A : Sample.twoDays (resolveToday "2024-12-14" None)
              = Returned [Sample.accountOf "Glen RRSP $USD" "2024-12-14"
                            [Sample.modelOf "Growth" ["NVDA (21%)"];
                             Sample.modelOf "Cash Reserve" []]]) by reflexivity.
  assert (C : isTradingDay Sample.utc (resolveToday "2024-12-14" None) = false) by reflexivity.
  split; [exact M|]. split; [exact A|]. split; [exact C|].
  destruct (proj1 (proj2 (getCombinedAccountPortfolios_fetches Sample.utc Sample.twoDays
                            "2024-12-14" Sample.collate 5 0 10 20 None [] [] _ M A)) C)
    as (result & R & L & _).
  exists result. split; [exact R | exact L].
Defined.

(** On Monday 16 December 2024 the day is fetched twice and the Friday
    once at UTC; five hours west of it the Monday passes for closed and
    is fetched once. *)
Example getCombinedAccountPortfolios_monday_fetches :
  snd (snd (CombinedAccounts.getCombinedAccountPortfolios Sample.utc Sample.twoDays
              "2024-12-16" Sample.collate 5 (0, 10, 20)%Z None ([], [])))
  = ["2024-12-16"; "2024-12-16"; "2024-12-13"]
  /\ snd (snd (CombinedAccounts.getCombinedAccountPortfolios Sample.west Sample.twoDays
                 "2024-12-16" Sample.collate 5 (0, 10, 20)%Z None ([], [])))
     = ["2024-12-16"].
Proof. split; vm_compute; reflexivity. Qed.

(** ** Email parser: headers and cells *)

Module HeaderFacts.

Import EmailParser.

Local Open Scope Z_scope.

Lemma findIndexFrom_spec (p : string -> bool) :
  forall (l : list string) (i : Z),
    0 <= i ->
    (findIndexFrom p l i = -1 /\ forall x, In x l -> p x = false)
    \/ (exists before x after,
          l = (before ++ x :: after)%list
          /\ findIndexFrom p l i = i + Z.of_nat (List.length before)
          /\ p x = true /\ forall y, In y before -> p y = false).
Proof.
  induction l as [|x l IH]; intros i Hi; cbn [findIndexFrom].
  - left. split; [reflexivity | intros x []].
  - destruct (p x) eqn:E.
    + right. exists [], x, l. cbn [app List.length]. split; [reflexivity|].
      split; [lia|]. split; [exact E | intros y []].
    + destruct (IH (i + 1) ltac:(lia)) as [[R N] | (b & y & a & -> & R & Py & B)].
      * left. split; [exact R|]. intros z [<- | Hz]; [exact E | now apply N].
      * right. exists (x :: b), y, a. cbn [app List.length]. split; [reflexivity|].
        split; [rewrite R; lia|]. split; [exact Py|].
        intros z [<- | Hz]; [exact E | now apply B].
Qed.

End HeaderFacts.

(** X20.  [findHeaderIndex] returns -1 exactly when no header contains any of
    the search terms.  Otherwise it returns the index of a header: the
    first header, from the left, that contains the first search term
    contained in any header; so an earlier search term wins over an
    earlier column. *)
Theorem findHeaderIndex_first_term_first_header (headers searchTerms : list string) :
  (EmailParser.findHeaderIndex headers searchTerms = (-1)%Z /\
   forall term header, In term searchTerms -> In header headers ->
     JS.includes header term = false)
  \/ (exists earlier term later before header after,
        searchTerms = (earlier ++ term :: later)%list
        /\ headers = (before ++ header :: after)%list
        /\ EmailParser.findHeaderIndex headers searchTerms
           = Z.of_nat (List.length before)
        /\ JS.includes header term = true
        /\ (forall h, In h before -> JS.includes h term = false)
        /\ (forall t h, In t earlier -> In h headers -> JS.includes h t = false)).
Proof.
  induction searchTerms as [|term rest IH]; cbn [EmailParser.findHeaderIndex].
  - left. split; [reflexivity | intros t h []].
  - unfold EmailParser.findIndex.
    destruct (HeaderFacts.findIndexFrom_spec (fun header => JS.includes header term)
                headers 0 ltac:(lia)) as [[R N] | (b & x & a & E & R & Px & B)].
    + rewrite R. cbn [Z.eqb negb].
      destruct IH as [[R' N'] | (e & t & l & b & h & a & E1 & E2 & R' & P & B & C)].
      * left. split; [exact R'|].
        intros t h [<- | Ht] Hh; [now apply N | now apply N'].
      * right. exists (term :: e), t, l, b, h, a. cbn [app].
        split; [now rewrite E1|]. split; [exact E2|]. split; [exact R'|].
        split; [exact P|]. split; [exact B|].
        intros t0 h0 [<- | Ht] Hh; [now apply N | now apply C].
    + rewrite R. cbn [Z.add].
      destruct (Z.eqb_spec (Z.of_nat (List.length b)) (-1)) as [X|_]; [lia|].
      cbn [negb]. right. exists [], term, rest, b, x, a. cbn [app].
      split; [reflexivity|]. split; [exact E|]. split; [reflexivity|].
      split; [exact Px|]. split; [exact B|]. intros t h [].
Qed.

(** The symbol column of a table whose first header is [security name]
    and whose second header is [symbol] is the second column. *)
Example findHeaderIndex_prefers_first_term :
  EmailParser.findHeaderIndex ["security name"; "symbol"; "value"]
    ["symbol"; "ticker"; "security"] = 1%Z
  /\ EmailParser.findHeaderIndex ["security name"; "shares"; "value"]
       ["symbol"; "ticker"; "security"] = 0%Z
  /\ EmailParser.findHeaderIndex ["name"; "final equity"] ["symbol"; "ticker"; "security"]
     = (-1)%Z.
Proof. vm_compute. repeat split. Qed.

Module CellFacts.

Import EmailParser.

(** One to five characters of a class, and nothing else. *)
Lemma one_to_five (p : ascii -> bool) (t : string) :
  testAtStart
    (Cat (Chr p)
      (Cat (optional (Chr p))
       (Cat (optional (Chr p))
        (Cat (optional (Chr p)) (Cat (optional (Chr p)) Eoi))))) t
  = JS.allChars p t && (1 <=? length t)%nat && (length t <=? 5)%nat.
Proof.
  unfold testAtStart, matchAt, optional.
  destruct t as [|c1 [|c2 [|c3 [|c4 [|c5 [|c6 t]]]]]];
    cbn [exec JS.allChars length Nat.leb andb];
    repeat match goal with
           | |- context [p ?c] => destruct (p c); cbn [exec andb]
           end;
    rewrite ?Bool.andb_true_r, ?Bool.andb_false_r; reflexivity.
Qed.

Lemma looksLikeSymbol_shape (text : string) :
  looksLikeSymbol text
  = JS.allChars JS.isUpperAZ (JS.trim text)
    && (1 <=? length (JS.trim text))%nat && (length (JS.trim text) <=? 5)%nat.
Proof. apply one_to_five. Qed.

(** What the loop of [guessCellMeaning] keeps, when it has seen the
    cells [seen]. *)
Lemma guess_loop :
  forall (cells seen : list string) (g : guess),
    ((g_symbol g = EmptyString /\ forall c, In c seen -> looksLikeSymbol c = false)
     \/ (exists before after,
           seen = (before ++ g_symbol g :: after)%list
           /\ looksLikeSymbol (g_symbol g) = true
           /\ forall c, In c after -> looksLikeSymbol c = false)) ->
    (g_quantity g = Num.zero
     \/ exists c, In c seen /\ looksLikeQuantity c = true
                  /\ g_quantity g = parseNumber c) ->
    (g_value g = Num.zero
     \/ exists c, In c seen /\ looksLikeValue c = true /\ g_value g = parseNumber c) ->
    let g' := fold_left guessStep cells g in
    ((g_symbol g' = EmptyString
      /\ forall c, In c (seen ++ cells) -> looksLikeSymbol c = false)
     \/ (exists before after,
           (seen ++ cells)%list = (before ++ g_symbol g' :: after)%list
           /\ looksLikeSymbol (g_symbol g') = true
           /\ forall c, In c after -> looksLikeSymbol c = false))
    /\ (g_quantity g' = Num.zero
        \/ exists c, In c (seen ++ cells) /\ looksLikeQuantity c = true
                     /\ g_quantity g' = parseNumber c)
    /\ (g_value g' = Num.zero
        \/ exists c, In c (seen ++ cells) /\ looksLikeValue c = true
                     /\ g_value g' = parseNumber c).
Proof.
  induction cells as [|cell cells IH]; intros seen g S Q V; cbn [fold_left].
  - rewrite app_nil_r. now repeat split.
  - assert (More : forall (P : string -> Prop),
              (exists c, In c seen /\ P c) -> exists c, In c (seen ++ [cell]) /\ P c).
    { intros P (c & I & H). exists c. split; [apply in_or_app; now left | exact H]. }
    assert (Here : In cell (seen ++ [cell])) by (apply in_or_app; right; now left).
    replace (seen ++ cell :: cells)%list with ((seen ++ [cell]) ++ cells)%list
      by (now rewrite <- app_assoc).
    apply IH; unfold guessStep.
    + destruct (looksLikeSymbol cell) eqn:E.
      * right. exists seen, []. cbn [g_symbol]. split; [reflexivity|].
        split; [exact E | intros c []].
      * assert (Keep : (g_symbol g = EmptyString
                        /\ forall c, In c (seen ++ [cell]) -> looksLikeSymbol c = false)
                       \/ (exists before after,
                             (seen ++ [cell])%list = (before ++ g_symbol g :: after)%list
                             /\ looksLikeSymbol (g_symbol g) = true
                             /\ forall c, In c after -> looksLikeSymbol c = false)).
        { destruct S as [[Z N] | (b & a & -> & L & N)].
          - left. split; [exact Z|]. intros c Hc.
            apply in_app_or in Hc as [Hc | [<- | []]]; [now apply N | exact E].
          - right. exists b, (a ++ [cell])%list.
            split; [now rewrite <- app_assoc|]. split; [exact L|].
            intros c Hc. apply in_app_or in Hc as [Hc | [<- | []]];
              [now apply N | exact E]. }
        destruct (looksLikeQuantity cell); [exact Keep|].
        destruct (looksLikePrice cell && strictEq (g_price g) Num.zero); [exact Keep|].
        destruct (looksLikeValue cell); exact Keep.
    + assert (Keep : g_quantity g = Num.zero
                     \/ exists c, In c (seen ++ [cell]) /\ looksLikeQuantity c = true
                                  /\ g_quantity g = parseNumber c).
      { destruct Q as [Z | H]; [now left | right].
        apply (More (fun c => looksLikeQuantity c = true
                              /\ g_quantity g = parseNumber c) H). }
      destruct (looksLikeSymbol cell); [exact Keep|].
      destruct (looksLikeQuantity cell) eqn:E.
      * right. exists cell. now repeat split.
      * destruct (looksLikePrice cell && strictEq (g_price g) Num.zero); [exact Keep|].
        destruct (looksLikeValue cell); exact Keep.
    + assert (Keep : g_value g = Num.zero
                     \/ exists c, In c (seen ++ [cell]) /\ looksLikeValue c = true
                                  /\ g_value g = parseNumber c).
      { destruct V as [Z | H]; [now left | right].
        apply (More (fun c => looksLikeValue c = true /\ g_value g = parseNumber c) H). }
      destruct (looksLikeSymbol cell); [exact Keep|].
      destruct (looksLikeQuantity cell); [exact Keep|].
      destruct (looksLikePrice cell && strictEq (g_price g) Num.zero); [exact Keep|].
      destruct (looksLikeValue cell) eqn:E; [|exact Keep].
      right. exists cell. now repeat split.
Qed.

End CellFacts.

(** X21.  [looksLikeSymbol] accepts a text exactly when, trimmed, it is made of
    one to five capital letters.  A holding guessed from the cells of a
    row has such a cell as its symbol, the last one of the row, and the
    same text as its name; its quantity is above 0 or its value is; the
    quantity, when not 0, is the number of a cell that looks like a
    quantity, and the value, when not 0, the number of a cell that looks
    like a value.  A row without such a cell gives no holding. *)
Theorem guessCellMeaning_symbol_cell (cells : list string) :
  (forall text,
     EmailParser.looksLikeSymbol text = true <->
     JS.allChars JS.isUpperAZ (JS.trim text) = true
     /\ (1 <= length (JS.trim text) <= 5)%nat)
  /\ (forall h, EmailParser.guessCellMeaning cells = Some h ->
        (exists before after,
           cells = (before ++ h_symbol h :: after)%list
           /\ EmailParser.looksLikeSymbol (h_symbol h) = true
           /\ forall c, In c after -> EmailParser.looksLikeSymbol c = false)
        /\ h_name h = h_symbol h
        /\ dayChange h = Num.zero /\ dayChangePercent h = Num.zero
        /\ h_performance h = None
        /\ (EmailParser.gt (quantity h) Num.zero = true
            \/ EmailParser.gt (value h) Num.zero = true)
        /\ (quantity h = Num.zero
            \/ exists c, In c cells /\ EmailParser.looksLikeQuantity c = true
                         /\ quantity h = EmailParser.parseNumber c)
        /\ (value h = Num.zero
            \/ exists c, In c cells /\ EmailParser.looksLikeValue c = true
                         /\ value h = EmailParser.parseNumber c))
  /\ ((forall c, In c cells -> EmailParser.looksLikeSymbol c = false) ->
      EmailParser.guessCellMeaning cells = None).
Proof.
  split; [|split].
  - intros text. rewrite CellFacts.looksLikeSymbol_shape.
    rewrite !Bool.andb_true_iff, Nat.leb_le, Nat.leb_le. tauto.
  - intros h. unfold EmailParser.guessCellMeaning.
    pose proof (CellFacts.guess_loop cells []
                  {| EmailParser.g_symbol := EmptyString;
                     EmailParser.g_quantity := Num.zero;
                     EmailParser.g_value := Num.zero;
                     EmailParser.g_price := Num.zero |}
                  (or_introl (conj eq_refl (fun c (H : In c []) => False_ind _ H)))
                  (or_introl eq_refl) (or_introl eq_refl)) as (S & Q & V).
    cbn [app] in *.
    destruct (JS.truthy _) eqn:T; cbn [andb]; [|discriminate].
    destruct (_ || _) eqn:G; [|discriminate].
    intros [= <-]. cbn [h_symbol h_name quantity value dayChange dayChangePercent
                        h_performance].
    split; [|split; [reflexivity|split; [reflexivity|split; [reflexivity|
             split; [reflexivity|split; [|split; [exact Q | exact V]]]]]]].
    + destruct S as [[Z _] | S]; [|exact S]. rewrite Z in T. discriminate T.
    + now apply Bool.orb_true_iff in G.
  - intros N. unfold EmailParser.guessCellMeaning.
    pose proof (CellFacts.guess_loop cells []
                  {| EmailParser.g_symbol := EmptyString;
                     EmailParser.g_quantity := Num.zero;
                     EmailParser.g_value := Num.zero;
                     EmailParser.g_price := Num.zero |}
                  (or_introl (conj eq_refl (fun c (H : In c []) => False_ind _ H)))
                  (or_introl eq_refl) (or_introl eq_refl)) as (S & _).
    cbn [app] in *.
    destruct S as [[Z _] | (b & a & E & L & _)].
    + now rewrite Z.
    + rewrite N in L; [discriminate|].
      set (sym := EmailParser.g_symbol _) in *. clearbody sym.
      rewrite E. apply in_elt.
Qed.

Lemma guessCellMeaning_symbol_cell_witness :
  exists h,
    EmailParser.guessCellMeaning ["Apple Inc"; "AAPL"; "12"; "$2,400.00"] = Some h
    /\ h_name h = h_symbol h
    /\ h_symbol h = "AAPL".
Proof.
  eexists. split; [vm_compute; reflexivity|].
  split; [|reflexivity].
  match goal with
  | |- h_name ?h = _ =>
      assert (E : EmailParser.guessCellMeaning ["Apple Inc"; "AAPL"; "12"; "$2,400.00"]
                  = Some h) by (vm_compute; reflexivity)
  end.
  exact (proj1 (proj2 (proj1 (proj2
           (guessCellMeaning_symbol_cell ["Apple Inc"; "AAPL"; "12"; "$2,400.00"])) _ E))).
Defined.

(** ** Model watch list *)

Module WatchListFacts.

Import ModelWatchListService ReportFacts.

Lemma keptOf_snoc (key : string) (seen : list WatchListModel.t) (a : WatchListModel.t) :
  keptOf key (seen ++ [a])
  = if String.eqb (keyOf a) key then
      match keptOf key seen with
      | Some existing => Some (if better a existing then a else existing)
      | None => Some a
      end
    else keptOf key seen.
Proof.
  unfold keptOf. rewrite filter_app. cbn [filter].
  destruct (String.eqb (keyOf a) key); [|now rewrite app_nil_r].
  destruct (filter _ seen) as [|first later]; [reflexivity|].
  cbn [app]. now rewrite fold_left_app.
Qed.

Lemma keptOf_In (key : string) (models : list WatchListModel.t) (r : WatchListModel.t) :
  keptOf key models = Some r -> In r models /\ keyOf r = key.
Proof.
  unfold keptOf.
  destruct (filter _ models) as [|first later] eqn:F; [discriminate|].
  intros [= <-].
  assert (S : forall x, In x (first :: later) -> In x models /\ keyOf x = key).
  { intros x Hx. rewrite <- F in Hx. apply filter_In in Hx as [I E].
    split; [exact I | now apply String.eqb_eq]. }
  clear F. revert first S. induction later as [|m later IH]; intros first S.
  - apply S. now left.
  - cbn [fold_left]. apply IH. intros x [<- | Hx].
    + destruct (better m first); apply S; [right; now left | now left].
    + apply S. right. now right.
Qed.

Lemma keptOf_key (key : string) (models : list WatchListModel.t) :
  In key (map keyOf models) -> exists r, keptOf key models = Some r.
Proof.
  intros H. apply in_map_iff in H as (a & E & I). unfold keptOf.
  destruct (filter _ models) as [|first later] eqn:F; [|eexists; reflexivity].
  exfalso. assert (X : In a (filter (fun model => String.eqb (keyOf model) key) models)).
  { apply filter_In. split; [exact I | now apply String.eqb_eq]. }
  rewrite F in X. contradiction.
Qed.

Lemma keptOf_none (key : string) (models : list WatchListModel.t) :
  ~ In key (map keyOf models) -> keptOf key models = None.
Proof.
  intros N. destruct (keptOf key models) as [r|] eqn:E; [|reflexivity].
  exfalso. apply keptOf_In in E as [I K]. apply N. apply in_map_iff. now exists r.
Qed.

Lemma keptEntries_ext (s1 s2 : list WatchListModel.t) (keys : list string) :
  (forall k, In k keys -> keptOf k s1 = keptOf k s2) ->
  keptEntries s1 keys = keptEntries s2 keys.
Proof.
  induction keys as [|k keys IH]; intros E; [reflexivity|].
  unfold keptEntries in *. cbn [flat_map].
  rewrite (E k (or_introl eq_refl)). f_equal.
  apply IH. intros y Hy. apply E. now right.
Qed.

Lemma keptEntries_cons (seen : list WatchListModel.t) (k : string) (keys : list string) :
  keptEntries seen (k :: keys)
  = (match keptOf k seen with
     | Some model => [(k, model)]
     | None => []
     end ++ keptEntries seen keys)%list.
Proof. reflexivity. Qed.

Lemma keptEntries_app (seen : list WatchListModel.t) (k1 k2 : list string) :
  keptEntries seen (k1 ++ k2)
  = (keptEntries seen k1 ++ keptEntries seen k2)%list.
Proof. unfold keptEntries. apply flat_map_app. Qed.

Lemma keepBetter_entries (seen : list WatchListModel.t) (a : WatchListModel.t) :
  forall keys,
    NoDup keys -> (forall k, In k keys -> In k (map keyOf seen)) ->
    keepBetter (keptEntries seen keys) (keyOf a) a
    = (keptEntries (seen ++ [a]) keys
       ++ if JS.arrIncludes keys (keyOf a) then [] else [(keyOf a, a)])%list.
Proof.
  induction keys as [|k keys IH]; intros N S; [reflexivity|].
  inversion N as [|? ? Nk N']; subst.
  destruct (keptOf_key k seen (S k (or_introl eq_refl))) as (x & Ex).
  rewrite !keptEntries_cons, Ex, keptOf_snoc, Ex.
  cbn [app keepBetter]. unfold JS.arrIncludes. cbn [existsb].
  fold (JS.arrIncludes keys (keyOf a)). rewrite (String.eqb_sym k (keyOf a)).
  destruct (String.eqb_spec (keyOf a) k) as [E|D]; cbn [orb app].
  - rewrite app_nil_r.
    assert (T : keptEntries (seen ++ [a]) keys = keptEntries seen keys).
    { apply keptEntries_ext. intros y Hy. rewrite keptOf_snoc.
      destruct (String.eqb_spec (keyOf a) y) as [E'|]; [|reflexivity].
      exfalso. apply Nk. congruence. }
    rewrite T. now destruct (better a x).
  - f_equal. apply IH; [exact N'|]. intros y Hy. apply S. now right.
Qed.

Lemma keepBetter_keptMap (seen : list WatchListModel.t) (a : WatchListModel.t) :
  keepBetter (keptMap seen) (keyOf a) a = keptMap (seen ++ [a]).
Proof.
  unfold keptMap. rewrite keepBetter_entries.
  - rewrite map_app. cbn [map]. rewrite uniq_snoc, arrIncludes_uniq.
    destruct (JS.arrIncludes (map keyOf seen) (keyOf a)) eqn:I.
    + apply app_nil_r.
    + rewrite keptEntries_app. f_equal.
      rewrite keptEntries_cons, keptOf_snoc, String.eqb_refl, keptOf_none.
      * reflexivity.
      * now apply LookupFacts.arrIncludes_false.
  - apply NoDup_uniq.
  - intros k Hk. exact (proj1 (LookupFacts.In_uniq k _) Hk).
Qed.

Lemma removeDuplicateModels_keptMap (models : list WatchListModel.t) :
  removeDuplicateModels models = map snd (keptMap models).
Proof.
  unfold removeDuplicateModels. f_equal.
  change (@nil (string * WatchListModel.t)) with (keptMap []).
  change models with ([] ++ models)%list at 2.
  generalize (@nil WatchListModel.t) as seen.
  induction models as [|a models IH]; intros seen.
  - now rewrite app_nil_r.
  - cbn [fold_left]. rewrite keepBetter_keptMap, IH, <- app_assoc. reflexivity.
Qed.

Lemma keptMap_entries (models : list WatchListModel.t) :
  keptMap models
  = map (fun k => (k, match keptOf k models with
                      | Some r => r
                      | None => {| WatchListModel.name := k;
                                   WatchListModel.symbol := k;
                                   WatchListModel.return12Month := Num.zero;
                                   WatchListModel.returnYTD := Num.zero;
                                   WatchListModel.finalEquity := Num.zero;
                                   WatchListModel.sharpeRatio := Num.zero;
                                   WatchListModel.maxDrawdown := Num.zero;
                                   WatchListModel.portfolio := k;
                                   WatchListModel.isOwned := false |}
                      end))
        (JS.uniq (map keyOf models)).
Proof.
  unfold keptMap.
  assert (S : forall k, In k (JS.uniq (map keyOf models)) -> In k (map keyOf models)).
  { intros k Hk. exact (proj1 (LookupFacts.In_uniq k _) Hk). }
  induction (JS.uniq (map keyOf models)) as [|k keys IH]; [reflexivity|].
  rewrite keptEntries_cons. cbn [map].
  destruct (keptOf_key k models (S k (or_introl eq_refl))) as (x & ->).
  cbn [app]. f_equal. apply IH. intros y Hy. apply S. now right.
Qed.

(** *** The order of [>] and [===] on numbers *)

Lemma compare_cont_eq (m1 m2 : positive) :
  Pos.compare_cont Eq m1 m2 = Pos.compare m1 m2.
Proof. reflexivity. Qed.

Ltac order_cases :=
  repeat match goal with
         | |- context [Pos.compare_cont Eq ?x ?y] =>
             change (Pos.compare_cont Eq x y) with (Pos.compare x y)
         end;
  repeat match goal with
         | |- context [Z.compare ?a ?b] =>
             destruct (Z.compare_spec a b); subst; cbn [CompOpp]
         | |- context [Pos.compare ?a ?b] =>
             destruct (Pos.compare_spec a b); subst; cbn [CompOpp]
         end;
  intros; try discriminate; try reflexivity; try lia.

Lemma SFltb_trans (a b c : spec_float) :
  SFltb a b = true -> SFltb b c = true -> SFltb a c = true.
Proof.
  unfold SFltb, SFcompare.
  destruct a as [[]|[]| |[] ma ea], b as [[]|[]| |[] mb eb], c as [[]|[]| |[] mc ec];
    cbn; try discriminate; try reflexivity; order_cases.
Qed.

Lemma SFltb_irrefl (a : spec_float) : SFltb a a = false.
Proof.
  unfold SFltb, SFcompare. destruct a as [[]|[]| |[] ma ea]; cbn; try reflexivity;
    rewrite ?compare_cont_eq, Z.compare_refl, Pos.compare_refl; reflexivity.
Qed.

Lemma SFeqb_SFltb (a b c : spec_float) :
  SFeqb a b = true -> SFltb b c = true -> SFltb a c = true.
Proof.
  unfold SFltb, SFeqb, SFcompare.
  destruct a as [[]|[]| |[] ma ea], b as [[]|[]| |[] mb eb], c as [[]|[]| |[] mc ec];
    cbn; try discriminate; try reflexivity; order_cases.
Qed.

Lemma SFltb_SFeqb (a b c : spec_float) :
  SFltb a b = true -> SFeqb b c = true -> SFltb a c = true.
Proof.
  unfold SFltb, SFeqb, SFcompare.
  destruct a as [[]|[]| |[] ma ea], b as [[]|[]| |[] mb eb], c as [[]|[]| |[] mc ec];
    cbn; try discriminate; try reflexivity; order_cases.
Qed.

Lemma SFeqb_trans (a b c : spec_float) :
  SFeqb a b = true -> SFeqb b c = true -> SFeqb a c = true.
Proof.
  unfold SFeqb, SFcompare.
  destruct a as [[]|[]| |[] ma ea], b as [[]|[]| |[] mb eb], c as [[]|[]| |[] mc ec];
    cbn; try discriminate; try reflexivity; order_cases.
Qed.

Lemma SFeqb_sym (a b : spec_float) : SFeqb a b = true -> SFeqb b a = true.
Proof.
  unfold SFeqb, SFcompare.
  destruct a as [[]|[]| |[] ma ea], b as [[]|[]| |[] mb eb];
    cbn; try discriminate; try reflexivity; order_cases.
Qed.

Lemma better_irrefl (a : WatchListModel.t) : better a a = false.
Proof.
  unfold better, EmailParser.gt. rewrite !SFltb_irrefl.
  now rewrite Bool.andb_false_r.
Qed.

Lemma better_trans (a b c : WatchListModel.t) :
  better a b = true -> better b c = true -> better a c = true.
Proof.
  unfold better, EmailParser.gt, EmailParser.strictEq. intros H1 H2.
  apply Bool.orb_true_iff in H1, H2. apply Bool.orb_true_iff.
  destruct H1 as [H1|H1], H2 as [H2|H2];
    try (apply andb_prop in H1 as [E1 G1]); try (apply andb_prop in H2 as [E2 G2]).
  - left. exact (SFltb_trans _ _ _ H2 H1).
  - left. exact (SFeqb_SFltb _ _ _ (SFeqb_sym _ _ E2) H1).
  - left. exact (SFltb_SFeqb _ _ _ H2 (SFeqb_sym _ _ E1)).
  - right. apply andb_true_intro. split.
    + exact (SFeqb_trans _ _ _ E1 E2).
    + exact (SFltb_trans _ _ _ G2 G1).
Qed.

Lemma fold_better (later seen : list WatchListModel.t) (first : WatchListModel.t) :
  (forall x, In x seen -> better x first = false) ->
  forall x, In x (seen ++ later) ->
            better x (fold_left (fun existing model =>
                                   if better model existing then model else existing)
                                later first) = false.
Proof.
  revert seen first. induction later as [|m later IH]; intros seen first S x Hx.
  - rewrite app_nil_r in Hx. now apply S.
  - cbn [fold_left]. apply (IH (seen ++ [m])%list).
    + intros y Hy. apply in_app_or in Hy as [Hy | [<- | []]].
      * destruct (better m first) eqn:B; [|now apply S].
        destruct (better y m) eqn:Y; [|reflexivity].
        rewrite <- (S y Hy). symmetry. now apply (better_trans y m first).
      * destruct (better m first) eqn:B; [apply better_irrefl | exact B].
    + now rewrite <- app_assoc.
Qed.

Lemma keptOf_best (key : string) (models : list WatchListModel.t) (r : WatchListModel.t) :
  keptOf key models = Some r ->
  forall m, In m models -> keyOf m = key -> better m r = false.
Proof.
  unfold keptOf. intros K m I E.
  assert (F : In m (filter (fun model => String.eqb (keyOf model) key) models)).
  { apply filter_In. split; [exact I | now apply String.eqb_eq]. }
  destruct (filter _ models) as [|first later]; [discriminate|].
  injection K as <-. apply (fold_better later [first]); [|exact F].
  intros x [<- | []]. apply better_irrefl.
Qed.

Lemma removeDuplicateModels_keys (models : list WatchListModel.t) :
  map keyOf (removeDuplicateModels models) = JS.uniq (map keyOf models).
Proof.
  rewrite removeDuplicateModels_keptMap, keptMap_entries, !map_map. cbn [snd].
  rewrite <- (map_id (JS.uniq (map keyOf models))) at 2.
  apply map_ext_in. intros k Hk.
  apply LookupFacts.In_uniq, keptOf_key in Hk as (r & E). rewrite E.
  now apply keptOf_In in E.
Qed.

Lemma In_removeDuplicateModels (models : list WatchListModel.t) (r : WatchListModel.t) :
  In r (removeDuplicateModels models) <-> keptOf (keyOf r) models = Some r.
Proof.
  rewrite removeDuplicateModels_keptMap, keptMap_entries, map_map. cbn [snd].
  rewrite in_map_iff. split.
  - intros (k & E & Hk).
    apply LookupFacts.In_uniq, keptOf_key in Hk as (x & K). rewrite K in E. subst x.
    pose proof (keptOf_In _ _ _ K) as [_ <-]. exact K.
  - intros K. exists (keyOf r). rewrite K. split; [reflexivity|].
    apply LookupFacts.In_uniq. apply keptOf_In in K as [I _]. now apply in_map.
Qed.

End WatchListFacts.

(** X22.  [removeDuplicateModels] keeps one model for each lower-cased
    name, in the order in which the names first occur.  The kept model is
    one of the given models, and no given model with the same lower-cased
    name is better than it: none has a greater 12-month return, or an
    equal 12-month return with a greater final equity. *)
Theorem removeDuplicateModels_keeps_best_per_name (models : list WatchListModel.t) :
  let result := ModelWatchListService.removeDuplicateModels models in
  map ModelWatchListService.keyOf result
  = JS.uniq (map ModelWatchListService.keyOf models)
  /\ NoDup (map ModelWatchListService.keyOf result)
  /\ (forall r, In r result -> In r models)
  /\ (forall m r, In m models -> In r result ->
                  ModelWatchListService.keyOf m = ModelWatchListService.keyOf r ->
                  ModelWatchListService.better m r = false).
Proof.
  cbv zeta. split; [apply WatchListFacts.removeDuplicateModels_keys|].
  split; [rewrite WatchListFacts.removeDuplicateModels_keys; apply ReportFacts.NoDup_uniq|].
  split.
  - intros r Hr. apply WatchListFacts.In_removeDuplicateModels in Hr.
    now apply WatchListFacts.keptOf_In in Hr.
  - intros m r Hm Hr E. apply WatchListFacts.In_removeDuplicateModels in Hr.
    exact (WatchListFacts.keptOf_best _ _ _ Hr m Hm E).
Qed.

(** X23.  [convertToWatchListModels] returns only watch list models made
    from holdings that have performance data, each marked as owned exactly
    when its name matches one of [ourHoldings] by [modelsMatch].  Every
    holding with performance data is represented by a returned model with
    the same lower-cased name, and the 12-month return of the holding, 0
    when it has none, is not greater than that of the returned model.  No
    returned 12-month return is NaN. *)
Theorem convertToWatchListModels_from_holdings
    (allModels : list Holding) (ourHoldings : list string) :
  let result := ModelWatchListService.convertToWatchListModels allModels ourHoldings in
  (forall r, In r result ->
     (exists model perf,
         In model allModels /\ h_performance model = Some perf
         /\ r = ModelWatchListService.toWatchListModel ourHoldings model perf)
     /\ (WatchListModel.isOwned r = true <->
         exists owned, In owned ourHoldings
                       /\ ModelWatchListService.modelsMatch (WatchListModel.name r) owned
                          = true)
     /\ WatchListModel.return12Month r <> S754_nan)
  /\ (forall model perf,
        In model allModels -> h_performance model = Some perf ->
        exists r, In r result
                  /\ ModelWatchListService.keyOf r = JS.toLowerCase (h_name model)
                  /\ EmailParser.gt (Num.orElse (return12Month perf) Num.zero)
                                    (WatchListModel.return12Month r) = false).
Proof.
  cbv zeta. unfold ModelWatchListService.convertToWatchListModels.
  set (ws := flat_map _ allModels).
  assert (W : forall w, In w ws <->
                        exists model perf,
                          In model allModels /\ h_performance model = Some perf
                          /\ w = ModelWatchListService.toWatchListModel ourHoldings model perf).
  { intros w. unfold ws. rewrite in_flat_map. split.
    - intros (model & I & Hw). exists model.
      destruct (h_performance model) as [perf|]; [|contradiction].
      destruct Hw as [<- | []]. now exists perf.
    - intros (model & perf & I & P & ->). exists model. split; [exact I|].
      rewrite P. now left. }
  split.
  - intros r Hr. apply WatchListFacts.In_removeDuplicateModels in Hr.
    apply WatchListFacts.keptOf_In in Hr as [Hr _].
    apply W in Hr as (model & perf & I & P & ->). split; [now exists model, perf|].
    split.
    + cbn [WatchListModel.isOwned WatchListModel.name
           ModelWatchListService.toWatchListModel].
      rewrite existsb_exists. split; intros (owned & A & B); exists owned; now split.
    + cbn [WatchListModel.return12Month ModelWatchListService.toWatchListModel].
      unfold Num.orElse. now destruct (return12Month perf).
  - intros model perf I P.
    set (w := ModelWatchListService.toWatchListModel ourHoldings model perf).
    assert (Hw : In w ws) by (apply W; now exists model, perf).
    destruct (WatchListFacts.keptOf_key (ModelWatchListService.keyOf w) ws)
      as (r & K); [now apply in_map|].
    pose proof (WatchListFacts.keptOf_In _ _ _ K) as [Ir Kr].
    exists r. split; [apply WatchListFacts.In_removeDuplicateModels; now rewrite Kr|].
    split; [exact Kr|].
    pose proof (WatchListFacts.keptOf_best _ _ _ K w Hw eq_refl) as B.
    unfold ModelWatchListService.better in B.
    apply Bool.orb_false_iff in B as [B _]. exact B.
Qed.

(** Two spellings of one name: the later one has the greater 12-month
    return and takes the place of the earlier one. *)
Example removeDuplicateModels_later_better :
  let model (name : string) (ret : Z) :=
    {| WatchListModel.name := name; WatchListModel.symbol := name;
       WatchListModel.return12Month := Num.ofZ ret;
       WatchListModel.returnYTD := Num.zero;
       WatchListModel.finalEquity := Num.zero;
       WatchListModel.sharpeRatio := Num.zero;
       WatchListModel.maxDrawdown := Num.zero;
       WatchListModel.portfolio := EmptyString;
       WatchListModel.isOwned := false |} in
  ModelWatchListService.removeDuplicateModels
    [model "Alpha Fund" 10%Z; model "Beta" 7%Z; model "ALPHA FUND" 12%Z; model "beta" 3%Z]
  = [model "ALPHA FUND" 12%Z; model "Beta" 7%Z].
Proof. vm_compute. reflexivity. Qed.

(** ** HTML entities *)

Module EntityFacts.

Import Regex StringFacts RegexFacts.

(** No character of [s] is [a]. *)
Local Abbreviation free a s := (JS.allChars (fun c => negb (JS.isChar a c)) s = true).

Lemma includes_free (a : ascii) (s : string) :
  JS.includes s (String a EmptyString) = false <-> free a s.
Proof.
  induction s as [|c s IH]; [now split|].
  cbn [JS.includes JS.allChars String.prefix]. unfold JS.isChar.
  destruct (Ascii.eqb_spec a c) as [->|D].
  - destruct (ascii_dec c c) as [_|N]; [|now contradiction N].
    destruct s; split; discriminate.
  - destruct (ascii_dec a c) as [E|_]; [now contradiction D|].
    cbn [negb orb andb]. exact IH.
Qed.

Lemma free_app (a : ascii) (s t : string) :
  free a s -> free a t -> free a (s ++ t).
Proof.
  induction s as [|c s IH]; intros Hs Ht; [exact Ht|].
  cbn [append JS.allChars] in *. apply andb_prop in Hs as [H1 H2].
  rewrite H1. now apply IH.
Qed.

Lemma matchAt_head_miss (a c : ascii) (r : regex) (s : string) :
  JS.isChar a c = false -> matchAt (Cat (Lit a) r) (String c s) = None.
Proof. intros H. unfold matchAt, Lit. cbn [exec]. now rewrite H. Qed.

Lemma replaceAll_free_prefix (a : ascii) (r : regex) (repl pre s : string) :
  free a pre ->
  replaceAll (Cat (Lit a) r) repl (pre ++ s) 0
  = pre ++ replaceAll (Cat (Lit a) r) repl s 0.
Proof.
  induction pre as [|c pre IH]; intros F; [reflexivity|].
  cbn [JS.allChars] in F. apply andb_prop in F as [F1 F2].
  cbn [append replaceAll]. rewrite matchAt_head_miss.
  - now rewrite IH.
  - now destruct (JS.isChar a c).
Qed.

Lemma replaceAll_free (a : ascii) (r : regex) (repl s : string) :
  free a s -> replaceAll (Cat (Lit a) r) repl s 0 = s.
Proof.
  intros F. rewrite <- (append_nil_r s) at 1.
  rewrite replaceAll_free_prefix by exact F.
  cbn [replaceAll]. unfold matchAt, Lit. cbn [exec]. apply append_nil_r.
Qed.

Lemma exec_literal (e rest : string) (k : string -> option string) :
  exec (EmailParser.literal e) (e ++ rest) k = k rest.
Proof.
  induction e as [|c e IH]; [reflexivity|].
  cbn [EmailParser.literal append]. unfold Lit. cbn [exec].
  unfold JS.isChar. rewrite Ascii.eqb_refl. apply IH.
Qed.

Lemma replaceAll_skip (r : regex) (repl m s : string) :
  replaceAll r repl (m ++ s) (length m) = replaceAll r repl s 0.
Proof.
  induction m as [|c m IH]; [reflexivity|]. cbn [append length replaceAll]. exact IH.
Qed.

Lemma replaceAll_literal_hit (c : ascii) (e repl rest : string) :
  replaceAll (EmailParser.literal (String c e)) repl (String c e ++ rest) 0
  = repl ++ replaceAll (EmailParser.literal (String c e)) repl rest 0.
Proof.
  cbn [append replaceAll].
  change (String c (e ++ rest)) with (String c e ++ rest) at 1.
  unfold matchAt. rewrite exec_literal, substring_take.
  cbn [length]. now rewrite replaceAll_skip.
Qed.

Lemma literal_free_prefix (a : ascii) (e repl pre s : string) :
  free a pre ->
  replaceAll (EmailParser.literal (String a e)) repl (pre ++ s) 0
  = pre ++ replaceAll (EmailParser.literal (String a e)) repl s 0.
Proof. apply replaceAll_free_prefix. Qed.

Lemma literal_free (a : ascii) (e repl s : string) :
  free a s -> replaceAll (EmailParser.literal (String a e)) repl s 0 = s.
Proof. apply replaceAll_free. Qed.

Lemma literal_head_miss (e repl : string) (c : ascii) (s : string) :
  matchAt (EmailParser.literal e) (String c s) = None ->
  replaceAll (EmailParser.literal e) repl (String c s) 0
  = String c (replaceAll (EmailParser.literal e) repl s 0).
Proof. intros H. cbn [replaceAll]. now rewrite H. Qed.

Lemma exec_literal_miss (e s : string) (k : string -> option string) :
  String.prefix e s = false -> exec (EmailParser.literal e) s k = None.
Proof.
  revert s. induction e as [|c e IH]; intros s H; [now destruct s|].
  cbn [EmailParser.literal]. unfold Lit. cbn [exec].
  destruct s as [|d s]; [reflexivity|]. cbn [String.prefix] in H.
  unfold JS.isChar. destruct (Ascii.eqb_spec c d) as [->|D]; [|reflexivity].
  destruct (ascii_dec d d) as [_|N]; [now apply IH | now contradiction N].
Qed.

Lemma matchAt_rest_miss (c : ascii) (e s : string) :
  String.prefix e s = false ->
  matchAt (EmailParser.literal (String c e)) (String c s) = None.
Proof.
  intros H. unfold matchAt. cbn [EmailParser.literal]. unfold Lit. cbn [exec].
  unfold JS.isChar. rewrite Ascii.eqb_refl. now rewrite exec_literal_miss.
Qed.

Lemma truthy_app (a : string) (c : ascii) (b : string) :
  JS.truthy (a ++ String c b) = true.
Proof. now destruct a. Qed.

Ltac solve_free :=
  repeat first [ assumption | apply free_app | progress cbn ].

(** The innermost pass of [decodeHtmlEntities] that is left, over a text
    whose only ampersand, if any, is the one shown. *)
Ltac strip e s :=
  lazymatch e with
  | EmptyString => s
  | String _ ?e' => lazymatch s with String _ ?s' => strip e' s' end
  end.

Ltac entity_hit :=
  match goal with
  | |- context [replaceAll (EmailParser.literal ?e) ?repl ?s 0] =>
      let b := strip e s in
      let H := fresh in
      assert (H : s = (e ++ b)%string) by reflexivity;
      rewrite H, replaceAll_literal_hit; clear H;
      rewrite literal_free by solve_free
  end.

Ltac entity_inner :=
  first
    [ rewrite literal_free by solve_free
    | rewrite literal_free_prefix by solve_free;
      first
        [ rewrite literal_head_miss by reflexivity;
          rewrite literal_free by solve_free
        | rewrite literal_head_miss by (apply matchAt_rest_miss; assumption);
          rewrite literal_free by solve_free
        | entity_hit ] ];
  reflexivity.

Ltac entity_pass :=
  match goal with
  | |- context [replaceAll (EmailParser.literal ?e) ?repl ?s 0] =>
      lazymatch s with
      | context [replaceAll] => fail
      | _ => idtac
      end;
      let X := fresh "X" in
      eassert (X : replaceAll (EmailParser.literal e) repl s 0 = _);
      [ entity_inner | rewrite X; clear X; cbn [append] ]
  end.

End EntityFacts.

(** X24.  [decodeHtmlEntities] returns a text that contains no ampersand
    unchanged. *)
Theorem decodeHtmlEntities_without_ampersand (text : string) :
  JS.includes text "&" = false ->
  EmailParser.decodeHtmlEntities text = text.
Proof.
  intros H. apply EntityFacts.includes_free in H.
  unfold EmailParser.decodeHtmlEntities.
  destruct (negb (JS.truthy text)); [reflexivity|]. cbv zeta.
  now rewrite !(EntityFacts.literal_free _ _ _ text H).
Qed.

Lemma decodeHtmlEntities_without_ampersand_witness :
  JS.includes "Glen Growth" "&" = false
  /\ EmailParser.decodeHtmlEntities "Glen Growth" = "Glen Growth".
Proof.
  split; [reflexivity|].
  apply (decodeHtmlEntities_without_ampersand "Glen Growth"). reflexivity.
Defined.

(** X25.  In a text with one entity and no other ampersand,
    [decodeHtmlEntities] puts the character of the entity in its place:
    the less-than sign, the greater-than sign, the double quote, the
    apostrophe or a space.  For [&amp;] this holds when the text after the
    entity does not go on with [lt;], [gt;], [quot;], [#039;] or
    [nbsp;]. *)
Theorem decodeHtmlEntities_single_entity (before after entity char : string) :
  In (entity, char)
     [("&amp;", "&"); ("&lt;", "<"); ("&gt;", ">");
      ("&quot;", String "034"%char EmptyString); ("&#039;", "'"); ("&nbsp;", " ")] ->
  JS.includes before "&" = false ->
  JS.includes after "&" = false ->
  (entity = "&amp;" ->
   forallb (fun rest => negb (JS.startsWith after rest))
           ["lt;"; "gt;"; "quot;"; "#039;"; "nbsp;"] = true) ->
  EmailParser.decodeHtmlEntities (before ++ entity ++ after) = before ++ char ++ after.
Proof.
  intros E Hb Ha Hamp.
  apply EntityFacts.includes_free in Hb, Ha.
  unfold EmailParser.decodeHtmlEntities.
  cbn [In] in E.
  destruct E as [E|[E|[E|[E|[E|[E|[]]]]]]]; injection E as <- <-;
    cbn [append]; rewrite EntityFacts.truthy_app; cbn [negb]; cbv zeta.
  - specialize (Hamp eq_refl). cbn [forallb] in Hamp. unfold JS.startsWith in Hamp.
    repeat match type of Hamp with
           | _ && _ = true => apply andb_prop in Hamp as [? Hamp]
           end.
    repeat match goal with
           | H : negb _ = true |- _ => apply Bool.negb_true_iff in H
           end.
    repeat EntityFacts.entity_pass. reflexivity.
  - repeat EntityFacts.entity_pass. reflexivity.
  - repeat EntityFacts.entity_pass. reflexivity.
  - repeat EntityFacts.entity_pass. reflexivity.
  - repeat EntityFacts.entity_pass. reflexivity.
  - repeat EntityFacts.entity_pass. reflexivity.
Qed.

Lemma decodeHtmlEntities_single_entity_witness :
  JS.includes "Smith " "&" = false
  /\ JS.includes " Sons" "&" = false
  /\ EmailParser.decodeHtmlEntities "Smith &amp; Sons" = "Smith & Sons".
Proof.
  split; [reflexivity|]. split; [reflexivity|].
  apply (decodeHtmlEntities_single_entity "Smith " " Sons" "&amp;" "&").
  - left. reflexivity.
  - reflexivity.
  - reflexivity.
  - intros _. reflexivity.
Defined.

(** X26.  [decodeHtmlEntities] decodes [&amp;] first, so that an escaped
    entity is decoded twice: where the text has [&amp;lt;], which stands
    for the four characters [&lt;], the result has the less-than sign, and
    likewise for the other entities. *)
Theorem decodeHtmlEntities_decodes_twice (before after rest char : string) :
  In (rest, char)
     [("lt;", "<"); ("gt;", ">"); ("quot;", String "034"%char EmptyString);
      ("#039;", "'"); ("nbsp;", " ")] ->
  JS.includes before "&" = false ->
  JS.includes after "&" = false ->
  EmailParser.decodeHtmlEntities (before ++ "&amp;" ++ rest ++ after)
  = before ++ char ++ after.
Proof.
  intros E Hb Ha.
  apply EntityFacts.includes_free in Hb, Ha.
  unfold EmailParser.decodeHtmlEntities.
  cbn [In] in E.
  destruct E as [E|[E|[E|[E|[E|[]]]]]]; injection E as <- <-;
    cbn [append]; rewrite EntityFacts.truthy_app; cbn [negb]; cbv zeta;
    repeat EntityFacts.entity_pass; reflexivity.
Qed.

Lemma decodeHtmlEntities_decodes_twice_witness :
  JS.includes "a " "&" = false
  /\ JS.includes " b" "&" = false
  /\ EmailParser.decodeHtmlEntities "a &amp;lt; b" = "a < b".
Proof.
  split; [reflexivity|]. split; [reflexivity|].
  apply (decodeHtmlEntities_decodes_twice "a " " b" "lt;" "<").
  - left. reflexivity.
  - reflexivity.
  - reflexivity.
Defined.
